(** * Device links and device registration of drivers/base/core.c

    A shallow embedding of the device-link part of the driver core
    (device_is_dependent, device_reorder_to_tail, device_link_add, the
    link state helpers, device_links_purge) and of device_add /
    device_del, followed by the properties of the dependency graph and
    of the two ordering lists (devices_kset->list and dpm_list).

    Pointers to [struct device] and [struct device_link] are addresses
    (natural numbers); a NULL pointer is [None]. The link functions run
    with device_links_lock (and, where the source takes it, the PM
    lock) held, so each is one atomic state transformer. device_add and
    device_del are state transformers as well: the calls they make into
    sysfs, the bus, the class, uevents and runtime PM are not followed,
    and their results, where the control flow depends on them, are
    inputs. The one exception is the place where device_add hands the
    new device to the bus (the notifier chain, the uevent and
    bus_probe_device): a driver that is probed there calls back into
    the driver core, with no lock held, while the device is on both
    ordering lists and not yet on the klist of its parent. What is
    called there is an argument of device_add, and the calls of other
    functions can be interleaved with the two halves of device_add. *)

From Stdlib Require Import List Arith ZArith Bool Lia Classical.
Import ListNotations.

(** ** Data model *)

Definition dev_id := nat.
Definition link_addr := nat.

(** Modelled from the spec: [enum dl_dev_state] of include/linux/device.h,
    which is not part of the sources; the four values of
    [dev->links.status]. *)
Inductive dl_dev_state :=
| DL_DEV_NO_DRIVER
| DL_DEV_PROBING
| DL_DEV_DRIVER_BOUND
| DL_DEV_UNBINDING.

(** Modelled from the spec: [enum device_link_state] of
    include/linux/device.h, the six values of [link->status]. *)
Inductive device_link_state :=
| DL_STATE_NONE
| DL_STATE_DORMANT
| DL_STATE_AVAILABLE
| DL_STATE_CONSUMER_PROBE
| DL_STATE_ACTIVE
| DL_STATE_SUPPLIER_UNBIND.

Definition device_link_state_eqb (a b : device_link_state) : bool :=
  match a, b with
  | DL_STATE_NONE, DL_STATE_NONE
  | DL_STATE_DORMANT, DL_STATE_DORMANT
  | DL_STATE_AVAILABLE, DL_STATE_AVAILABLE
  | DL_STATE_CONSUMER_PROBE, DL_STATE_CONSUMER_PROBE
  | DL_STATE_ACTIVE, DL_STATE_ACTIVE
  | DL_STATE_SUPPLIER_UNBIND, DL_STATE_SUPPLIER_UNBIND => true
  | _, _ => false
  end.

(** Modelled from the spec: the link flag bits of include/linux/device.h
    (STATELESS, AUTOREMOVE, RUNTIME-PM-MANAGED,
    RUNTIME-PM-ACTIVATE-ON-CREATE), as bits 0..3 of the u32 [flags]. *)
Definition DL_FLAG_STATELESS : Z := 1.
Definition DL_FLAG_AUTOREMOVE : Z := 2.
Definition DL_FLAG_PM_RUNTIME : Z := 4.
Definition DL_FLAG_RPM_ACTIVE : Z := 8.

(** [flags & bit] used as a C truth value. *)
Definition flag_set (flags bit : Z) : bool := negb (Z.land flags bit =? 0)%Z.

(** Modelled from the spec: the errno values behind InvalidName and
    RetryLater (include/uapi/asm-generic/errno-base.h and
    include/linux/errno.h are not part of the sources). *)
Definition EINVAL : Z := 22.
Definition EPROBE_DEFER : Z := 517.

(** [struct device_link]. [l_addr] is the address kzalloc returned. *)
Record device_link := mk_link {
  l_addr : link_addr;
  supplier : dev_id;
  consumer : dev_id;
  flags : Z;
  status : device_link_state;
  rpm_active : bool
}.

(** The memory the driver core works on.

    [struct device] is stored field by field, restricted to the fields
    the graph code reads: [dev_parent st d] is [d->parent], [dev_p st d]
    is [d->p] (NULL, or the private part, whose [klist_children] is the
    list of children in insertion order), [dev_links_status st d] is
    [d->links.status] and [dev_kref st d] counts the references on
    [d->kobj] that this file takes and gives up: with get_device and
    put_device, through the klists (klist_children_get and
    klist_children_put) and through the links. The reference that the
    kobject library itself keeps on the parent of a kobject from
    kobject_add to kobject_del, and that kobject_move hands from the
    old parent to the new one, is kept inside lib/kobject.c (not part
    of the sources) and is not included in [dev_kref].

    A link sits on exactly two intrusive lists, [supplier->links.consumers]
    (through [s_node]) and [consumer->links.suppliers] (through [c_node]),
    and is appended to both when it is created. [links] holds all links
    in creation order; the two per-device lists are its sub-lists
    [consumers] and [suppliers] below.

    [devices_kset] is [devices_kset->list] (walked backwards by
    device_shutdown); [dpm_list] is the list of the PM core that
    device_pm_add, device_pm_move_last and device_pm_remove maintain.
    [next_link] is the address the next successful kzalloc of a link
    returns. *)
Record state := mk_state {
  dev_parent : dev_id -> option dev_id;
  dev_p : dev_id -> option (list dev_id);
  dev_links_status : dev_id -> dl_dev_state;
  dev_kref : dev_id -> nat;
  links : list device_link;
  devices_kset : list dev_id;
  dpm_list : list dev_id;
  next_link : link_addr
}.

(** Memory before any device exists, after devices_init: every device
    structure is zeroed. *)
Definition init_state : state :=
  mk_state (fun _ => None) (fun _ => None) (fun _ => DL_DEV_NO_DRIVER)
           (fun _ => 0) [] [] [] 1.

(** ** Field updates *)

Definition upd {B : Type} (m : dev_id -> B) (d : dev_id) (v : B)
  : dev_id -> B :=
  fun x => if x =? d then v else m x.

Definition set_parent (st : state) (d : dev_id) (v : option dev_id) : state :=
  mk_state (upd (dev_parent st) d v) (dev_p st) (dev_links_status st)
           (dev_kref st) (links st) (devices_kset st) (dpm_list st)
           (next_link st).

Definition set_p (st : state) (d : dev_id) (v : option (list dev_id))
  : state :=
  mk_state (dev_parent st) (upd (dev_p st) d v) (dev_links_status st)
           (dev_kref st) (links st) (devices_kset st) (dpm_list st)
           (next_link st).

Definition set_links_status (st : state) (d : dev_id) (v : dl_dev_state)
  : state :=
  mk_state (dev_parent st) (dev_p st) (upd (dev_links_status st) d v)
           (dev_kref st) (links st) (devices_kset st) (dpm_list st)
           (next_link st).

Definition set_kref (st : state) (d : dev_id) (v : nat) : state :=
  mk_state (dev_parent st) (dev_p st) (dev_links_status st)
           (upd (dev_kref st) d v) (links st) (devices_kset st) (dpm_list st)
           (next_link st).

Definition set_links (st : state) (ls : list device_link) : state :=
  mk_state (dev_parent st) (dev_p st) (dev_links_status st) (dev_kref st)
           ls (devices_kset st) (dpm_list st) (next_link st).

Definition set_devices_kset (st : state) (l : list dev_id) : state :=
  mk_state (dev_parent st) (dev_p st) (dev_links_status st) (dev_kref st)
           (links st) l (dpm_list st) (next_link st).

Definition set_dpm_list (st : state) (l : list dev_id) : state :=
  mk_state (dev_parent st) (dev_p st) (dev_links_status st) (dev_kref st)
           (links st) (devices_kset st) l (next_link st).

Definition with_status (s : device_link_state) (l : device_link) : device_link :=
  mk_link (l_addr l) (supplier l) (consumer l) (flags l) s (rpm_active l).

(** ** List primitives

    Modelled from the spec: include/linux/list.h is not part of the
    sources; a list_head chain is the list of the addresses on it. *)

Definition mem (d : nat) (l : list nat) : bool := existsb (Nat.eqb d) l.

(** list_del: unlink the entry. *)
Definition list_del (d : nat) (l : list nat) : list nat :=
  filter (fun x => negb (x =? d)) l.

(** list_add_tail. *)
Definition list_add_tail (d : nat) (l : list nat) : list nat := l ++ [d].

(** list_move_tail: delete from the list and add at its tail. *)
Definition list_move_tail (d : nat) (l : list nat) : list nat :=
  list_add_tail d (list_del d l).

(** ** Reference counts *)

(** get_device: a NULL pointer is passed through. *)
Definition get_device (st : state) (od : option dev_id) : state :=
  match od with
  | Some d => set_kref st d (S (dev_kref st d))
  | None => st
  end.

(** put_device: only the count is modelled, not the release of the object
    once it drops to zero. *)
Definition put_device (st : state) (od : option dev_id) : state :=
  match od with
  | Some d => set_kref st d (pred (dev_kref st d))
  | None => st
  end.

(** ** Views of the graph *)

(** The klist of children of [d]; a device without private part has none
    (device_for_each_child returns at once when [parent->p] is NULL). *)
Definition children (st : state) (d : dev_id) : list dev_id :=
  match dev_p st d with
  | None => []
  | Some cs => cs
  end.

(** [dev->links.consumers]: the links whose supplier is [d]. *)
Definition consumers (st : state) (d : dev_id) : list device_link :=
  filter (fun l => supplier l =? d) (links st).

(** [dev->links.suppliers]: the links whose consumer is [d]. *)
Definition suppliers (st : state) (d : dev_id) : list device_link :=
  filter (fun l => consumer l =? d) (links st).

(** Modelled from the spec: device_is_registered reads
    [dev->kobj.state_in_sysfs], which kobject_add sets when it links the
    kobject into its kset and kobject_del clears when it unlinks it (the
    kobject code is not part of the sources): a registered Node is one
    that is on the ordering list. (device_shutdown takes devices off
    [devices_kset->list] with list_del_init and leaves
    [state_in_sysfs] set; the flag is not read again once the system
    shuts down, and no function below is applied to the states
    device_shutdown passes through.) *)
Definition device_is_registered (st : state) (d : dev_id) : bool :=
  mem d (devices_kset st).

(** Modelled from the spec: device_pm_initialized reads
    [dev->power.in_dpm_list], set by device_pm_add and cleared by
    device_pm_remove (drivers/base/power is not part of the sources). *)
Definition device_pm_initialized (st : state) (d : dev_id) : bool :=
  mem d (dpm_list st).

(** devices_kset_move_last; [devices_kset] itself is not NULL once
    devices_init has run. *)
Definition devices_kset_move_last (st : state) (d : dev_id) : state :=
  set_devices_kset st (list_move_tail d (devices_kset st)).

(** Modelled from the spec: device_pm_move_last of the PM core moves the
    device to the end of dpm_list. *)
Definition device_pm_move_last (st : state) (d : dev_id) : state :=
  set_dpm_list st (list_move_tail d (dpm_list st)).

(** ** device_is_dependent and device_reorder_to_tail

    Both functions recurse over children and consumers without a visited
    set; [fuel] bounds the depth of the recursion and [None] stands for
    a recursion that did not return within it. *)

(** A loop that calls [fn] on each entry and stops at the first non-zero
    result, as device_for_each_child and the consumer loop of
    device_is_dependent do. The int that device_is_dependent returns is
    only ever 0 or 1, a [bool] here. *)
Fixpoint for_each_until {A : Type} (fn : A -> option bool) (xs : list A)
  : option bool :=
  match xs with
  | [] => Some false
  | x :: xs' =>
      match fn x with
      | None => None
      | Some true => Some true
      | Some false => for_each_until fn xs'
      end
  end.

Fixpoint device_is_dependent (fuel : nat) (st : state) (dev target : dev_id)
  : option bool :=
  match fuel with
  | O => None
  | S n =>
      if dev =? target then Some true
      else
        match for_each_until (fun c => device_is_dependent n st c target)
                             (children st dev) with
        | None => None
        | Some true => Some true
        | Some false =>
            for_each_until
              (fun link =>
                 if consumer link =? target then Some true
                 else device_is_dependent n st (consumer link) target)
              (consumers st dev)
        end
  end.

(** A loop whose body only transforms the state (the callback returns 0). *)
Fixpoint for_each_do {A : Type} (fn : state -> A -> option state)
  (st : state) (xs : list A) : option state :=
  match xs with
  | [] => Some st
  | x :: xs' =>
      match fn st x with
      | None => None
      | Some st' => for_each_do fn st' xs'
      end
  end.

Fixpoint device_reorder_to_tail (fuel : nat) (st : state) (dev : dev_id)
  : option state :=
  match fuel with
  | O => None
  | S n =>
      let st1 := if device_is_registered st dev
                 then devices_kset_move_last st dev else st in
      let st2 := if device_pm_initialized st1 dev
                 then device_pm_move_last st1 dev else st1 in
      match for_each_do (device_reorder_to_tail n) st2 (children st2 dev) with
      | None => None
      | Some st3 =>
          for_each_do (fun s link => device_reorder_to_tail n s (consumer link))
                      st3 (consumers st3 dev)
      end
  end.

(** ** device_link_add *)

(** Results of the calls device_link_add makes outside the graph:
    whether kzalloc returned memory, and the value of
    pm_runtime_get_sync(supplier). *)
Record link_env := mk_link_env {
  kzalloc_ok : bool;
  pm_runtime_get_sync_r : Z
}.

(** "Determine the initial link state." *)
Definition initial_link_state (flags : Z) (sup con : dl_dev_state)
  : device_link_state :=
  if flag_set flags DL_FLAG_STATELESS then DL_STATE_NONE
  else
    match sup with
    | DL_DEV_DRIVER_BOUND =>
        match con with
        | DL_DEV_PROBING => DL_STATE_CONSUMER_PROBE
        | DL_DEV_DRIVER_BOUND => DL_STATE_ACTIVE
        | _ => DL_STATE_AVAILABLE
        end
    | DL_DEV_UNBINDING => DL_STATE_SUPPLIER_UNBIND
    | _ => DL_STATE_DORMANT
    end.

(** The search for a link from [con] on [sup->links.consumers]. *)
Definition find_link (st : state) (con sup : dev_id) : option device_link :=
  find (fun l => consumer l =? con) (consumers st sup).

Definition device_link_add (fuel : nat) (st : state)
  (con sup : option dev_id) (fl : Z) (env : link_env)
  : option (state * option link_addr) :=
  match con, sup with
  | Some c, Some s =>
      if flag_set fl DL_FLAG_STATELESS && flag_set fl DL_FLAG_AUTOREMOVE
      then Some (st, None)
      else if negb (device_pm_initialized st s) then Some (st, None)
      else
        match device_is_dependent fuel st c s with
        | None => None
        | Some true => Some (st, None)
        | Some false =>
            match find_link st c s with
            | Some link => Some (st, Some (l_addr link))
            | None =>
                if negb (kzalloc_ok env) then Some (st, None)
                else if flag_set fl DL_FLAG_PM_RUNTIME
                        && flag_set fl DL_FLAG_RPM_ACTIVE
                        && (pm_runtime_get_sync_r env <? 0)%Z
                then Some (st, None)
                else
                  let link :=
                    mk_link (next_link st) s c fl
                      (initial_link_state fl
                         (dev_links_status st s) (dev_links_status st c))
                      (flag_set fl DL_FLAG_PM_RUNTIME
                       && flag_set fl DL_FLAG_RPM_ACTIVE) in
                  let st1 := get_device st (Some s) in
                  let st2 := get_device st1 (Some c) in
                  match device_reorder_to_tail fuel st2 c with
                  | None => None
                  | Some st3 =>
                      Some (mk_state (dev_parent st3) (dev_p st3)
                              (dev_links_status st3) (dev_kref st3)
                              (links st3 ++ [link])
                              (devices_kset st3) (dpm_list st3)
                              (S (next_link st3)),
                            Some (l_addr link))
                  end
            end
        end
  | _, _ => Some (st, None)
  end.

(** ** Deleting links *)

(** __device_link_del: unlink [link] from both lists and free it;
    device_link_free drops the references on both ends (after a grace
    period when CONFIG_SRCU is set). *)
Definition __device_link_del (st : state) (link : device_link) : state :=
  let st1 := set_links st
               (filter (fun l => negb (l_addr l =? l_addr link)) (links st)) in
  put_device (put_device st1 (Some (consumer link))) (Some (supplier link)).

(** device_links_purge: both lists are walked backwards. *)
Definition device_links_purge (st : state) (dev : dev_id) : state :=
  let st1 := fold_left __device_link_del (rev (suppliers st dev)) st in
  fold_left __device_link_del (rev (consumers st1 dev)) st1.

(** ** The link state machine *)

Definition stateless (l : device_link) : bool :=
  flag_set (flags l) DL_FLAG_STATELESS.

(** device_links_missing_supplier: every link on [dev->links.suppliers]
    that is in CONSUMER_PROBE goes back to AVAILABLE. *)
Definition device_links_missing_supplier (st : state) (dev : dev_id) : state :=
  set_links st
    (map (fun l =>
            if (consumer l =? dev)
               && device_link_state_eqb (status l) DL_STATE_CONSUMER_PROBE
            then with_status DL_STATE_AVAILABLE l else l)
         (links st)).

(** The loop of device_links_check_suppliers over [dev->links.suppliers].
    [done] are the links already passed (with their new status) and
    [todo] those not reached yet; a link of another consumer is not on
    the list and is passed over. *)
Fixpoint check_suppliers_loop (st : state) (dev : dev_id)
  (done todo : list device_link) : state * Z :=
  match todo with
  | [] => (set_links st done, 0%Z)
  | link :: rest =>
      if negb (consumer link =? dev)
      then check_suppliers_loop st dev (done ++ [link]) rest
      else if stateless link
      then check_suppliers_loop st dev (done ++ [link]) rest
      else if negb (device_link_state_eqb (status link) DL_STATE_AVAILABLE)
      then (device_links_missing_supplier
              (set_links st (done ++ link :: rest)) dev,
            (- EPROBE_DEFER)%Z)
      else check_suppliers_loop st dev
             (done ++ [with_status DL_STATE_CONSUMER_PROBE link]) rest
  end.

Definition device_links_check_suppliers (st : state) (dev : dev_id)
  : state * Z :=
  let (st1, ret) := check_suppliers_loop st dev [] (links st) in
  (set_links_status st1 dev DL_DEV_PROBING, ret).

(** device_links_driver_bound. The WARN_ONs only print; the status is
    written whatever it was. *)
Definition device_links_driver_bound (st : state) (dev : dev_id) : state :=
  let ls1 := map (fun l =>
                    if (supplier l =? dev) && negb (stateless l)
                    then with_status DL_STATE_AVAILABLE l else l)
                 (links st) in
  let ls2 := map (fun l =>
                    if (consumer l =? dev) && negb (stateless l)
                    then with_status DL_STATE_ACTIVE l else l)
                 ls1 in
  set_links_status (set_links st ls2) dev DL_DEV_DRIVER_BOUND.

(** ** Registration *)

(** device_initialize: kobject_init sets the reference count to one; the
    two link lists are initialised empty, which in this memory model is
    the absence of links naming the device. *)
Definition device_initialize (st : state) (dev : dev_id) : state :=
  set_kref (set_links_status st dev DL_DEV_NO_DRIVER) dev 1.

(** Modelled from the spec: kobject_add (lib/kobject.c is not part of
    the sources) appends the kobject to its kset, here [devices_kset],
    the end of the ordering list. *)
Definition kobject_add (st : state) (dev : dev_id) : state :=
  set_devices_kset st (list_add_tail dev (devices_kset st)).

(** Modelled from the spec: kobject_del takes the kobject off its kset. *)
Definition kobject_del (st : state) (dev : dev_id) : state :=
  set_devices_kset st (list_del dev (devices_kset st)).

(** Modelled from the spec: device_pm_add of the PM core appends the
    device to dpm_list. *)
Definition device_pm_add (st : state) (dev : dev_id) : state :=
  set_dpm_list st (list_add_tail dev (dpm_list st)).

(** Modelled from the spec: device_pm_remove takes it off dpm_list. *)
Definition device_pm_remove (st : state) (dev : dev_id) : state :=
  set_dpm_list st (list_del dev (dpm_list st)).

(** Modelled from the spec: klist_add_tail of lib/klist.c (not part of
    the sources), called as
    klist_add_tail(&dev->p->knode_parent, &parent->p->klist_children):
    the child is inserted into the child set of the parent, last, and
    the klist takes a counted reference on it through
    klist_children_get. [None]: [parent->p] is NULL and the access
    faults. *)
Definition klist_add_tail (st : state) (dev parent : dev_id) : option state :=
  match dev_p st parent with
  | None => None
  | Some cs =>
      Some (get_device (set_p st parent (Some (list_add_tail dev cs)))
                       (Some dev))
  end.

(** Modelled from the spec: klist_del of lib/klist.c, called as
    klist_del(&dev->p->knode_parent): the node leaves the child set of
    the parent and klist_children_put drops the reference on the child.
    [None]: [dev->p] is NULL. *)
Definition klist_del (st : state) (dev parent : dev_id) : option state :=
  match dev_p st dev with
  | None => None
  | Some _ =>
      Some (put_device
              (set_p st parent (option_map (list_del dev) (dev_p st parent)))
              (Some dev))
  end.

(** Results of the calls device_add makes outside the graph. [has_name]
    tells whether dev_name(dev) is set after the naming steps,
    [get_device_parent_r] is negative when get_device_parent returned an
    error pointer, [major] is MAJOR(dev->devt) != 0, and the others are
    the return values of the calls they are named after. *)
Record add_env := mk_add_env {
  device_private_init_r : Z;
  has_name : bool;
  get_device_parent_r : Z;
  kobject_add_r : Z;
  uevent_file_r : Z;
  class_symlinks_r : Z;
  add_attrs_r : Z;
  bus_add_device_r : Z;
  dpm_sysfs_add_r : Z;
  major : bool;
  dev_file_r : Z;
  sys_dev_entry_r : Z
}.

Definition nonzero (z : Z) : bool := negb (z =? 0)%Z.

(** The labels of device_add, last first. *)
Definition add_done (st : state) (dev : dev_id) (error : Z) : state * Z :=
  (put_device st (Some dev), error).

Definition add_name_error (st : state) (dev : dev_id) (error : Z) :=
  add_done (set_p st dev None) dev error.

Definition add_parent_error (st : state) (dev : dev_id)
  (parent : option dev_id) (error : Z) :=
  add_name_error (put_device st parent) dev error.

(** Error: cleanup_glue_dir only deals with the sysfs directory. *)
Definition add_Error := add_parent_error.

(** attrError, and SymlinkError, AttrsError, BusError, DPMError above it,
    which undo work outside the graph before falling through. *)
Definition add_attrError (st : state) (dev : dev_id)
  (parent : option dev_id) (error : Z) :=
  add_Error (kobject_del st dev) dev parent error.

(** DevAttrError (and SysEntryError above it). *)
Definition add_DevAttrError (st : state) (dev : dev_id)
  (parent : option dev_id) (error : Z) :=
  add_attrError (device_pm_remove st dev) dev parent error.

(** How far device_add has got when control leaves its first part:
    either it has returned through one of its error labels, with the
    state and the error, or it stands in front of
    blocking_notifier_call_chain, kobject_uevent and bus_probe_device
    (l.1846-1853), with its local variable [parent]. *)
Inductive add_progress :=
| Add_returned (r : state * Z)
| Add_probing (st : state) (parent : option dev_id).

Definition progress_state (p : add_progress) : state :=
  match p with
  | Add_returned (st, _) => st
  | Add_probing st _ => st
  end.

(** device_add from its first statement to the end of the MAJOR block
    (l.1759-1844). Every error label is reached from here. *)
Definition device_add_head (st : state) (dev : dev_id) (env : add_env)
  : add_progress :=
  let st0 := get_device st (Some dev) in
  let need_p := match dev_p st0 dev with None => true | _ => false end in
  if need_p && nonzero (device_private_init_r env)
  then Add_returned (add_done st0 dev (device_private_init_r env))
  else
    let st1 := if need_p then set_p st0 dev (Some []) else st0 in
    if negb (has_name env)
    then Add_returned (add_name_error st1 dev (- EINVAL)%Z)
    else
      let parent := dev_parent st1 dev in
      let st2 := get_device st1 parent in
      if (get_device_parent_r env <? 0)%Z
      then Add_returned
             (add_parent_error st2 dev parent (get_device_parent_r env))
      else if nonzero (kobject_add_r env)
      then Add_returned (add_Error st2 dev parent (kobject_add_r env))
      else
        let st3 := kobject_add st2 dev in
        if nonzero (uevent_file_r env)
        then Add_returned (add_attrError st3 dev parent (uevent_file_r env))
        else if nonzero (class_symlinks_r env)
        then Add_returned
               (add_attrError st3 dev parent (class_symlinks_r env))
        else if nonzero (add_attrs_r env)
        then Add_returned (add_attrError st3 dev parent (add_attrs_r env))
        else if nonzero (bus_add_device_r env)
        then Add_returned
               (add_attrError st3 dev parent (bus_add_device_r env))
        else if nonzero (dpm_sysfs_add_r env)
        then Add_returned
               (add_attrError st3 dev parent (dpm_sysfs_add_r env))
        else
          let st4 := device_pm_add st3 dev in
          if major env && nonzero (dev_file_r env)
          then Add_returned
                 (add_DevAttrError st4 dev parent (dev_file_r env))
          else if major env && nonzero (sys_dev_entry_r env)
          then Add_returned
                 (add_DevAttrError st4 dev parent (sys_dev_entry_r env))
          else Add_probing st4 parent.

(** device_add from klist_add_tail to its return (l.1854-1873): the
    device is put on the klist of [parent], the class interfaces are
    told (not followed), and done: drops the reference taken on entry. *)
Definition device_add_tail (st : state) (dev : dev_id)
  (parent : option dev_id) : option (state * Z) :=
  match parent with
  | Some par =>
      match klist_add_tail st dev par with
      | None => None
      | Some st5 => Some (add_done st5 dev 0%Z)
      end
  | None => Some (add_done st dev 0%Z)
  end.

(** device_add. [bus_probe_device] is what the notifier chain of the
    bus, the uevent and bus_probe_device (the probe of a driver that
    matches the device) do to the memory by calling back into the driver
    core; [None] when they do not return. They run between
    device_pm_add and klist_add_tail. *)
Definition device_add (st : state) (dev : dev_id) (env : add_env)
  (bus_probe_device : state -> option state) : option (state * Z) :=
  match device_add_head st dev env with
  | Add_returned r => Some r
  | Add_probing st4 parent =>
      match bus_probe_device st4 with
      | None => None
      | Some st4' => device_add_tail st4' dev parent
      end
  end.

(** No notifier and no driver calls back. *)
Definition no_probe : state -> option state := fun st => Some st.

(** device_register: device_initialize, then device_add. *)
Definition device_register (st : state) (dev : dev_id) (env : add_env)
  (bus_probe_device : state -> option state) :=
  device_add (device_initialize st dev) dev env bus_probe_device.

(** ** Teardown *)

(** The statements of device_del that touch the graph, in program order;
    the calls between them (sysfs, class, bus, uevent) do not. *)
Definition device_del_steps (parent : option dev_id) (dev : dev_id)
  : list (state -> option state) :=
  [ (fun st => match parent with
               | Some par => klist_del st dev par
               | None => Some st
               end);
    (fun st => Some (device_pm_remove st dev));
    (fun st => Some (device_links_purge st dev));
    (fun st => Some (kobject_del st dev));
    (fun st => Some (put_device st parent)) ].

Fixpoint run_steps (steps : list (state -> option state)) (st : state)
  : option state :=
  match steps with
  | [] => Some st
  | f :: steps' =>
      match f st with
      | None => None
      | Some st' => run_steps steps' st'
      end
  end.

(** The state after the first [n] of these statements. *)
Definition device_del_upto (n : nat) (st : state) (dev : dev_id)
  : option state :=
  run_steps (firstn n (device_del_steps (dev_parent st dev) dev)) st.

Definition device_del (st : state) (dev : dev_id) : option state :=
  run_steps (device_del_steps (dev_parent st dev) dev) st.

(** device_unregister: device_del, then the caller's reference goes. *)
Definition device_unregister (st : state) (dev : dev_id) : option state :=
  match device_del st dev with
  | None => None
  | Some st' => Some (put_device st' (Some dev))
  end.

(** * Positions in a list *)

(** The position of the first occurrence of [x] in [l]; the length of
    [l] when [x] does not occur. *)
Fixpoint index_of (x : nat) (l : list nat) : nat :=
  match l with
  | [] => 0
  | y :: l' => if y =? x then 0 else S (index_of x l')
  end.

(** [a] is on the list, and [b] comes later or not at all. *)
Definition lt_in (l : list nat) (a b : nat) : Prop :=
  index_of a l < index_of b l.

(** [a] and [b] are both on the list, [a] first. *)
Definition precedes (l : list nat) (a b : nat) : Prop :=
  In a l /\ In b l /\ index_of a l < index_of b l.

(** A device that is on the list goes to its end. *)
Definition move_if_on (r : nat) (l : list nat) : list nat :=
  if mem r l then list_move_tail r l else l.

(** The abstract form of device_reorder_to_tail on one list: [g] gives
    the devices the recursion goes on to (children, then consumers). *)
Fixpoint visit_list (f : list nat -> nat -> option (list nat))
  (l : list nat) (vs : list nat) : option (list nat) :=
  match vs with
  | [] => Some l
  | v :: vs' =>
      match f l v with
      | None => None
      | Some l' => visit_list f l' vs'
      end
  end.

Fixpoint visit (g : nat -> list nat) (fuel : nat) (l : list nat) (r : nat)
  : option (list nat) :=
  match fuel with
  | O => None
  | S n =>
      visit_list (visit g n) (move_if_on r l) (g r)
  end.

(** The devices that depend on [d] directly: its children and the
    consumers of its links. *)
Definition succs (st : state) (d : dev_id) : list dev_id :=
  children st d ++ map consumer (consumers st d).

(** [reach g a b]: [b] is [a] or depends on it, through any number of
    child and consumer edges. *)
Inductive reach (g : nat -> list nat) : nat -> nat -> Prop :=
| reach_refl : forall a, reach g a a
| reach_step : forall a b c, In b (g a) -> reach g b c -> reach g a c.

Definition reach_from (g : nat -> list nat) (vs : list nat) (x : nat) : Prop :=
  exists v, In v vs /\ reach g v x.

(** What a run of the reordering that moves the devices in [R] does to
    a list. *)
Definition moved (g : nat -> list nat) (R : nat -> Prop) (l l' : list nat)
  : Prop :=
  (forall x, In x l' <-> In x l) /\
  (NoDup l -> NoDup l') /\
  (forall a b, ~ R a -> ~ R b -> lt_in l a b -> lt_in l' a b) /\
  (forall a b, In a l -> ~ R a -> R b -> lt_in l' a b) /\
  (forall u v, R u -> In v (g u) -> In u l -> lt_in l' u v).

(** A rank that grows along every edge and is bounded by [N]. *)
Definition ranked (g : nat -> list nat) (rk : nat -> nat) (N : nat) : Prop :=
  forall u v, In v (g u) -> rk u < rk v /\ rk v <= N.

(** ** States that differ only in the two lists; the link that is added *)

(** The reordering changes the two lists and nothing else. *)
Definition same_graph (s s' : state) : Prop :=
  dev_parent s' = dev_parent s /\ dev_p s' = dev_p s /\
  dev_links_status s' = dev_links_status s /\ dev_kref s' = dev_kref s /\
  links s' = links s /\ next_link s' = next_link s.

(** The head of device_reorder_to_tail: the device itself goes to the
    end of each list it is on. *)
Definition move_self (s : state) (dev : dev_id) : state :=
  let st1 := if device_is_registered s dev
             then devices_kset_move_last s dev else s in
  if device_pm_initialized st1 dev then device_pm_move_last st1 dev else st1.

(** The link device_link_add builds when it creates one. *)
Definition new_link (st : state) (c s : dev_id) (fl : Z) : device_link :=
  mk_link (next_link st) s c fl
    (initial_link_state fl (dev_links_status st s) (dev_links_status st c))
    (flag_set fl DL_FLAG_PM_RUNTIME && flag_set fl DL_FLAG_RPM_ACTIVE).

(** The state once the reordering has returned [st3] and [link] has been
    put on both lists. *)
Definition link_added (st3 : state) (link : device_link) : state :=
  mk_state (dev_parent st3) (dev_p st3) (dev_links_status st3) (dev_kref st3)
           (links st3 ++ [link]) (devices_kset st3) (dpm_list st3)
           (S (next_link st3)).

(** The two ends of a link. *)
Definition link_ends (l : device_link) : dev_id * dev_id :=
  (supplier l, consumer l).

(** ** The writes of the link state functions, link by link *)

(** What the loop of device_links_check_suppliers writes to a link it
    passes. *)
Definition probe_link (dev : dev_id) (l : device_link) : device_link :=
  if (consumer l =? dev) && negb (stateless l)
  then with_status DL_STATE_CONSUMER_PROBE l else l.

(** What device_links_missing_supplier writes to a link. *)
Definition reset_link (dev : dev_id) (l : device_link) : device_link :=
  if (consumer l =? dev)
     && device_link_state_eqb (status l) DL_STATE_CONSUMER_PROBE
  then with_status DL_STATE_AVAILABLE l else l.

(** A link the loop passes without giving up. *)
Definition supplier_ready (dev : dev_id) (l : device_link) : bool :=
  negb (consumer l =? dev) || stateless l
  || device_link_state_eqb (status l) DL_STATE_AVAILABLE.

(** What device_links_driver_bound writes to a link. *)
Definition bound_link (dev : dev_id) (l : device_link) : device_link :=
  let l1 := if (supplier l =? dev) && negb (stateless l)
            then with_status DL_STATE_AVAILABLE l else l in
  if (consumer l1 =? dev) && negb (stateless l1)
  then with_status DL_STATE_ACTIVE l1 else l1.

(** * Reachable states and their invariant *)

(** A device in the window of its registration: device_add has put it
    on the ordering lists and has not yet put it on the klist of its
    parent [par]. This is the state in which the notifier chain and
    bus_probe_device run. *)
Definition in_window (st : state) (d par : dev_id) : Prop :=
  In d (devices_kset st) /\ dev_parent st d = Some par /\
  ~ In d (children st par).

(** A consumer that keeps clear of the window: no device that is in
    the window of its registration has a parent that is the consumer
    or depends on it. device_reorder_to_tail, which follows the klists,
    would move such a parent behind the new device without moving the
    new device. *)
Definition clear_of_window (st : state) (con : option dev_id) : Prop :=
  forall c d par,
    con = Some c -> in_window st d par -> ~ reach (succs st) c par.

(** No registration is under way: every registered device with a
    parent pointer is on the klist of that parent. *)
Definition no_window (st : state) : bool :=
  forallb (fun d => match dev_parent st d with
                    | Some par => mem d (children st par)
                    | None => true
                    end)
          (devices_kset st).


(** One call into the driver core, whatever its outcome; a device_add
    is two steps, its part in front of bus_probe_device and its part
    behind it, and between the two any other step can take place: that
    is what a driver does when it is probed from bus_probe_device, and
    what another thread can do, since device_add holds no lock there.
    device_initialize is called on fresh memory (no link names the
    device) and the caller then stores the parent. device_add is called
    on a device that is not registered (the driver core is not designed
    for a second registration), and its parent, if any, is registered:
    kobject_add cannot create the sysfs directory under a parent that
    has none, so device_add does not get beyond it otherwise. The
    second half of device_add runs for a device that is in the window
    of its registration (for a device without parent it only drops the
    reference taken on entry). device_link_add may be called with any
    two devices for which [guard] holds; the consumer need not be
    registered. *)
Inductive step (guard : state -> option dev_id -> Prop)
  : state -> state -> Prop :=
| step_initialize : forall st dev parent,
    ~ In dev (devices_kset st) ->
    (forall l, In l (links st) -> supplier l <> dev /\ consumer l <> dev) ->
    step guard st (set_parent (device_initialize st dev) dev parent)
| step_device_add_head : forall st dev env,
    ~ In dev (devices_kset st) ->
    match dev_parent st dev with
    | Some par => In par (devices_kset st)
    | None => True
    end ->
    step guard st (progress_state (device_add_head st dev env))
| step_device_add_tail : forall st dev st' err,
    (forall par, dev_parent st dev = Some par -> in_window st dev par) ->
    device_add_tail st dev (dev_parent st dev) = Some (st', err) ->
    step guard st st'
| step_device_link_add : forall fuel st con sup fl env st' r,
    guard st con ->
    device_link_add fuel st con sup fl env = Some (st', r) ->
    step guard st st'
| step_check_suppliers : forall st dev,
    step guard st (fst (device_links_check_suppliers st dev))
| step_driver_bound : forall st dev,
    step guard st (device_links_driver_bound st dev).

(** The states reached when every device_link_add keeps clear of the
    windows of the registrations that are under way. A sequence of
    whole calls, each returning before the next, is the special case in
    which no registration is ever under way when device_link_add is
    called. *)
Inductive reachable : state -> Prop :=
| reachable_init : reachable init_state
| reachable_step : forall st st',
    reachable st -> step clear_of_window st st' -> reachable st'.


(** Every device on the list stands in front of its children and its
    consumers. *)
Definition ordered (st : state) : Prop :=
  forall u v, In v (succs st u) -> lt_in (devices_kset st) u v.

(** Every device on the list stands in front of its children. *)
Definition children_ordered (st : state) : Prop :=
  forall par c, In c (children st par) -> lt_in (devices_kset st) par c.

(** The invariant of the reachable states: the two lists agree and hold
    no device twice; along every child or consumer edge the source is on
    the list and comes before the target (if the target is on the list at
    all); link addresses are below the allocation mark; a registered
    device comes behind the parent its parent pointer names, also while
    it is not yet on the klist of that parent; the devices on a klist
    are registered; no two links join the same supplier and consumer; a
    registered device has its private part. *)
Record Inv (st : state) : Prop := mk_Inv {
  inv_lists : dpm_list st = devices_kset st;
  inv_nodup : NoDup (devices_kset st);
  inv_order : ordered st;
  inv_fresh : forall l, In l (links st) -> l_addr l < next_link st;
  inv_parent : forall c par,
    In c (devices_kset st) -> dev_parent st c = Some par ->
    lt_in (devices_kset st) par c;
  inv_children : forall par c,
    In c (children st par) -> In c (devices_kset st);
  inv_pairs : NoDup (map link_ends (links st));
  inv_p : forall d, In d (devices_kset st) -> dev_p st d <> None
}.

(** What is left of the invariant when device_link_add is called
    without regard to the windows: everything but the place of a device
    behind a parent it is not yet a child of. *)
Record Inv_graph (st : state) : Prop := mk_Inv_graph {
  graph_lists : dpm_list st = devices_kset st;
  graph_nodup : NoDup (devices_kset st);
  graph_order : ordered st;
  graph_fresh : forall l, In l (links st) -> l_addr l < next_link st;
  graph_children : forall par c,
    In c (children st par) -> In c (devices_kset st);
  graph_pairs : NoDup (map link_ends (links st));
  graph_p : forall d, In d (devices_kset st) -> dev_p st d <> None
}.

(** * A sample run

    Three devices: 0 is a root, 1 is a child of 0, 2 is another root.
    Then device 0 is made a consumer of device 2, which moves 0 and its
    child behind 2. *)

Definition ok_env : add_env := mk_add_env 0 true 0 0 0 0 0 0 0 false 0 0.

Definition alloc_ok : link_env := mk_link_env true 0.

Definition state_of {A : Type} (r : option (state * A)) (otherwise : state)
  : state :=
  match r with
  | Some (st, _) => st
  | None => otherwise
  end.

Definition run_initialize (st : state) (dev : dev_id) (par : option dev_id)
  : state :=
  set_parent (device_initialize st dev) dev par.

(** A registration during which nothing calls back. *)
Definition run_add (st : state) (dev : dev_id) : state :=
  state_of (device_add st dev ok_env no_probe) st.

Definition run_link (st : state) (c s : dev_id) (fl : Z) : state :=
  state_of (device_link_add 4 st (Some c) (Some s) fl alloc_ok) st.

Definition one_device : state :=
  run_add (run_initialize init_state 0 None) 0.

Definition two_devices : state :=
  run_add (run_initialize one_device 1 (Some 0)) 1.

Definition three_devices : state :=
  run_add (run_initialize two_devices 2 None) 2.

Definition sample_state : state := run_link three_devices 0 2 0.

(** The child 1 becomes a consumer of device 2 as well. *)
Definition linked_child : state := run_link sample_state 1 2 0.

(** A registration that fails at its last fallible step
    (device_create_sys_dev_entry), after the device was put on both
    lists. *)
Definition late_failure : add_env :=
  mk_add_env 0 true 0 0 0 0 0 0 0 true 0 (-5).

(** A is device 0, B its child 1, C the unrelated root 2.
    add_link(C, B, 0) succeeds, the link starts DORMANT, and C stays
    behind B on the list. *)
Definition scenario_linked : state := run_link three_devices 2 1 0.

(** A consumer that is linked before it is added: device 3 is only
    initialised when it becomes a consumer of device 1. It is on neither
    list until device_add puts it at the end, behind its supplier. *)
Definition early_link : state :=
  run_link (run_initialize three_devices 3 None) 3 1 0.

(** ** A link made from the probe of a new device

    Devices 0 and 1 are roots. Device 2 is registered as a child of 0,
    and the driver that bus_probe_device binds to it calls
    device_link_add from its probe. *)


(** A probe that makes [c] a consumer of [s]. *)
Definition probe_links (c s : dev_id) : state -> option state :=
  fun st => option_map fst (device_link_add 4 st (Some c) (Some s) 0 alloc_ok).





(** * Unbinding: the other link state functions *)

(** A pointer to a link is followed by looking its address up. *)
Definition link_at (st : state) (a : link_addr) : option device_link :=
  find (fun l => l_addr l =? a) (links st).

(** WRITE_ONCE(link->status, s) for the link at address [a]. *)
Definition write_status (st : state) (a : link_addr) (s : device_link_state)
  : state :=
  set_links st
    (map (fun l => if l_addr l =? a then with_status s l else l) (links st)).

(** device_link_del: __device_link_del under both locks. [None]: the
    pointer is not that of a link. *)
Definition device_link_del (st : state) (a : link_addr) : option state :=
  match link_at st a with
  | Some link => Some (__device_link_del st link)
  | None => None
  end.

(** The body of the loop of __device_links_no_driver. *)
Definition no_driver_link (st : state) (link : device_link) : state :=
  if stateless link then st
  else if flag_set (flags link) DL_FLAG_AUTOREMOVE
  then __device_link_del st link
  else if negb (device_link_state_eqb (status link) DL_STATE_SUPPLIER_UNBIND)
  then write_status st (l_addr link) DL_STATE_AVAILABLE
  else st.

(** __device_links_no_driver: [dev->links.suppliers] is walked backwards
    (list_for_each_entry_safe_reverse). *)
Definition __device_links_no_driver (st : state) (dev : dev_id) : state :=
  set_links_status
    (fold_left no_driver_link (rev (suppliers st dev)) st)
    dev DL_DEV_NO_DRIVER.

(** device_links_no_driver: the same under the write lock. *)
Definition device_links_no_driver (st : state) (dev : dev_id) : state :=
  __device_links_no_driver st dev.

(** device_links_driver_cleanup. The WARN_ONs only print. *)
Definition device_links_driver_cleanup (st : state) (dev : dev_id) : state :=
  let ls1 := map (fun l =>
                    if (supplier l =? dev) && negb (stateless l)
                    then with_status DL_STATE_DORMANT l else l)
                 (links st) in
  __device_links_no_driver (set_links st ls1) dev.

(** The loop of device_links_busy over [dev->links.consumers], with
    [done] and [todo] as in [check_suppliers_loop]: the loop is left at
    the first link that is in CONSUMER_PROBE or ACTIVE. *)
Fixpoint links_busy_loop (dev : dev_id) (done todo : list device_link)
  : list device_link * bool :=
  match todo with
  | [] => (done, false)
  | link :: rest =>
      if negb (supplier link =? dev)
      then links_busy_loop dev (done ++ [link]) rest
      else if stateless link
      then links_busy_loop dev (done ++ [link]) rest
      else if device_link_state_eqb (status link) DL_STATE_CONSUMER_PROBE
              || device_link_state_eqb (status link) DL_STATE_ACTIVE
      then (done ++ link :: rest, true)
      else links_busy_loop dev
             (done ++ [with_status DL_STATE_SUPPLIER_UNBIND link]) rest
  end.

Definition device_links_busy (st : state) (dev : dev_id) : state * bool :=
  let (ls, ret) := links_busy_loop dev [] (links st) in
  (set_links_status (set_links st ls) dev DL_DEV_UNBINDING, ret).

(** ** The writes of these functions, link by link *)

(** A link that keeps its supplier from unbinding. *)
Definition busy_link (dev : dev_id) (l : device_link) : bool :=
  (supplier l =? dev) && negb (stateless l)
  && (device_link_state_eqb (status l) DL_STATE_CONSUMER_PROBE
      || device_link_state_eqb (status l) DL_STATE_ACTIVE).

(** What the loop of device_links_busy writes to a link it passes. *)
Definition unbind_link (dev : dev_id) (l : device_link) : device_link :=
  if (supplier l =? dev) && negb (stateless l)
  then with_status DL_STATE_SUPPLIER_UNBIND l else l.

(** A link that __device_links_no_driver deletes. *)
Definition auto_removed (dev : dev_id) (l : device_link) : bool :=
  (consumer l =? dev) && negb (stateless l)
  && flag_set (flags l) DL_FLAG_AUTOREMOVE.

(** What __device_links_no_driver writes to a link it keeps. *)
Definition idle_link (dev : dev_id) (l : device_link) : device_link :=
  if (consumer l =? dev) && negb (stateless l)
     && negb (device_link_state_eqb (status l) DL_STATE_SUPPLIER_UNBIND)
  then with_status DL_STATE_AVAILABLE l else l.

(** What the first loop of device_links_driver_cleanup writes to a link. *)
Definition dormant_link (dev : dev_id) (l : device_link) : device_link :=
  if (supplier l =? dev) && negb (stateless l)
  then with_status DL_STATE_DORMANT l else l.

(** The number of links of [ls] that hold a reference on [d]: one for
    each end. *)
Definition refs_held (ls : list device_link) (d : dev_id) : nat :=
  length (filter (fun l => consumer l =? d) ls)
  + length (filter (fun l => supplier l =? d) ls).

(** Whether the loop of __device_links_no_driver over [L] deletes the
    link at the address of [l], and whether it resets its status. *)
Definition removed_by (L : list device_link) (l : device_link) : bool :=
  existsb (fun x => (l_addr x =? l_addr l) && negb (stateless x)
                    && flag_set (flags x) DL_FLAG_AUTOREMOVE) L.

Definition reset_by (L : list device_link) (l : device_link) : bool :=
  existsb (fun x => (l_addr x =? l_addr l) && negb (stateless x)
                    && negb (flag_set (flags x) DL_FLAG_AUTOREMOVE)
                    && negb (device_link_state_eqb (status x)
                               DL_STATE_SUPPLIER_UNBIND)) L.


(** A consumer (device 2) with an AUTOREMOVE link to device 1 and a
    persistent link to device 0. *)
Definition autoremove_sample : state :=
  run_link (run_link three_devices 2 1 DL_FLAG_AUTOREMOVE) 2 0 0.

(** * All the calls that keep the order *)

(** The address and the two ends of a link: what no write to the status
    changes. *)
Definition link_id (l : device_link) : link_addr * (dev_id * dev_id) :=
  (l_addr l, link_ends l).

(** One call into the driver core: the steps of [step] in which
    device_link_add keeps clear of the registration windows, the link
    state calls of unbinding, the deletion of a link, and the
    unregistration of a registered device whose own registration has
    returned (it is on the klist of its parent) and that no registered
    device names as its parent: devices are torn down leaves first, and
    not while a child is being registered. device_move is not one of
    these calls: it does not keep the order. *)
Inductive call : state -> state -> Prop :=
| call_step : forall st st', step clear_of_window st st' -> call st st'
| call_no_driver : forall st dev,
    call st (device_links_no_driver st dev)
| call_driver_cleanup : forall st dev,
    call st (device_links_driver_cleanup st dev)
| call_busy : forall st dev,
    call st (fst (device_links_busy st dev))
| call_link_del : forall st a st',
    device_link_del st a = Some st' -> call st st'
| call_device_del : forall st dev st',
    In dev (devices_kset st) ->
    (forall par, dev_parent st dev = Some par -> In dev (children st par)) ->
    (forall c, In c (devices_kset st) -> dev_parent st c <> Some dev) ->
    device_del st dev = Some st' -> call st st'
| call_device_unregister : forall st dev st',
    In dev (devices_kset st) ->
    (forall par, dev_parent st dev = Some par -> In dev (children st par)) ->
    (forall c, In c (devices_kset st) -> dev_parent st c <> Some dev) ->
    device_unregister st dev = Some st' -> call st st'.

Inductive reachable_by_calls : state -> Prop :=
| by_calls_init : reachable_by_calls init_state
| by_calls_step : forall st st',
    reachable_by_calls st -> call st st' -> reachable_by_calls st'.

(** The invariant of these states: that of [Inv], no two links at one
    address, and a device is only on the klist of the device its parent
    pointer names. *)
Record Inv_all (st : state) : Prop := mk_Inv_all {
  inv_base : Inv st;
  inv_addr : NoDup (map l_addr (links st));
  inv_klist : forall par c,
    In c (children st par) -> dev_parent st c = Some par
}.

(** The state after device_del of the linked child 1. *)
Definition child_deleted : state :=
  match device_del linked_child 1 with
  | Some s => s
  | None => linked_child
  end.

(** * device_shutdown *)

(** Which shutdown callbacks a device has: [dev->class &&
    dev->class->shutdown_pre], [dev->bus && dev->bus->shutdown] and
    [dev->driver && dev->driver->shutdown]. *)
Record shutdown_ops := mk_shutdown_ops {
  has_class_shutdown_pre : dev_id -> bool;
  has_bus_shutdown : dev_id -> bool;
  has_driver_shutdown : dev_id -> bool
}.

(** A call of one of these callbacks on a device. *)
Inductive shutdown_call :=
| Class_shutdown_pre (d : dev_id)
| Bus_shutdown (d : dev_id)
| Driver_shutdown (d : dev_id).

Definition called_on (e : shutdown_call) : dev_id :=
  match e with
  | Class_shutdown_pre d | Bus_shutdown d | Driver_shutdown d => d
  end.

(** The callbacks the loop body calls for [dev], in program order: the
    shutdown of the driver is only called when the bus has none. *)
Definition shutdown_calls (ops : shutdown_ops) (dev : dev_id)
  : list shutdown_call :=
  (if has_class_shutdown_pre ops dev then [Class_shutdown_pre dev] else [])
  ++ (if has_bus_shutdown ops dev then [Bus_shutdown dev]
      else if has_driver_shutdown ops dev then [Driver_shutdown dev]
      else []).

(** [devices_kset->list.prev]: the last entry, if the list is not empty. *)
Fixpoint list_last (l : list dev_id) : option dev_id :=
  match l with
  | [] => None
  | [x] => Some x
  | _ :: l' => list_last l'
  end.

(** The body of the loop of device_shutdown for the last entry [dev].
    The callbacks themselves are not followed: they are taken to leave
    the devices and the lists alone, and are recorded in the order in
    which they are called. *)
Definition shutdown_one (ops : shutdown_ops) (st : state) (dev : dev_id)
  : state * list shutdown_call :=
  let parent := dev_parent st dev in
  let st1 := get_device st parent in
  let st2 := get_device st1 (Some dev) in
  let st3 := set_devices_kset st2 (list_del dev (devices_kset st2)) in
  let st4 := put_device st3 (Some dev) in
  (put_device st4 parent, shutdown_calls ops dev).

(** The loop of device_shutdown; [calls] are the callbacks called so
    far. [None]: the loop has not ended within [fuel] rounds. *)
Fixpoint device_shutdown_loop (fuel : nat) (ops : shutdown_ops) (st : state)
  (calls : list shutdown_call) : option (state * list shutdown_call) :=
  match fuel with
  | O => None
  | S n =>
      match list_last (devices_kset st) with
      | None => Some (st, calls)
      | Some dev =>
          let (st', cs) := shutdown_one ops st dev in
          device_shutdown_loop n ops st' (calls ++ cs)
      end
  end.

Definition device_shutdown (fuel : nat) (ops : shutdown_ops) (st : state)
  : option (state * list shutdown_call) :=
  device_shutdown_loop fuel ops st [].

(** Every device has a bus with a shutdown callback and a driver with
    one. *)
Definition all_shutdown_ops : shutdown_ops :=
  mk_shutdown_ops (fun _ => false) (fun _ => true) (fun _ => true).

(** * The child iterators *)

(** The loop of device_for_each_child over the klist: [fn] is called on
    each child in turn until it returns non-zero. What the callback
    does to its [data] (and anything else it owns) is the state [T] it
    transforms; [None] stands for a callback that does not return. *)
Fixpoint for_each_child_loop {T : Type} (fn : T -> dev_id -> option (T * Z))
  (s : T) (cs : list dev_id) : option (T * Z) :=
  match cs with
  | [] => Some (s, 0%Z)
  | c :: cs' =>
      match fn s c with
      | None => None
      | Some (s', error) =>
          if nonzero error then Some (s', error)
          else for_each_child_loop fn s' cs'
      end
  end.

(** device_for_each_child: 0 at once when [parent->p] is NULL. *)
Definition device_for_each_child {T : Type} (st : state) (parent : dev_id)
  (fn : T -> dev_id -> option (T * Z)) (s : T) : option (T * Z) :=
  match dev_p st parent with
  | None => Some (s, 0%Z)
  | Some cs => for_each_child_loop fn s cs
  end.

(** device_for_each_child_reverse: the same with prev_device, from the
    last child to the first. *)
Definition device_for_each_child_reverse {T : Type} (st : state)
  (parent : dev_id) (fn : T -> dev_id -> option (T * Z)) (s : T)
  : option (T * Z) :=
  match dev_p st parent with
  | None => Some (s, 0%Z)
  | Some cs => for_each_child_loop fn s (rev cs)
  end.

(** The loop of device_find_child: the first child for which [match]
    returns non-zero; get_device of a child never returns NULL. *)
Fixpoint find_child_loop (st : state) (mtch : dev_id -> Z) (cs : list dev_id)
  : state * option dev_id :=
  match cs with
  | [] => (st, None)
  | c :: cs' =>
      if nonzero (mtch c) then (get_device st (Some c), Some c)
      else find_child_loop st mtch cs'
  end.

(** device_find_child: NULL for a NULL parent. Unlike
    device_for_each_child it does not test [parent->p]: [None] is the
    fault of the iterator on a parent without private part. *)
Definition device_find_child (st : state) (parent : option dev_id)
  (mtch : dev_id -> Z) : option (state * option dev_id) :=
  match parent with
  | None => Some (st, None)
  | Some par =>
      match dev_p st par with
      | None => None
      | Some cs => Some (find_child_loop st mtch cs)
      end
  end.

(** A callback without state. *)
Definition pure_fn (f : dev_id -> Z) : unit -> dev_id -> option (unit * Z) :=
  fun s c => Some (s, f c).

(** * Taking devices offline *)

(** Modelled from the spec: the errno values EPERM and EBUSY of
    include/uapi/asm-generic/errno-base.h, which is not part of the
    sources. *)
Definition EPERM : Z := 1.
Definition EBUSY : Z := 16.

(** The fields of [struct device] that hot-removal reads and writes:
    [dev->offline], [dev->offline_disabled], and the value of
    device_supports_offline(dev), which depends on the bus of the
    device only and is an input here. *)
Record hotplug := mk_hotplug {
  dev_offline : dev_id -> bool;
  dev_offline_disabled : dev_id -> bool;
  device_supports_offline : dev_id -> bool
}.

Definition set_offline (hp : hotplug) (d : dev_id) (v : bool) : hotplug :=
  mk_hotplug (upd (dev_offline hp) d v) (dev_offline_disabled hp)
             (device_supports_offline hp).

(** device_check_offline, the callback that device_offline hands to
    device_for_each_child; it recurses through device_for_each_child
    itself. [None]: the recursion has not returned within [fuel]. *)
Fixpoint device_check_offline (fuel : nat) (st : state) (hp : hotplug)
  (dev : dev_id) : option Z :=
  match fuel with
  | O => None
  | S n =>
      match device_for_each_child st dev
              (fun (s : unit) c =>
                 option_map (fun r => (s, r)) (device_check_offline n st hp c))
              tt with
      | None => None
      | Some (_, ret) =>
          if nonzero ret then Some ret
          else Some (if device_supports_offline hp dev
                        && negb (dev_offline hp dev)
                     then (- EBUSY)%Z else 0%Z)
      end
  end.

(** device_offline; [bus_offline_r] is what [dev->bus->offline(dev)]
    returns if it is called. *)
Definition device_offline (fuel : nat) (st : state) (hp : hotplug)
  (dev : dev_id) (bus_offline_r : Z) : option (hotplug * Z) :=
  if dev_offline_disabled hp dev then Some (hp, (- EPERM)%Z)
  else
    match device_for_each_child st dev
            (fun (s : unit) c =>
               option_map (fun r => (s, r)) (device_check_offline fuel st hp c))
            tt with
    | None => None
    | Some (_, ret) =>
        if nonzero ret then Some (hp, ret)
        else if device_supports_offline hp dev
        then
          if dev_offline hp dev then Some (hp, 1%Z)
          else if nonzero bus_offline_r then Some (hp, bus_offline_r)
          else Some (set_offline hp dev true, bus_offline_r)
        else Some (hp, ret)
    end.

(** device_online; [bus_online_r] is what [dev->bus->online(dev)]
    returns if it is called. *)
Definition device_online (hp : hotplug) (dev : dev_id) (bus_online_r : Z)
  : hotplug * Z :=
  if device_supports_offline hp dev
  then
    if dev_offline hp dev
    then
      if nonzero bus_online_r then (hp, bus_online_r)
      else (set_offline hp dev false, bus_online_r)
    else (hp, 1%Z)
  else (hp, 0%Z).

(** A device below [dev] (or [dev] itself) that can go offline and has
    not. *)
Definition online_below (st : state) (hp : hotplug) (dev : dev_id) : Prop :=
  exists d, reach (children st) dev d /\
            device_supports_offline hp d = true /\ dev_offline hp d = false.

(** Every device can go offline and none has. *)
Definition all_online : hotplug :=
  mk_hotplug (fun _ => false) (fun _ => false) (fun _ => true).

(** * device_move *)

(** Modelled from the spec: [enum dpm_order] of include/linux/pm.h (not
    part of the sources), the four ways device_move can place the
    device on the ordering lists. *)
Inductive dpm_order :=
| DPM_ORDER_NONE
| DPM_ORDER_DEV_AFTER_PARENT
| DPM_ORDER_PARENT_BEFORE_DEV
| DPM_ORDER_DEV_LAST.

(** [a] is put right behind the entry [b]. *)
Fixpoint list_add_after (a b : nat) (l : list nat) : list nat :=
  match l with
  | [] => []
  | x :: l' => if x =? b then x :: a :: l' else x :: list_add_after a b l'
  end.

(** [a] is put right in front of the entry [b]. *)
Fixpoint list_add_before (a b : nat) (l : list nat) : list nat :=
  match l with
  | [] => []
  | x :: l' => if x =? b then a :: x :: l' else x :: list_add_before a b l'
  end.

(** Modelled from the spec: list_move(list, head) of include/linux/list.h,
    with an entry as [head]: [a] is deleted and added right behind [b].
    [None]: [b] is [a] itself or is on no list, which leaves the chain
    broken. *)
Definition list_move_after (a b : nat) (l : list nat) : option (list nat) :=
  if (a =? b) || negb (mem b l) then None
  else Some (list_add_after a b (list_del a l)).

(** Modelled from the spec: list_move_tail(list, head) with an entry as
    [head]: [a] is deleted and added right in front of [b]. *)
Definition list_move_before (a b : nat) (l : list nat) : option (list nat) :=
  if (a =? b) || negb (mem b l) then None
  else Some (list_add_before a b (list_del a l)).

(** devices_kset_move_after(deva, devb). [None]: [devb] is NULL, or the
    list operation breaks the chain. *)
Definition devices_kset_move_after (st : state) (deva : dev_id)
  (devb : option dev_id) : option state :=
  match devb with
  | None => None
  | Some b =>
      option_map (set_devices_kset st)
                 (list_move_after deva b (devices_kset st))
  end.

(** devices_kset_move_before(deva, devb). *)
Definition devices_kset_move_before (st : state) (deva : option dev_id)
  (devb : dev_id) : option state :=
  match deva with
  | None => None
  | Some a =>
      option_map (set_devices_kset st)
                 (list_move_before a devb (devices_kset st))
  end.

(** Modelled from the spec: device_pm_move_after and device_pm_move_before
    of the PM core, the same two moves on dpm_list. *)
Definition device_pm_move_after (st : state) (deva : dev_id)
  (devb : option dev_id) : option state :=
  match devb with
  | None => None
  | Some b =>
      option_map (set_dpm_list st) (list_move_after deva b (dpm_list st))
  end.

Definition device_pm_move_before (st : state) (deva : option dev_id)
  (devb : dev_id) : option state :=
  match deva with
  | None => None
  | Some a =>
      option_map (set_dpm_list st) (list_move_before a devb (dpm_list st))
  end.

(** Results of the calls device_move makes outside the graph:
    [move_parent_r] is negative when get_device_parent returns an error
    pointer, [has_class] is [dev->class != NULL], [create_link_r] is
    what sysfs_create_link returns in device_move_class_links, and the
    other two are the results of the first kobject_move and of the one
    that moves the kobject back on the error path. *)
Record move_env := mk_move_env {
  move_parent_r : Z;
  kobject_move_r : Z;
  has_class : bool;
  create_link_r : Z;
  kobject_move_back_r : Z
}.

(** device_move_class_links: the link is only created, and can only
    fail, when there is a new parent. *)
Definition device_move_class_links (new_parent : option dev_id) (env : move_env)
  : Z :=
  match new_parent with
  | Some _ => create_link_r env
  | None => 0%Z
  end.

(** klist_remove(&dev->p->knode_parent), with the klist the node is on. *)
Definition knode_remove (st : state) (dev : dev_id) (parent : option dev_id)
  : option state :=
  match parent with
  | Some par => klist_del st dev par
  | None => Some st
  end.

(** klist_add_tail(&dev->p->knode_parent, &parent->p->klist_children);
    [None]: [dev->p] or [parent->p] is NULL. *)
Definition knode_add (st : state) (dev : dev_id) (parent : option dev_id)
  : option state :=
  match parent with
  | Some par =>
      match dev_p st dev with
      | None => None
      | Some _ => klist_add_tail st dev par
      end
  | None => Some st
  end.

(** The switch on [dpm_order]. *)
Definition move_order (st : state) (dev : dev_id) (new_parent : option dev_id)
  (order : dpm_order) : option state :=
  match order with
  | DPM_ORDER_NONE => Some st
  | DPM_ORDER_DEV_AFTER_PARENT =>
      match device_pm_move_after st dev new_parent with
      | None => None
      | Some st1 => devices_kset_move_after st1 dev new_parent
      end
  | DPM_ORDER_PARENT_BEFORE_DEV =>
      match device_pm_move_before st new_parent dev with
      | None => None
      | Some st1 => devices_kset_move_before st1 new_parent dev
      end
  | DPM_ORDER_DEV_LAST =>
      Some (devices_kset_move_last (device_pm_move_last st dev) dev)
  end.

(** The label out of device_move, and the two early exits before it. *)
Definition move_out (st : state) (dev : dev_id) (error : Z)
  : option (state * Z) :=
  Some (put_device st (Some dev), error).

Definition move_fail (st : state) (dev : dev_id) (new_parent : option dev_id)
  (error : Z) : option (state * Z) :=
  move_out (put_device st new_parent) dev error.

(** The error path after device_move_class_links has failed. The
    kobject is moved back to [&old_parent->kobj]; with a NULL
    [old_parent] that is not the address of a kobject ([None]). If
    moving back fails, the device stays where it is. *)
Definition move_undo (st : state) (dev : dev_id)
  (old_parent new_parent : option dev_id) (env : move_env) (error : Z)
  : option (state * Z) :=
  match old_parent with
  | None => None
  | Some op =>
      if nonzero (kobject_move_back_r env)
      then move_fail st dev new_parent error
      else
        match knode_remove st dev new_parent with
        | None => None
        | Some st1 =>
            match knode_add (set_parent st1 dev (Some op)) dev (Some op) with
            | None => None
            | Some st2 => move_fail st2 dev new_parent error
            end
        end
  end.

(** device_move. It takes a reference on the device and on the new
    parent on entry and gives up that on the device and, when it has
    succeeded, the one device_add or an earlier device_move took on the
    old parent. kobject_move, whose result is an input, also hands the
    reference that the kobject of the device holds on its parent
    kobject (the kobject of the parent device, or a glue directory
    that get_device_parent chose) from the old one to the new one;
    that reference is kept by lib/kobject.c and is no part of
    [dev_kref], so nothing is derived below about the counts of the old
    and the new parent after a kobject_move that has succeeded. *)
Definition device_move (st : state) (dev new_parent : option dev_id)
  (order : dpm_order) (env : move_env) : option (state * Z) :=
  match dev with
  | None => Some (st, (- EINVAL)%Z)
  | Some d =>
      let st0 := get_device st (Some d) in
      let st1 := get_device st0 new_parent in
      if (move_parent_r env <? 0)%Z
      then move_fail st1 d new_parent (move_parent_r env)
      else if nonzero (kobject_move_r env)
      then move_fail st1 d new_parent (kobject_move_r env)
      else
        let old_parent := dev_parent st1 d in
        let st2 := set_parent st1 d new_parent in
        match knode_remove st2 d old_parent with
        | None => None
        | Some st3 =>
            match knode_add st3 d new_parent with
            | None => None
            | Some st4 =>
                if has_class env
                   && nonzero (device_move_class_links new_parent env)
                then move_undo st4 d old_parent new_parent env
                       (device_move_class_links new_parent env)
                else
                  match move_order st4 d new_parent order with
                  | None => None
                  | Some st5 => move_out (put_device st5 old_parent) d 0%Z
                  end
            end
        end
  end.

(** A move that meets no error outside the graph, and one whose class
    link cannot be created. *)
Definition move_ok : move_env := mk_move_env 0 0 false 0 0.

Definition move_link_error : move_env := mk_move_env 0 0 true (-12) 0.

(** Device 0 of [three_devices] moved under device 2 and placed behind
    it: its child 1 is left in front of it. *)
Definition parent_moved_behind_child : state :=
  state_of (device_move three_devices (Some 0) (Some 2)
              DPM_ORDER_DEV_AFTER_PARENT move_ok) three_devices.

(** Device 0 of [three_devices] moved under its own child 1, with
    kobject_move returning 0. *)
Definition moved_under_child : state :=
  state_of (device_move three_devices (Some 0) (Some 1) DPM_ORDER_NONE
              move_ok) three_devices.

(** What the switch on [dpm_order] does to one list, when it does not
    fault. *)
Definition moved_list (order : dpm_order) (dev np : dev_id) (l : list dev_id)
  : list dev_id :=
  match order with
  | DPM_ORDER_NONE => l
  | DPM_ORDER_DEV_AFTER_PARENT => list_add_after dev np (list_del dev l)
  | DPM_ORDER_PARENT_BEFORE_DEV => list_add_before np dev (list_del np l)
  | DPM_ORDER_DEV_LAST => list_move_tail dev l
  end.

(** The klist of [x] after [dev] has moved from [old_parent] to [np]. *)
Definition moved_children (st : state) (dev : dev_id)
  (old_parent : option dev_id) (np x : dev_id) : list dev_id :=
  let cs := match old_parent with
            | Some op => if x =? op then list_del dev (children st x)
                         else children st x
            | None => children st x
            end in
  if x =? np then list_add_tail dev cs else cs.

(** The device that the relative orders take from its place: the new
    parent for DPM_ORDER_PARENT_BEFORE_DEV, the device itself otherwise. *)
Definition moved_dev (order : dpm_order) (dev np : dev_id) : dev_id :=
  match order with
  | DPM_ORDER_PARENT_BEFORE_DEV => np
  | _ => dev
  end.

(** * Firmware nodes *)

Definition fw_addr := nat.

(** Modelled from the spec: a value of type [struct fwnode_handle *] is
    NULL, the address of a node, or an error pointer; ERR_PTR and IS_ERR
    are those of include/linux/err.h, which is not part of the
    sources. ERR_PTR(-ENODEV) is the only error pointer the file
    stores. *)
Inductive fw_ptr :=
| FW_NULL
| FW_NODE (a : fw_addr)
| FW_ERR.

Definition IS_ERR (p : fw_ptr) : bool :=
  match p with
  | FW_ERR => true
  | _ => false
  end.

(** [dev->fwnode] of every device and [fwnode->secondary] of every
    node. *)
Record fw_state := mk_fw_state {
  dev_fwnode : dev_id -> fw_ptr;
  fw_secondary : fw_addr -> fw_ptr
}.

(** Reading and writing [p->secondary]; [None]: [p] is not the address
    of a node. *)
Definition read_secondary (fs : fw_state) (p : fw_ptr) : option fw_ptr :=
  match p with
  | FW_NODE a => Some (fw_secondary fs a)
  | _ => None
  end.

Definition write_secondary (fs : fw_state) (p v : fw_ptr) : option fw_state :=
  match p with
  | FW_NODE a =>
      Some (mk_fw_state (dev_fwnode fs)
              (fun x => if x =? a then v else fw_secondary fs x))
  | _ => None
  end.

Definition write_fwnode (fs : fw_state) (dev : dev_id) (v : fw_ptr)
  : fw_state :=
  mk_fw_state (upd (dev_fwnode fs) dev v) (fw_secondary fs).

(** fwnode_is_primary: [fwnode && !IS_ERR(fwnode->secondary)]. *)
Definition fwnode_is_primary (fs : fw_state) (p : fw_ptr) : option bool :=
  match p with
  | FW_NULL => Some false
  | _ => option_map (fun s => negb (IS_ERR s)) (read_secondary fs p)
  end.

(** A pointer used as a C truth value. *)
Definition fw_nonnull (p : fw_ptr) : bool :=
  match p with
  | FW_NULL => false
  | _ => true
  end.

(** set_primary_fwnode. The WARN_ON only prints. *)
Definition set_primary_fwnode (fs : fw_state) (dev : dev_id) (fwnode : fw_ptr)
  : option fw_state :=
  if fw_nonnull fwnode
  then
    let fn := dev_fwnode fs dev in
    match fwnode_is_primary fs fn with
    | None => None
    | Some prim =>
        match (if prim then read_secondary fs fn else Some fn) with
        | None => None
        | Some fn1 =>
            match (if fw_nonnull fn1 then write_secondary fs fwnode fn1
                   else Some fs) with
            | None => None
            | Some fs1 => Some (write_fwnode fs1 dev fwnode)
            end
        end
    end
  else
    match fwnode_is_primary fs (dev_fwnode fs dev) with
    | None => None
    | Some true =>
        option_map (write_fwnode fs dev) (read_secondary fs (dev_fwnode fs dev))
    | Some false => Some (write_fwnode fs dev FW_NULL)
    end.

(** set_secondary_fwnode. *)
Definition set_secondary_fwnode (fs : fw_state) (dev : dev_id)
  (fwnode : fw_ptr) : option fw_state :=
  match (if fw_nonnull fwnode then write_secondary fs fwnode FW_ERR
         else Some fs) with
  | None => None
  | Some fs1 =>
      match fwnode_is_primary fs1 (dev_fwnode fs1 dev) with
      | None => None
      | Some true => write_secondary fs1 (dev_fwnode fs1 dev) fwnode
      | Some false => Some (write_fwnode fs1 dev fwnode)
      end
  end.

(** The primary node of a device: [dev->fwnode] if that is a node whose
    [secondary] is not an error pointer. *)
Definition primary_of (fs : fw_state) (dev : dev_id) : fw_ptr :=
  match dev_fwnode fs dev with
  | FW_NODE a => if IS_ERR (fw_secondary fs a) then FW_NULL else FW_NODE a
  | _ => FW_NULL
  end.

(** The secondary node of a device: the [secondary] of its primary node,
    or [dev->fwnode] itself when the device has no primary node. *)
Definition secondary_of (fs : fw_state) (dev : dev_id) : fw_ptr :=
  match dev_fwnode fs dev with
  | FW_NODE a =>
      if IS_ERR (fw_secondary fs a) then FW_NODE a else fw_secondary fs a
  | p => p
  end.

(** No device has a node yet. *)
Definition no_fwnodes : fw_state :=
  mk_fw_state (fun _ => FW_NULL) (fun _ => FW_NULL).

(** Device 0 with the secondary node 7 only. *)
Definition lone_secondary : fw_state :=
  match set_secondary_fwnode no_fwnodes 0 (FW_NODE 7) with
  | Some fs => fs
  | None => no_fwnodes
  end.

(** * Proofs *)

(** ** Lemmas on lists *)

Lemma mem_In : forall d l, mem d l = true <-> In d l.
Proof.
  intros d l. unfold mem. rewrite existsb_exists. split.
  - intros [x [Hin Heq]]. apply Nat.eqb_eq in Heq. subst. exact Hin.
  - intros Hin. exists d. split; [exact Hin | apply Nat.eqb_refl].
Qed.

Lemma mem_false : forall d l, mem d l = false <-> ~ In d l.
Proof.
  intros d l. rewrite <- mem_In. destruct (mem d l); split; congruence.
Qed.

Lemma In_list_del : forall x y l, In y (list_del x l) <-> In y l /\ y <> x.
Proof.
  intros x y l. unfold list_del. rewrite filter_In.
  rewrite negb_true_iff, Nat.eqb_neq. tauto.
Qed.

Lemma list_del_notin : forall x l, ~ In x l -> list_del x l = l.
Proof.
  intros x l. induction l as [|y l IH]; simpl; intros Hn; [reflexivity|].
  destruct (Nat.eqb_spec y x) as [->|Hne]; simpl.
  - exfalso. apply Hn. now left.
  - f_equal. apply IH. intros H. apply Hn. now right.
Qed.

Lemma list_del_app : forall x l1 l2,
  list_del x (l1 ++ l2) = list_del x l1 ++ list_del x l2.
Proof. intros. unfold list_del. apply filter_app. Qed.

Lemma list_del_add_tail : forall x l,
  ~ In x l -> list_del x (list_add_tail x l) = l.
Proof.
  intros x l Hn. unfold list_add_tail. rewrite list_del_app.
  rewrite (list_del_notin _ _ Hn). simpl. rewrite Nat.eqb_refl. simpl.
  apply app_nil_r.
Qed.

Lemma NoDup_list_del : forall x l, NoDup l -> NoDup (list_del x l).
Proof. intros. unfold list_del. now apply NoDup_filter. Qed.

Lemma NoDup_add_tail : forall x l,
  NoDup l -> ~ In x l -> NoDup (list_add_tail x l).
Proof.
  intros x l Hnd Hn. unfold list_add_tail.
  apply NoDup_app; [exact Hnd | repeat constructor; intros [] | ].
  intros y Hy [<-|[]]. exact (Hn Hy).
Qed.

Lemma In_move_tail : forall x y l,
  In x l -> (In y (list_move_tail x l) <-> In y l).
Proof.
  intros x y l Hx. unfold list_move_tail, list_add_tail.
  rewrite in_app_iff, In_list_del. simpl.
  destruct (Nat.eq_dec y x) as [->|Hne].
  - split; [intros _; exact Hx | intros _; right; now left].
  - split; [intros [[H _]|[H|[]]]; [exact H | congruence] | intros H; left; tauto].
Qed.

Lemma NoDup_move_tail : forall x l, NoDup l -> NoDup (list_move_tail x l).
Proof.
  intros x l Hnd. unfold list_move_tail.
  apply NoDup_add_tail; [now apply NoDup_list_del|].
  rewrite In_list_del. tauto.
Qed.

Lemma index_of_le : forall x l, index_of x l <= length l.
Proof.
  intros x l. induction l as [|y l IH]; simpl; [lia|].
  destruct (y =? x); lia.
Qed.

Lemma index_of_In : forall x l, index_of x l < length l <-> In x l.
Proof.
  intros x l. induction l as [|y l IH]; simpl.
  - split; [lia | tauto].
  - destruct (Nat.eqb_spec y x) as [->|Hne].
    + split; [now left | lia].
    + split.
      * intros H. right. apply IH. lia.
      * intros [H|H]; [congruence|]. apply IH in H. lia.
Qed.

Lemma index_of_notin : forall x l, ~ In x l -> index_of x l = length l.
Proof.
  intros x l Hn. pose proof (index_of_le x l) as Hle.
  destruct (Nat.eq_dec (index_of x l) (length l)) as [E|E]; [exact E|].
  exfalso. apply Hn. apply index_of_In. lia.
Qed.

Lemma lt_in_In : forall l a b, lt_in l a b -> In a l.
Proof.
  intros l a b H. apply index_of_In. unfold lt_in in H.
  pose proof (index_of_le b l). lia.
Qed.

Lemma lt_in_notin : forall l a b, In a l -> ~ In b l -> lt_in l a b.
Proof.
  intros l a b Ha Hb. unfold lt_in. rewrite (index_of_notin _ _ Hb).
  now apply index_of_In.
Qed.

Lemma lt_in_del : forall x l a b,
  a <> x -> b <> x -> lt_in l a b -> lt_in (list_del x l) a b.
Proof.
  intros x l a b Ha Hb. unfold lt_in. induction l as [|y l IH]; simpl.
  - lia.
  - destruct (Nat.eqb_spec y x) as [->|Hyx]; simpl.
    + destruct (Nat.eqb_spec x a); [congruence|].
      destruct (Nat.eqb_spec x b); [congruence|]. intros H. apply IH. lia.
    + destruct (Nat.eqb_spec y a), (Nat.eqb_spec y b); lia.
Qed.

Lemma lt_in_add_tail : forall x l a b,
  b <> x -> lt_in l a b -> lt_in (list_add_tail x l) a b.
Proof.
  intros x l a b Hb. unfold lt_in, list_add_tail.
  induction l as [|y l IH]; simpl.
  - lia.
  - destruct (Nat.eqb_spec y a), (Nat.eqb_spec y b); lia.
Qed.

Lemma lt_in_tail : forall x l a,
  In a l -> ~ In x l -> lt_in (list_add_tail x l) a x.
Proof.
  intros x l a Ha Hx. unfold lt_in, list_add_tail.
  induction l as [|y l IH]; simpl in *; [tauto|].
  destruct (Nat.eqb_spec y a) as [->|Hya].
  - destruct (Nat.eqb_spec a x) as [->|_]; [tauto | lia].
  - destruct (Nat.eqb_spec y x) as [->|_]; [tauto|].
    apply -> Nat.succ_lt_mono. apply IH; tauto.
Qed.

Lemma lt_in_move_tail : forall x l a b,
  a <> x -> b <> x -> lt_in l a b -> lt_in (list_move_tail x l) a b.
Proof.
  intros. unfold list_move_tail. apply lt_in_add_tail; [assumption|].
  now apply lt_in_del.
Qed.

Lemma lt_in_move_tail_last : forall x l a,
  In a l -> a <> x -> lt_in (list_move_tail x l) a x.
Proof.
  intros x l a Ha Hne. unfold list_move_tail. apply lt_in_tail.
  - apply In_list_del. tauto.
  - rewrite In_list_del. tauto.
Qed.


(** ** The reordering on one list *)

Section Reorder.

Variable g : nat -> list nat.

Lemma reach_trans : forall a b c, reach g a b -> reach g b c -> reach g a c.
Proof.
  intros a b c H. induction H as [a|a b' c' Hin _ IH]; intros Hbc.
  - exact Hbc.
  - eapply reach_step; [exact Hin | now apply IH].
Qed.

Lemma reach_inv : forall a c,
  reach g a c -> a = c \/ reach_from g (g a) c.
Proof.
  intros a c H. destruct H as [a|a b c Hin Hr].
  - now left.
  - right. exists b. split; assumption.
Qed.

Lemma reach_from_nil : forall x, ~ reach_from g [] x.
Proof. intros x [v [[] _]]. Qed.

Lemma reach_from_cons : forall v vs x,
  reach_from g (v :: vs) x <-> reach g v x \/ reach_from g vs x.
Proof.
  intros v vs x. split.
  - intros [w [[<-|Hin] Hr]]; [now left | right; exists w; tauto].
  - intros [Hr|[w [Hin Hr]]]; [exists v | exists w]; simpl; tauto.
Qed.

(** A ranked graph has no cycle. *)
Lemma ranked_reach : forall rk N a b,
  ranked g rk N -> reach g a b -> rk a <= rk b.
Proof.
  intros rk N a b Hrk H. induction H as [a|a b c Hin _ IH]; [lia|].
  destruct (Hrk _ _ Hin). lia.
Qed.

Lemma ranked_acyclic : forall rk N u v,
  ranked g rk N -> In v (g u) -> ~ reach g v u.
Proof.
  intros rk N u v Hrk Hin Hr.
  destruct (Hrk _ _ Hin) as [H1 _].
  pose proof (ranked_reach _ _ _ _ Hrk Hr). lia.
Qed.

Lemma moved_nil : forall l, moved g (fun _ => False) l l.
Proof.
  intros l. repeat split; try tauto.
Qed.

Lemma moved_ext : forall (R R' : nat -> Prop) l l',
  (forall x, R x <-> R' x) -> moved g R l l' -> moved g R' l l'.
Proof.
  intros R R' l l' He (H1 & Hn & H2 & H3 & H4). repeat split.
  - apply H1.
  - apply H1.
  - exact Hn.
  - intros a b Ha Hb. apply H2; rewrite He; assumption.
  - intros a b Hin Ha Hb. apply H3; [assumption | rewrite He | rewrite He];
      assumption.
  - intros u v Hu. apply H4. now rewrite He.
Qed.

Lemma moved_seq : forall (R1 R2 : nat -> Prop) l l1 l2,
  moved g R1 l l1 -> moved g R2 l1 l2 ->
  moved g (fun x => R1 x \/ R2 x) l l2.
Proof.
  intros R1 R2 l l1 l2 (A1 & An & A2 & A3 & A4) (B1 & Bn & B2 & B3 & B4).
  repeat split.
  - intros H. apply A1, B1, H.
  - intros H. apply B1, A1, H.
  - intros H. apply Bn, An, H.
  - intros a b Ha Hb H. apply B2; [tauto | tauto |]. apply A2; tauto.
  - intros a b Hin Ha Hb.
    destruct (classic (R2 b)) as [Hb2|Hb2].
    + apply B3; [now apply A1 | tauto | exact Hb2].
    + apply B2; [tauto | exact Hb2 |]. apply A3; tauto.
  - intros u v Hu Hv Hin.
    destruct (classic (R2 u)) as [Hu2|Hu2].
    + apply B4; [assumption | assumption | now apply A1].
    + assert (Hl1 : lt_in l1 u v) by (apply A4; tauto).
      destruct (classic (R2 v)) as [Hv2|Hv2].
      * apply B3; [now apply A1 | assumption | assumption].
      * apply B2; assumption.
Qed.

(** Moving the root itself, then everything that depends on it. *)
Lemma moved_root : forall (R2 : nat -> Prop) r l l2,
  moved g R2 (move_if_on r l) l2 ->
  (forall v, In v (g r) -> R2 v) ->
  ~ R2 r ->
  moved g (fun x => x = r \/ R2 x) l l2.
Proof.
  intros R2 r l l2 (B1 & Bn & B2 & B3 & B4) Hsucc Hr.
  unfold move_if_on in *.
  set (l1 := if mem r l then list_move_tail r l else l) in *.
  assert (M1 : forall x, In x l1 <-> In x l).
  { intros x. unfold l1. destruct (mem r l) eqn:E; [|tauto].
    apply In_move_tail. now apply mem_In. }
  assert (M2 : forall a b, a <> r -> b <> r -> lt_in l a b -> lt_in l1 a b).
  { intros a b Ha Hb H. unfold l1. destruct (mem r l); [|exact H].
    now apply lt_in_move_tail. }
  assert (M3 : forall a, In a l -> a <> r -> lt_in l1 a r).
  { intros a Ha Hne. unfold l1. destruct (mem r l) eqn:E.
    - now apply lt_in_move_tail_last.
    - apply lt_in_notin; [exact Ha | now apply mem_false]. }
  repeat split.
  - intros H. apply M1, B1, H.
  - intros H. apply B1, M1, H.
  - intros H. apply Bn. unfold l1. destruct (mem r l); [|exact H].
    now apply NoDup_move_tail.
  - intros a b Ha Hb H. apply B2; [tauto | tauto |]. apply M2; tauto.
  - intros a b Hin Ha Hb.
    destruct (classic (R2 b)) as [Hb2|Hb2].
    + apply B3; [now apply M1 | tauto | exact Hb2].
    + assert (b = r) by tauto. subst b.
      apply B2; [tauto | exact Hr |]. apply M3; tauto.
  - intros u v Hu Hv Hin.
    destruct (classic (R2 u)) as [Hu2|Hu2].
    + apply B4; [assumption | assumption | now apply M1].
    + assert (u = r) by tauto. subst u.
      apply B3; [now apply M1 | exact Hr | now apply Hsucc].
Qed.

Lemma visit_list_moved : forall (f : list nat -> nat -> option (list nat)),
  (forall l v l', f l v = Some l' -> moved g (reach g v) l l') ->
  forall vs l l', visit_list f l vs = Some l' ->
  moved g (reach_from g vs) l l'.
Proof.
  intros f Hf vs. induction vs as [|v vs IH]; simpl; intros l l' H.
  - injection H as <-. eapply moved_ext; [|apply moved_nil].
    intros x. split; [tauto | apply reach_from_nil].
  - destruct (f l v) as [l1|] eqn:E; [|discriminate].
    eapply moved_ext; [|eapply moved_seq; [exact (Hf _ _ _ E) | exact (IH _ _ H)]].
    intros x. simpl. now rewrite reach_from_cons.
Qed.

Hypothesis acyclic : forall u v, In v (g u) -> ~ reach g v u.

(** The effect of the reordering started at [r]: the devices that depend
    on [r] end up behind all others, in an order that follows every
    edge among them; the others keep their order. *)
Lemma visit_moved : forall fuel l r l',
  visit g fuel l r = Some l' -> moved g (reach g r) l l'.
Proof.
  induction fuel as [|n IH]; simpl; intros l r l' H; [discriminate|].
  pose proof (visit_list_moved _ IH _ _ _ H) as Hm.
  apply moved_root in Hm.
  - eapply moved_ext; [|exact Hm]. intros x. split.
    + intros [->|[v [Hin Hr]]]; [apply reach_refl | eapply reach_step; eauto].
    + intros Hr. apply reach_inv in Hr. destruct Hr; [left; congruence | now right].
  - intros v Hin. exists v. split; [exact Hin | apply reach_refl].
  - intros [v [Hin Hr]]. exact (acyclic _ _ Hin Hr).
Qed.

(** With fuel beyond the longest path the reordering returns. *)
Lemma visit_list_total : forall (f : list nat -> nat -> option (list nat)) vs,
  (forall l v, In v vs -> f l v <> None) ->
  forall l, visit_list f l vs <> None.
Proof.
  intros f vs. induction vs as [|v vs IH]; simpl; intros Hf l; [discriminate|].
  destruct (f l v) as [l1|] eqn:E.
  - apply IH. intros l2 w Hw. apply Hf. now right.
  - exfalso. apply (Hf l v); [now left | exact E].
Qed.

Lemma visit_total : forall rk N, ranked g rk N ->
  forall fuel l r, rk r <= N -> N < fuel + rk r -> visit g fuel l r <> None.
Proof.
  intros rk N Hrk. induction fuel as [|n IH]; simpl; intros l r Hle Hlt.
  - lia.
  - apply visit_list_total. intros l1 v Hin.
    destruct (Hrk _ _ Hin). apply IH; lia.
Qed.

End Reorder.

(** ** device_reorder_to_tail and device_is_dependent on the graph *)

Lemma same_graph_refl : forall s, same_graph s s.
Proof. intros s. repeat split. Qed.

Lemma same_graph_children : forall s s' d,
  same_graph s s' -> children s' d = children s d.
Proof. intros s s' d (_ & H & _). unfold children. now rewrite H. Qed.

Lemma same_graph_consumers : forall s s' d,
  same_graph s s' -> consumers s' d = consumers s d.
Proof.
  intros s s' d (_ & _ & _ & _ & H & _). unfold consumers. now rewrite H.
Qed.

Lemma same_graph_succs : forall s s' d,
  same_graph s s' -> succs s' d = succs s d.
Proof.
  intros s s' d H. unfold succs.
  now rewrite (same_graph_children _ _ d H), (same_graph_consumers _ _ d H).
Qed.

Lemma visit_list_app : forall f xs ys l,
  visit_list f l (xs ++ ys) =
  match visit_list f l xs with
  | None => None
  | Some l' => visit_list f l' ys
  end.
Proof.
  intros f xs ys. induction xs as [|x xs IH]; simpl; intros l; [reflexivity|].
  destruct (f l x); [apply IH | reflexivity].
Qed.

Lemma for_each_do_visit :
  forall (A : Type) (fn : state -> A -> option state) (h : A -> nat)
         (f : list nat -> nat -> option (list nat)) (s0 : state),
  (forall s x s', same_graph s0 s -> fn s x = Some s' ->
     same_graph s0 s' /\
     f (devices_kset s) (h x) = Some (devices_kset s') /\
     f (dpm_list s) (h x) = Some (dpm_list s')) ->
  forall xs s s', same_graph s0 s -> for_each_do fn s xs = Some s' ->
     same_graph s0 s' /\
     visit_list f (devices_kset s) (map h xs) = Some (devices_kset s') /\
     visit_list f (dpm_list s) (map h xs) = Some (dpm_list s').
Proof.
  intros A fn h f s0 Hfn xs. induction xs as [|x xs IH]; simpl; intros s s' Hs H.
  - injection H as <-. auto.
  - destruct (fn s x) as [s1|] eqn:E; [|discriminate].
    destruct (Hfn _ _ _ Hs E) as (Hs1 & Hk & Hd).
    rewrite Hk, Hd. now apply IH.
Qed.

Lemma move_self_spec : forall s dev,
  same_graph s (move_self s dev) /\
  devices_kset (move_self s dev) = move_if_on dev (devices_kset s) /\
  dpm_list (move_self s dev) = move_if_on dev (dpm_list s).
Proof.
  intros s dev.
  unfold move_self, device_is_registered, device_pm_initialized, move_if_on.
  destruct (mem dev (devices_kset s)); simpl;
    destruct (mem dev (dpm_list s)); simpl; repeat split.
Qed.

Lemma same_graph_trans : forall a b c,
  same_graph a b -> same_graph b c -> same_graph a c.
Proof.
  intros a b c (A1 & A2 & A3 & A4 & A5 & A6) (B1 & B2 & B3 & B4 & B5 & B6).
  repeat split; congruence.
Qed.

Lemma reorder_visit : forall fuel s0 s dev s',
  same_graph s0 s -> device_reorder_to_tail fuel s dev = Some s' ->
  same_graph s0 s' /\
  visit (succs s0) fuel (devices_kset s) dev = Some (devices_kset s') /\
  visit (succs s0) fuel (dpm_list s) dev = Some (dpm_list s').
Proof.
  induction fuel as [|n IH]; intros s0 s dev s' Hs H; [discriminate|].
  simpl in H. change (match for_each_do (device_reorder_to_tail n)
                           (move_self s dev) (children (move_self s dev) dev)
                   with
                   | Some st3 =>
                       for_each_do
                         (fun s1 link => device_reorder_to_tail n s1 (consumer link))
                         st3 (consumers st3 dev)
                   | None => None
                   end = Some s') in H.
  destruct (move_self_spec s dev) as (Hm & Hk2 & Hd2).
  set (st2 := move_self s dev) in *.
  assert (H2 : same_graph s0 st2) by (eapply same_graph_trans; eauto).
  destruct (for_each_do (device_reorder_to_tail n) st2 (children st2 dev))
    as [st3|] eqn:E3; [|discriminate].
  destruct (for_each_do_visit _ (device_reorder_to_tail n) (fun c => c)
              (visit (succs s0) n) s0
              (fun s1 x s1' Hs1 Hx => IH s0 s1 x s1' Hs1 Hx)
              _ _ _ H2 E3) as (H3 & Hk3 & Hd3).
  destruct (for_each_do_visit _
              (fun s1 link => device_reorder_to_tail n s1 (consumer link))
              consumer (visit (succs s0) n) s0
              (fun s1 x s1' Hs1 Hx => IH s0 s1 (consumer x) s1' Hs1 Hx)
              _ _ _ H3 H) as (H4 & Hk4 & Hd4).
  rewrite map_id in Hk3, Hd3.
  rewrite (same_graph_children _ _ dev H2) in Hk3, Hd3.
  rewrite (same_graph_consumers _ _ dev H3) in Hk4, Hd4.
  split; [exact H4|].
  simpl.
  change (succs s0 dev)
    with (children s0 dev ++ map consumer (consumers s0 dev)).
  rewrite !visit_list_app.
  rewrite <- Hk2, <- Hd2, Hk3, Hd3. split; assumption.
Qed.

Lemma for_each_do_total :
  forall (A : Type) (fn : state -> A -> option state) (s0 : state) xs,
  (forall s x s', same_graph s0 s -> fn s x = Some s' -> same_graph s0 s') ->
  (forall s x, same_graph s0 s -> In x xs -> fn s x <> None) ->
  forall s, same_graph s0 s -> for_each_do fn s xs <> None.
Proof.
  intros A fn s0 xs Hsg. induction xs as [|x xs IH]; simpl; intros Hfn s Hs.
  - discriminate.
  - destruct (fn s x) as [s1|] eqn:E.
    + apply IH; [|eapply Hsg; eauto]. intros s2 y Hs2 Hy. apply Hfn; auto.
    + exfalso. apply (Hfn s x Hs); [now left | exact E].
Qed.

Lemma reorder_total : forall s0 rk N, ranked (succs s0) rk N ->
  forall fuel s dev, same_graph s0 s -> rk dev <= N -> N < fuel + rk dev ->
  device_reorder_to_tail fuel s dev <> None.
Proof.
  intros s0 rk N Hrk. induction fuel as [|n IH]; intros s dev Hs Hle Hlt; [lia|].
  simpl. change (match for_each_do (device_reorder_to_tail n)
                      (move_self s dev) (children (move_self s dev) dev)
                with
                | Some st3 =>
                    for_each_do
                      (fun s1 link => device_reorder_to_tail n s1 (consumer link))
                      st3 (consumers st3 dev)
                | None => None
                end <> None).
  destruct (move_self_spec s dev) as (Hm & _ & _).
  set (st2 := move_self s dev) in *.
  assert (H2 : same_graph s0 st2) by (eapply same_graph_trans; eauto).
  assert (Hstep : forall v, In v (succs s0 dev) ->
            forall s1, same_graph s0 s1 -> device_reorder_to_tail n s1 v <> None).
  { intros v Hv s1 Hs1. destruct (Hrk _ _ Hv). apply IH; [assumption|lia|lia]. }
  destruct (for_each_do (device_reorder_to_tail n) st2 (children st2 dev))
    as [st3|] eqn:E3.
  - assert (H3 : same_graph s0 st3).
    { eapply (for_each_do_visit _ (device_reorder_to_tail n) (fun c => c)
                (visit (succs s0) n) s0); [|exact H2|exact E3].
      intros s1 x s1' Hs1 Hx. exact (reorder_visit n s0 s1 x s1' Hs1 Hx). }
    apply (for_each_do_total _ _ s0); [| |exact H3].
    + intros s1 x s1' Hs1 Hx. exact (proj1 (reorder_visit n _ _ _ _ Hs1 Hx)).
    + intros s1 x Hs1 Hx. apply Hstep; [|exact Hs1].
      unfold succs. apply in_or_app. right. apply in_map.
      now rewrite <- (same_graph_consumers _ _ dev H3).
  - exfalso. revert E3. apply (for_each_do_total _ _ s0); [| |exact H2].
    + intros s1 x s1' Hs1 Hx. exact (proj1 (reorder_visit n _ _ _ _ Hs1 Hx)).
    + intros s1 x Hs1 Hx. apply Hstep; [|exact Hs1].
      unfold succs. apply in_or_app. left.
      now rewrite <- (same_graph_children _ _ dev H2).
Qed.

(** device_is_dependent decides reachability. *)

Lemma for_each_until_true : forall (A : Type) (fn : A -> option bool) xs,
  for_each_until fn xs = Some true -> exists x, In x xs /\ fn x = Some true.
Proof.
  intros A fn xs. induction xs as [|x xs IH]; simpl; [discriminate|].
  destruct (fn x) as [[|]|] eqn:E; intros H; try discriminate.
  - exists x. auto.
  - destruct (IH H) as [y [Hy Ey]]. exists y. auto.
Qed.

Lemma for_each_until_false : forall (A : Type) (fn : A -> option bool) xs,
  for_each_until fn xs = Some false -> forall x, In x xs -> fn x = Some false.
Proof.
  intros A fn xs. induction xs as [|x xs IH]; simpl; [tauto|].
  destruct (fn x) as [[|]|] eqn:E; intros H y [<-|Hy]; try discriminate; auto.
Qed.

Lemma for_each_until_total : forall (A : Type) (fn : A -> option bool) xs,
  (forall x, In x xs -> fn x <> None) -> for_each_until fn xs <> None.
Proof.
  intros A fn xs. induction xs as [|x xs IH]; simpl; intros H; [discriminate|].
  destruct (fn x) as [[|]|] eqn:E.
  - discriminate.
  - apply IH. intros y Hy. apply H. now right.
  - exfalso. apply (H x); [now left | exact E].
Qed.

Lemma In_consumers : forall st d l,
  In l (consumers st d) <-> In l (links st) /\ supplier l = d.
Proof.
  intros st d l. unfold consumers. rewrite filter_In, Nat.eqb_eq. tauto.
Qed.

Lemma In_suppliers : forall st d l,
  In l (suppliers st d) <-> In l (links st) /\ consumer l = d.
Proof.
  intros st d l. unfold suppliers. rewrite filter_In, Nat.eqb_eq. tauto.
Qed.

Lemma In_succs : forall st u v,
  In v (succs st u) <->
  In v (children st u) \/
  exists l, In l (links st) /\ supplier l = u /\ consumer l = v.
Proof.
  intros st u v. unfold succs. rewrite in_app_iff, in_map_iff. split.
  - intros [H|[l [E H]]]; [now left|]. right. exists l.
    apply In_consumers in H. tauto.
  - intros [H|[l (H1 & H2 & H3)]]; [now left|]. right. exists l.
    split; [exact H3 | apply In_consumers; tauto].
Qed.

Lemma dep_sound : forall fuel st a t,
  device_is_dependent fuel st a t = Some true -> reach (succs st) a t.
Proof.
  induction fuel as [|n IH]; intros st a t H; [discriminate|]. simpl in H.
  destruct (Nat.eqb_spec a t) as [->|Hne]; [apply reach_refl|].
  destruct (for_each_until _ (children st a)) as [[|]|] eqn:E; try discriminate.
  - apply for_each_until_true in E. destruct E as [c [Hc Ec]].
    apply reach_step with c; [|now apply IH].
    apply In_succs. now left.
  - apply for_each_until_true in H. destruct H as [l [Hl El]].
    apply In_consumers in Hl. destruct Hl as [Hl Hs].
    apply reach_step with (consumer l).
    + apply In_succs. right. exists l. auto.
    + destruct (Nat.eqb_spec (consumer l) t) as [->|_];
        [apply reach_refl | now apply IH].
Qed.

Lemma dep_complete : forall fuel st a t,
  device_is_dependent fuel st a t = Some false -> ~ reach (succs st) a t.
Proof.
  induction fuel as [|n IH]; intros st a t H; [discriminate|]. simpl in H.
  destruct (Nat.eqb_spec a t) as [->|Hne]; [discriminate|].
  destruct (for_each_until _ (children st a)) as [[|]|] eqn:E; try discriminate.
  intros Hr. apply reach_inv in Hr. destruct Hr as [|[v [Hv Hr]]]; [congruence|].
  apply In_succs in Hv. destruct Hv as [Hv|[l (Hl & Hs & Hc)]].
  - exact (IH _ _ _ (for_each_until_false _ _ _ E v Hv) Hr).
  - assert (Hl' : In l (consumers st a)) by (apply In_consumers; auto).
    pose proof (for_each_until_false _ _ _ H l Hl') as Hf. simpl in Hf.
    destruct (Nat.eqb_spec (consumer l) t); [discriminate|].
    subst v. exact (IH _ _ _ Hf Hr).
Qed.

Lemma dep_total : forall st rk N, ranked (succs st) rk N ->
  forall fuel a t, rk a <= N -> N < fuel + rk a ->
  device_is_dependent fuel st a t <> None.
Proof.
  intros st rk N Hrk. induction fuel as [|n IH]; intros a t Hle Hlt; [lia|].
  simpl. destruct (a =? t); [discriminate|].
  assert (Hstep : forall v, In v (succs st a) ->
                  device_is_dependent n st v t <> None).
  { intros v Hv. destruct (Hrk _ _ Hv). apply IH; lia. }
  destruct (for_each_until _ (children st a)) as [[|]|] eqn:E.
  - discriminate.
  - apply for_each_until_total. intros l Hl.
    destruct (consumer l =? t); [discriminate|]. apply Hstep.
    apply In_succs. right. exists l. apply In_consumers in Hl. tauto.
  - exfalso. revert E. apply for_each_until_total. intros c Hc.
    apply Hstep. apply In_succs. now left.
Qed.

(** ** What device_add leaves behind *)

Ltac split_ifs_in H :=
  repeat match type of H with
         | context [if ?b then _ else _] =>
             let E := fresh "E" in destruct b eqn:E
         end.

Ltac solve_upd :=
  unfold upd;
  repeat match goal with
         | |- context [?a =? ?b] =>
             destruct (Nat.eqb_spec a b); try subst; try congruence
         end;
  simpl; try reflexivity; try congruence; try lia.

Lemma nonzero_true : forall z, nonzero z = true -> z <> 0%Z.
Proof.
  intros z H. unfold nonzero in H.
  apply negb_true_iff, Z.eqb_neq in H. exact H.
Qed.

Lemma upd_same : forall (B : Type) (m : dev_id -> B) d v, upd m d v d = v.
Proof. intros. unfold upd. now rewrite Nat.eqb_refl. Qed.

Lemma upd_other : forall (B : Type) (m : dev_id -> B) d v x,
  x <> d -> upd m d v x = m x.
Proof.
  intros B m d v x H. unfold upd. destruct (Nat.eqb_spec x d); congruence.
Qed.

Ltac err_contra :=
  match goal with
  | E : nonzero ?z = true, H : ?z = 0%Z |- _ =>
      apply nonzero_true in E; congruence
  | E : _ && nonzero ?z = true, H : ?z = 0%Z |- _ =>
      apply andb_prop in E; destruct E as [_ E];
      apply nonzero_true in E; congruence
  | E : (?z <? 0)%Z = true, H : ?z = 0%Z |- _ =>
      apply Z.ltb_lt in E; lia
  end.

(** When the first part of device_add returns, it returns an error, and
    on a device that is on neither list it has left both lists, all
    links, all reference counts and all klists of children as they
    were; only [dev->p] may have been freed. *)
Lemma device_add_head_returned : forall st dev env st' err,
  ~ In dev (devices_kset st) -> ~ In dev (dpm_list st) ->
  device_add_head st dev env = Add_returned (st', err) ->
  err <> 0%Z /\
  devices_kset st' = devices_kset st /\
  dpm_list st' = dpm_list st /\
  links st' = links st /\
  next_link st' = next_link st /\
  dev_parent st' = dev_parent st /\
  dev_links_status st' = dev_links_status st /\
  (forall d, dev_kref st' d = dev_kref st d) /\
  (forall d, d <> dev -> dev_p st' d = dev_p st d) /\
  (dev_p st' dev = None \/ dev_p st' dev = dev_p st dev).
Proof.
  intros st dev env st' err Hk Hd H.
  unfold device_add_head, add_DevAttrError, add_attrError, add_Error,
    add_parent_error, add_name_error, add_done in H.
  cbn -[upd list_del list_add_tail Z.ltb nonzero] in H.
  destruct (dev_p st dev) as [cs|] eqn:Epp;
    cbn -[upd list_del list_add_tail Z.ltb nonzero] in H;
    destruct (dev_parent st dev) as [par|] eqn:Ep;
    cbn -[upd list_del list_add_tail Z.ltb nonzero] in H;
    split_ifs_in H; try discriminate;
    injection H as <- <-;
    (split; [intros Herr; solve [err_contra | discriminate]|]);
    simpl; rewrite ?list_del_add_tail by assumption;
    repeat split;
    try (left; apply upd_same);
    try solve [intros d; solve_upd];
    try (intros d Hne; apply upd_other; exact Hne);
    try (right; reflexivity); try (left; assumption).
Qed.

(** When the first part of device_add gets to bus_probe_device, the
    device is at the end of both lists, on no klist yet, and holds a
    reference on its parent; the reference taken on entry is still
    held. *)
Lemma device_add_head_probing : forall st dev env st4 parent,
  device_add_head st dev env = Add_probing st4 parent ->
  parent = dev_parent st dev /\
  devices_kset st4 = list_add_tail dev (devices_kset st) /\
  dpm_list st4 = list_add_tail dev (dpm_list st) /\
  links st4 = links st /\
  next_link st4 = next_link st /\
  dev_parent st4 = dev_parent st /\
  dev_links_status st4 = dev_links_status st /\
  (forall d, children st4 d = children st d) /\
  (forall d, dev_p st d <> None -> dev_p st4 d <> None) /\
  dev_p st4 dev <> None /\
  (forall d, dev_kref st4 d
             = dev_kref st d + (if d =? dev then 1 else 0)
               + match dev_parent st dev with
                 | Some par => if d =? par then 1 else 0
                 | None => 0
                 end).
Proof.
  intros st dev env st4 parent H.
  unfold device_add_head, add_DevAttrError, add_attrError, add_Error,
    add_parent_error, add_name_error, add_done in H.
  cbn -[upd list_del list_add_tail Z.ltb nonzero] in H.
  destruct (dev_p st dev) as [cs|] eqn:Epp;
    cbn -[upd list_del list_add_tail Z.ltb nonzero] in H;
    destruct (dev_parent st dev) as [par|] eqn:Ep;
    cbn -[upd list_del list_add_tail Z.ltb nonzero] in H;
    split_ifs_in H; try discriminate;
    injection H as <- <-.
  all: cbn -[upd list_del list_add_tail].
  all: repeat split.
  all: try (intros d; unfold children; cbn -[upd]; unfold upd;
            destruct (Nat.eqb_spec d dev); [subst; now rewrite Epp | reflexivity]).
  all: try (intros d Hd; unfold upd;
            destruct (Nat.eqb_spec d dev); [discriminate | exact Hd]).
  all: try (rewrite upd_same; discriminate).
  all: try congruence.
  all: intros d; unfold upd;
    repeat match goal with
           | |- context [?a =? ?b] =>
               destruct (Nat.eqb_spec a b); try subst; try congruence
           end; simpl; lia.
Qed.

(** The second part of device_add puts the device on the klist of the
    parent; the reference the klist takes on it replaces the one taken
    on entry. *)
Lemma device_add_tail_spec : forall st dev parent st' err,
  device_add_tail st dev parent = Some (st', err) ->
  err = 0%Z /\
  devices_kset st' = devices_kset st /\
  dpm_list st' = dpm_list st /\
  links st' = links st /\
  next_link st' = next_link st /\
  dev_parent st' = dev_parent st /\
  dev_links_status st' = dev_links_status st /\
  (forall d, children st' d =
             if match parent with
                | Some par => d =? par
                | None => false
                end
             then list_add_tail dev (children st d) else children st d) /\
  (forall d, dev_p st d <> None -> dev_p st' d <> None) /\
  (forall d, dev_kref st' d
             = match parent with
               | Some _ => dev_kref st d
               | None => if d =? dev then pred (dev_kref st d)
                         else dev_kref st d
               end).
Proof.
  intros st dev parent st' err H. unfold device_add_tail, add_done in H.
  destruct parent as [par|].
  - unfold klist_add_tail in H.
    destruct (dev_p st par) as [cs|] eqn:Epar; [|discriminate].
    injection H as <- <-. cbn -[upd list_add_tail]. repeat split.
    + intros d. unfold children. cbn -[upd list_add_tail]. unfold upd.
      destruct (Nat.eqb_spec d par) as [->|Hne]; [now rewrite Epar|reflexivity].
    + intros d Hd. unfold upd. destruct (d =? par); [discriminate|exact Hd].
    + intros d. unfold upd.
      destruct (Nat.eqb_spec d dev) as [->|Hne];
        rewrite ?Nat.eqb_refl; reflexivity.
  - injection H as <- <-. cbn -[upd]. repeat split.
    + intros d Hd. exact Hd.
    + intros d. unfold upd.
      destruct (Nat.eqb_spec d dev) as [->|Hne]; reflexivity.
Qed.

Lemma device_add_tail_returns : forall st dev parent,
  (forall par, parent = Some par -> dev_p st par <> None) ->
  device_add_tail st dev parent <> None.
Proof.
  intros st dev parent H. unfold device_add_tail, klist_add_tail.
  destruct parent as [par|]; [|discriminate].
  specialize (H par eq_refl). destruct (dev_p st par); [discriminate|congruence].
Qed.

(** A failed device_add, on a device that is on neither list, leaves
    both lists, all links, all reference counts and all klists of
    children as they were; only [dev->p] may have been freed. It has
    not got to bus_probe_device. *)
Lemma device_add_fail : forall st dev env probe st' err,
  ~ In dev (devices_kset st) -> ~ In dev (dpm_list st) ->
  device_add st dev env probe = Some (st', err) -> err <> 0%Z ->
  device_add_head st dev env = Add_returned (st', err) /\
  devices_kset st' = devices_kset st /\
  dpm_list st' = dpm_list st /\
  links st' = links st /\
  next_link st' = next_link st /\
  dev_parent st' = dev_parent st /\
  dev_links_status st' = dev_links_status st /\
  (forall d, dev_kref st' d = dev_kref st d) /\
  (forall d, d <> dev -> dev_p st' d = dev_p st d) /\
  (dev_p st' dev = None \/ dev_p st' dev = dev_p st dev).
Proof.
  intros st dev env probe st' err Hk Hd H Herr. unfold device_add in H.
  destruct (device_add_head st dev env) as [[s e]|st4 parent] eqn:Eh.
  - injection H as <- <-. split; [reflexivity|].
    exact (proj2 (device_add_head_returned _ _ _ _ _ Hk Hd Eh)).
  - destruct (probe st4) as [st5|]; [|discriminate].
    destruct (device_add_tail_spec _ _ _ _ _ H) as [E _]. contradiction.
Qed.

(** A device_add that returns 0 has got to bus_probe_device (in [st4])
    and gone on behind it (from [st5]). *)
Lemma device_add_ok_parts : forall st dev env probe st',
  device_add st dev env probe = Some (st', 0%Z) ->
  exists st4 st5,
    device_add_head st dev env = Add_probing st4 (dev_parent st dev) /\
    probe st4 = Some st5 /\
    device_add_tail st5 dev (dev_parent st dev) = Some (st', 0%Z).
Proof.
  intros st dev env probe st' H. unfold device_add in H.
  destruct (device_add_head st dev env) as [[s e]|st4 parent] eqn:Eh.
  - injection H as <- He. exfalso.
    assert (Hx : forall z, z <> 0%Z -> z = 0%Z -> False) by (intros; lia).
    revert Eh. unfold device_add_head, add_DevAttrError, add_attrError,
      add_Error, add_parent_error, add_name_error, add_done.
    intros Eh. split_ifs_in Eh; try discriminate;
      injection Eh as _ Ee; subst e;
      solve [err_contra | discriminate].
  - destruct (probe st4) as [st5|] eqn:Ep; [|discriminate].
    destruct (device_add_head_probing _ _ _ _ _ Eh) as [-> _].
    exists st4, st5. auto.
Qed.

(** A successful device_add during which nothing calls back appends
    the device to both lists and to the klist of its parent, and takes
    a reference on the parent. *)
Lemma device_add_ok : forall st dev env st',
  device_add st dev env no_probe = Some (st', 0%Z) ->
  devices_kset st' = list_add_tail dev (devices_kset st) /\
  dpm_list st' = list_add_tail dev (dpm_list st) /\
  links st' = links st /\
  next_link st' = next_link st /\
  dev_parent st' = dev_parent st /\
  dev_links_status st' = dev_links_status st /\
  (forall d, children st' d =
             if match dev_parent st dev with
                | Some par => d =? par
                | None => false
                end
             then list_add_tail dev (children st d) else children st d) /\
  (forall par, dev_parent st dev = Some par -> par <> dev ->
     dev_kref st' par = S (dev_kref st par)) /\
  (forall d, dev_p st d <> None -> dev_p st' d <> None) /\
  dev_p st' dev <> None.
Proof.
  intros st dev env st' H.
  destruct (device_add_ok_parts _ _ _ _ _ H) as (st4 & st5 & Eh & Ep & Et).
  injection Ep as <-.
  destruct (device_add_head_probing _ _ _ _ _ Eh)
    as (_ & A1 & A2 & A3 & A4 & A5 & A6 & A7 & A8 & A9 & A10).
  destruct (device_add_tail_spec _ _ _ _ _ Et)
    as (_ & B1 & B2 & B3 & B4 & B5 & B6 & B7 & B8 & B9).
  repeat split; try congruence.
  - intros d. rewrite B7, A7. reflexivity.
  - intros par Hp Hne. rewrite B9, A10, Hp, Nat.eqb_refl.
    destruct (Nat.eqb_spec par dev); [contradiction|lia].
  - intros d Hd. apply B8, A8, Hd.
  - apply B8, A9.
Qed.

(** The reference counts after such a device_add: the klist of the
    parent holds a reference on the device, and the device one on its
    parent. *)
Lemma device_add_ok_kref : forall st dev env st',
  device_add st dev env no_probe = Some (st', 0%Z) ->
  forall d, dev_kref st' d
            = dev_kref st d
              + match dev_parent st dev with
                | Some par => (if d =? par then 1 else 0)
                              + (if d =? dev then 1 else 0)
                | None => 0
                end.
Proof.
  intros st dev env st' H d.
  destruct (device_add_ok_parts _ _ _ _ _ H) as (st4 & st5 & Eh & Ep & Et).
  injection Ep as <-.
  destruct (device_add_head_probing _ _ _ _ _ Eh)
    as (_ & _ & _ & _ & _ & _ & _ & _ & _ & _ & A10).
  destruct (device_add_tail_spec _ _ _ _ _ Et)
    as (_ & _ & _ & _ & _ & _ & _ & _ & _ & B9).
  rewrite B9, A10. destruct (dev_parent st dev) as [par|]; [lia|].
  destruct (d =? dev); simpl; lia.
Qed.

(** device_add does not fault when the parent, if any, has its private
    part, as every registered device has, and the calls made from
    bus_probe_device return and leave that private part in place. *)
Lemma device_add_returns : forall st dev env probe,
  (forall par, dev_parent st dev = Some par -> dev_p st par <> None) ->
  (forall s, exists s',
     probe s = Some s' /\
     forall d, dev_p s d <> None -> dev_p s' d <> None) ->
  device_add st dev env probe <> None.
Proof.
  intros st dev env probe Hpar Hprobe. unfold device_add.
  destruct (device_add_head st dev env) as [[s e]|st4 parent] eqn:Eh;
    [discriminate|].
  destruct (Hprobe st4) as (st5 & -> & Hp5).
  apply device_add_tail_returns. intros par ->.
  destruct (device_add_head_probing _ _ _ _ _ Eh)
    as (Epar & _ & _ & _ & _ & _ & _ & _ & A8 & A9 & _).
  apply Hp5.
  destruct (Nat.eq_dec par dev) as [->|Hne]; [exact A9|].
  apply A8. apply Hpar. now rewrite <- Epar.
Qed.

Lemma no_probe_returns : forall s, exists s',
  no_probe s = Some s' /\ forall d, dev_p s d <> None -> dev_p s' d <> None.
Proof. intros s. exists s. split; [reflexivity | auto]. Qed.

(** ** The three outcomes of device_link_add *)

Lemma device_link_add_cases : forall fuel st c s fl env st' r,
  device_link_add fuel st (Some c) (Some s) fl env = Some (st', r) ->
  (st' = st /\ r = None) \/
  (st' = st /\
   device_pm_initialized st s = true /\
   device_is_dependent fuel st c s = Some false /\
   exists link, find_link st c s = Some link /\ r = Some (l_addr link)) \/
  (flag_set fl DL_FLAG_STATELESS && flag_set fl DL_FLAG_AUTOREMOVE = false /\
   device_pm_initialized st s = true /\
   device_is_dependent fuel st c s = Some false /\
   find_link st c s = None /\
   exists st3,
     device_reorder_to_tail fuel
       (get_device (get_device st (Some s)) (Some c)) c = Some st3 /\
     st' = link_added st3 (new_link st c s fl) /\
     r = Some (next_link st)).
Proof.
  intros fuel st c s fl env st' r H. unfold device_link_add in H.
  destruct (flag_set fl DL_FLAG_STATELESS && flag_set fl DL_FLAG_AUTOREMOVE)
    eqn:Ef; [injection H as <- <-; auto|].
  destruct (device_pm_initialized st s) eqn:Epm; simpl in H;
    [|injection H as <- <-; auto].
  destruct (device_is_dependent fuel st c s) as [[|]|] eqn:Edep;
    [injection H as <- <-; auto| |discriminate].
  destruct (find_link st c s) as [link|] eqn:Efind.
  - injection H as <- <-. right. left. repeat split; auto. exists link. auto.
  - destruct (negb (kzalloc_ok env)); [injection H as <- <-; auto|].
    destruct (flag_set fl DL_FLAG_PM_RUNTIME && flag_set fl DL_FLAG_RPM_ACTIVE
              && (pm_runtime_get_sync_r env <? 0)%Z);
      [injection H as <- <-; auto|].
    destruct (device_reorder_to_tail fuel _ c) as [st3|] eqn:Er; [|discriminate].
    injection H as <- <-. right. right. repeat split; auto.
    exists st3. repeat split; auto.
Qed.

(** ** The link state machine *)

Lemma device_link_state_eqb_spec : forall a b,
  device_link_state_eqb a b = true <-> a = b.
Proof. intros a b. destruct a, b; simpl; split; congruence. Qed.


Lemma reset_probe_ready : forall dev l,
  supplier_ready dev l = true ->
  reset_link dev (probe_link dev l) = reset_link dev l.
Proof.
  intros dev l H. unfold supplier_ready, probe_link, reset_link in *.
  destruct (consumer l =? dev) eqn:Ec; simpl in *; [|now rewrite Ec].
  destruct (stateless l) eqn:Es; simpl in *; [now rewrite Ec|].
  apply device_link_state_eqb_spec in H. rewrite Ec. simpl. rewrite H. simpl.
  destruct l; simpl in *. subst. reflexivity.
Qed.

Lemma check_suppliers_loop_ok : forall st dev todo done,
  forallb (supplier_ready dev) todo = true ->
  check_suppliers_loop st dev done todo =
  (set_links st (done ++ map (probe_link dev) todo), 0%Z).
Proof.
  intros st dev todo. induction todo as [|l todo IH]; simpl; intros done H.
  - now rewrite app_nil_r.
  - apply andb_prop in H. destruct H as [Hl H].
    unfold supplier_ready in Hl. unfold probe_link at 1.
    destruct (consumer l =? dev); simpl in *.
    + destruct (stateless l); simpl in *.
      * rewrite IH by exact H. now rewrite <- app_assoc.
      * rewrite Hl. simpl. rewrite IH by exact H. now rewrite <- app_assoc.
    + rewrite IH by exact H. now rewrite <- app_assoc.
Qed.

Lemma check_suppliers_loop_defer : forall st dev todo done,
  forallb (supplier_ready dev) todo = false ->
  exists done',
    map (reset_link dev) done' = map (reset_link dev) (done ++ todo) /\
    check_suppliers_loop st dev done todo =
    (device_links_missing_supplier (set_links st done') dev,
     (- EPROBE_DEFER)%Z).
Proof.
  intros st dev todo. induction todo as [|l todo IH]; simpl; intros done H.
  - discriminate.
  - destruct (supplier_ready dev l) eqn:Hl; simpl in H.
    + assert (Hstep : check_suppliers_loop st dev done (l :: todo) =
                      check_suppliers_loop st dev
                        (done ++ [probe_link dev l]) todo).
      { simpl. unfold supplier_ready in Hl. unfold probe_link.
        destruct (consumer l =? dev); simpl in *; [|reflexivity].
        destruct (stateless l); simpl in *; [reflexivity|].
        now rewrite Hl. }
      simpl in Hstep. rewrite Hstep.
      destruct (IH (done ++ [probe_link dev l]) H) as [done' [Hm He]].
      exists done'. split; [|exact He].
      rewrite Hm. rewrite <- app_assoc. simpl.
      rewrite !map_app. simpl. now rewrite reset_probe_ready.
    + unfold supplier_ready in Hl.
      destruct (consumer l =? dev); simpl in *; [|discriminate].
      destruct (stateless l); simpl in *; [discriminate|].
      rewrite Hl. simpl. exists (done ++ l :: todo). auto.
Qed.

Lemma forallb_supplier_ready : forall st dev,
  forallb (supplier_ready dev) (links st) = true <->
  (forall l, In l (suppliers st dev) -> stateless l = false ->
             status l = DL_STATE_AVAILABLE).
Proof.
  intros st dev. rewrite forallb_forall. split.
  - intros H l Hl Hs. apply In_suppliers in Hl. destruct Hl as [Hl Hc].
    specialize (H l Hl). unfold supplier_ready in H.
    rewrite Hc, Nat.eqb_refl, Hs in H. simpl in H.
    now apply device_link_state_eqb_spec.
  - intros H l Hl. unfold supplier_ready.
    destruct (Nat.eqb_spec (consumer l) dev) as [Hc|Hc]; [|reflexivity].
    destruct (stateless l) eqn:Hs; [reflexivity|]. simpl.
    apply device_link_state_eqb_spec. apply H; [|exact Hs].
    apply In_suppliers. auto.
Qed.

Lemma check_suppliers_links : forall st dev,
  links (fst (device_links_check_suppliers st dev)) =
  map (if forallb (supplier_ready dev) (links st)
       then probe_link dev else reset_link dev) (links st) /\
  snd (device_links_check_suppliers st dev) =
  (if forallb (supplier_ready dev) (links st)
   then 0 else - EPROBE_DEFER)%Z.
Proof.
  intros st dev. unfold device_links_check_suppliers.
  destruct (forallb (supplier_ready dev) (links st)) eqn:E.
  - rewrite (check_suppliers_loop_ok st dev (links st) [] E). simpl. auto.
  - destruct (check_suppliers_loop_defer st dev (links st) [] E)
      as [done' [Hm He]].
    rewrite He. simpl. auto.
Qed.

Lemma endpoints_probe_link : forall dev l,
  l_addr (probe_link dev l) = l_addr l /\
  supplier (probe_link dev l) = supplier l /\
  consumer (probe_link dev l) = consumer l /\
  flags (probe_link dev l) = flags l.
Proof.
  intros dev l. unfold probe_link.
  destruct ((consumer l =? dev) && negb (stateless l)); simpl; auto.
Qed.

Lemma endpoints_reset_link : forall dev l,
  l_addr (reset_link dev l) = l_addr l /\
  supplier (reset_link dev l) = supplier l /\
  consumer (reset_link dev l) = consumer l /\
  flags (reset_link dev l) = flags l.
Proof.
  intros dev l. unfold reset_link.
  destruct ((consumer l =? dev)
            && device_link_state_eqb (status l) DL_STATE_CONSUMER_PROBE);
    simpl; auto.
Qed.

Lemma driver_bound_links : forall st dev,
  links (device_links_driver_bound st dev) = map (bound_link dev) (links st).
Proof.
  intros st dev. unfold device_links_driver_bound. simpl.
  rewrite map_map. reflexivity.
Qed.

Lemma endpoints_bound_link : forall dev l,
  l_addr (bound_link dev l) = l_addr l /\
  supplier (bound_link dev l) = supplier l /\
  consumer (bound_link dev l) = consumer l /\
  flags (bound_link dev l) = flags l.
Proof.
  intros dev l. unfold bound_link.
  destruct ((supplier l =? dev) && negb (stateless l)); simpl;
    destruct ((consumer l =? dev) && negb _); simpl; auto.
Qed.

(** Rewriting only the status of links leaves the graph as it is. *)
Lemma succs_map_links : forall (f : device_link -> device_link) st st',
  (forall l, supplier (f l) = supplier l /\ consumer (f l) = consumer l) ->
  dev_p st' = dev_p st -> links st' = map f (links st) ->
  forall d, succs st' d = succs st d.
Proof.
  intros f st st' Hf Hp Hl d. unfold succs, children, consumers.
  rewrite Hp, Hl. f_equal. clear Hl.
  induction (links st) as [|l ls IH]; simpl; [reflexivity|].
  destruct (Hf l) as [Hs Hc]. rewrite Hs.
  destruct (supplier l =? d); simpl; [rewrite Hc|]; now rewrite IH.
Qed.

(** * The invariant of the reachable states *)

(** On an ordered list the position is a rank. *)
Lemma ordered_ranked : forall st,
  ordered st ->
  ranked (succs st) (fun d => index_of d (devices_kset st))
         (length (devices_kset st)).
Proof.
  intros st Ho u v Hin. split.
  - exact (Ho _ _ Hin).
  - apply index_of_le.
Qed.


Lemma ordered_children_ordered : forall st,
  ordered st -> children_ordered st.
Proof.
  intros st Ho par c Hin. apply Ho. unfold succs. apply in_or_app. now left.
Qed.


Lemma Inv_Inv_graph : forall st, Inv st -> Inv_graph st.
Proof.
  intros st [H1 H2 H3 H4 H5 H6 H7 H8]. constructor; assumption.
Qed.

Lemma Inv_init : Inv init_state.
Proof.
  constructor; unfold ordered; simpl; try tauto; constructor.
Qed.

Lemma find_link_none : forall st c s,
  find_link st c s = None -> ~ In (s, c) (map link_ends (links st)).
Proof.
  intros st c s Hf Hin. apply in_map_iff in Hin.
  destruct Hin as [l [He Hl]]. unfold link_ends in He. injection He as Hs Hc.
  unfold find_link in Hf.
  assert (Hl' : In l (consumers st s)) by (apply In_consumers; auto).
  pose proof (find_none _ _ Hf l Hl') as Hx. simpl in Hx.
  rewrite Hc, Nat.eqb_refl in Hx. discriminate.
Qed.

Lemma Inv_unlisted_no_succs : forall st d,
  Inv st -> ~ In d (devices_kset st) -> succs st d = [].
Proof.
  intros st d HI Hn. destruct (succs st d) as [|v vs] eqn:E; [reflexivity|].
  exfalso. apply Hn. apply (lt_in_In _ d v). apply (inv_order _ HI).
  rewrite E. now left.
Qed.

Lemma Inv_initialize : forall st dev parent,
  Inv st -> ~ In dev (devices_kset st) ->
  Inv (set_parent (device_initialize st dev) dev parent).
Proof.
  intros st dev parent HI Hn. destruct HI as [H1 H2 H3 H4 H5 H6 H7 H8].
  constructor; simpl; try assumption.
  intros c par Hc. unfold upd.
  destruct (Nat.eqb_spec c dev) as [->|Hne]; [tauto|]. apply H5; assumption.
Qed.

Lemma Inv_map_links : forall (f : device_link -> device_link) st st',
  (forall l, l_addr (f l) = l_addr l /\ supplier (f l) = supplier l /\
             consumer (f l) = consumer l /\ flags (f l) = flags l) ->
  links st' = map f (links st) ->
  dev_p st' = dev_p st -> dev_parent st' = dev_parent st ->
  devices_kset st' = devices_kset st -> dpm_list st' = dpm_list st ->
  next_link st' = next_link st ->
  Inv st -> Inv st'.
Proof.
  intros f st st' Hf Hl Hp Hpar Hk Hd Hn [H1 H2 H3 H4 H5 H6 H7 H8].
  assert (Hs : forall d, succs st' d = succs st d).
  { apply (succs_map_links f); auto. intros l. destruct (Hf l). tauto. }
  constructor.
  - congruence.
  - now rewrite Hk.
  - intros u v. rewrite Hs, Hk. apply H3.
  - intros l. rewrite Hl, Hn. rewrite in_map_iff. intros [l0 [<- Hl0]].
    destruct (Hf l0) as [-> _]. now apply H4.
  - intros c par. rewrite Hk, Hpar. apply H5.
  - intros par c. rewrite Hk. unfold children. rewrite Hp. apply H6.
  - rewrite Hl, map_map.
    rewrite (map_ext (fun l => link_ends (f l)) link_ends); [exact H7|].
    intros l. unfold link_ends. destruct (Hf l) as (_ & -> & -> & _).
    reflexivity.
  - intros d. rewrite Hk, Hp. apply H8.
Qed.

(** The first part of device_add keeps the invariant: the device goes
    to the end of the lists, behind its parent, or the lists are left
    as they were. *)
Lemma Inv_add_head : forall st dev env,
  Inv st -> ~ In dev (devices_kset st) ->
  match dev_parent st dev with
  | Some par => In par (devices_kset st)
  | None => True
  end ->
  Inv (progress_state (device_add_head st dev env)).
Proof.
  intros st dev env HI Hn Hpar.
  pose proof (Inv_unlisted_no_succs _ _ HI Hn) as Hnil.
  destruct HI as [H1 H2 H3 H4 H5 H6 H7 H8].
  destruct (device_add_head st dev env) as [[st' err]|st4 parent] eqn:Eh;
    simpl.
  - assert (Hnd : ~ In dev (dpm_list st)) by now rewrite H1.
    destruct (device_add_head_returned _ _ _ _ _ Hn Hnd Eh)
      as (_ & Hk & Hd & Hl & Hnx & Hp & _ & _ & Hpo & Hpd).
    assert (Hc : forall d v, In v (children st' d) -> In v (children st d)).
    { intros d v. unfold children.
      destruct (Nat.eq_dec d dev) as [->|Hne].
      - destruct Hpd as [-> | ->]; [intros [] | tauto].
      - now rewrite (Hpo _ Hne). }
    assert (Hs : forall u v, In v (succs st' u) -> In v (succs st u)).
    { intros u v. unfold succs, consumers. rewrite Hl, !in_app_iff.
      intros [Hv|Hv]; [left; now apply Hc | now right]. }
    constructor.
    + congruence.
    + now rewrite Hk.
    + intros u v Hv. rewrite Hk. apply H3. now apply Hs.
    + intros l. rewrite Hl, Hnx. apply H4.
    + intros c par. rewrite Hk, Hp. apply H5.
    + intros par c Hin. rewrite Hk. apply (H6 par). now apply Hc.
    + now rewrite Hl.
    + intros d. rewrite Hk. intros Hin.
      assert (Hne : d <> dev) by (intros ->; exact (Hn Hin)).
      rewrite (Hpo _ Hne). now apply H8.
  - destruct (device_add_head_probing _ _ _ _ _ Eh)
      as (_ & Hk & Hd & Hl & Hnx & Hp & _ & Hc & Hpk & Hpd & _).
    assert (Hs : forall u, succs st4 u = succs st u).
    { intros u. unfold succs, consumers. now rewrite Hl, Hc. }
    constructor.
    + congruence.
    + rewrite Hk. now apply NoDup_add_tail.
    + intros u v Hv. rewrite Hk. rewrite Hs in Hv.
      pose proof (H3 _ _ Hv) as Hlt.
      destruct (Nat.eq_dec v dev) as [->|Hne].
      * apply lt_in_tail; [exact (lt_in_In _ _ _ Hlt) | exact Hn].
      * now apply lt_in_add_tail.
    + intros l. rewrite Hl, Hnx. apply H4.
    + intros c par. rewrite Hk, Hp. unfold list_add_tail at 1.
      rewrite in_app_iff. simpl. intros [Hin|[<-|[]]] Hcp.
      * apply lt_in_add_tail; [intros ->; exact (Hn Hin)|]. now apply H5.
      * rewrite Hcp in Hpar. now apply lt_in_tail.
    + intros par c. rewrite Hk, Hc. intros Hin. unfold list_add_tail.
      apply in_or_app. left. now apply (H6 par).
    + now rewrite Hl.
    + intros d. rewrite Hk. unfold list_add_tail. rewrite in_app_iff. simpl.
      intros [Hin|[<-|[]]]; [apply Hpk; now apply H8 | exact Hpd].
Qed.

(** The second part of device_add keeps the invariant: the device is
    behind its parent when it is put on the klist. *)
Lemma Inv_add_tail : forall st dev st' err,
  Inv st ->
  (forall par, dev_parent st dev = Some par -> in_window st dev par) ->
  device_add_tail st dev (dev_parent st dev) = Some (st', err) ->
  Inv st'.
Proof.
  intros st dev st' err [H1 H2 H3 H4 H5 H6 H7 H8] Hw H.
  destruct (device_add_tail_spec _ _ _ _ _ H)
    as (_ & Hk & Hd & Hl & Hnx & Hp & _ & Hc & Hpk & _).
  assert (Hs : forall u v, In v (succs st' u) ->
            In v (succs st u) \/ (dev_parent st dev = Some u /\ v = dev)).
  { intros u v. unfold succs, consumers. rewrite Hl, Hc.
    rewrite !in_app_iff.
    destruct (dev_parent st dev) as [par|]; [|tauto].
    destruct (Nat.eqb_spec u par) as [->|Hne]; [|tauto].
    unfold list_add_tail. rewrite in_app_iff. simpl. intuition. }
  constructor.
  - congruence.
  - now rewrite Hk.
  - intros u v Hv. rewrite Hk. destruct (Hs _ _ Hv) as [Ho|[Hp' ->]].
    + now apply H3.
    + destruct (Hw _ Hp') as (Hin & _ & _). now apply H5.
  - intros l. rewrite Hl, Hnx. apply H4.
  - intros c par. rewrite Hk, Hp. apply H5.
  - intros par c. rewrite Hk, Hc.
    destruct (match dev_parent st dev with
              | Some par0 => par =? par0 | None => false end) eqn:E;
      [|apply (H6 par)].
    unfold list_add_tail. rewrite in_app_iff. simpl.
    intros [Hin|[<-|[]]]; [now apply (H6 par)|].
    destruct (dev_parent st dev) as [par0|] eqn:Ep; [|discriminate].
    destruct (Hw _ eq_refl) as (Hin & _ & _). exact Hin.
  - now rewrite Hl.
  - intros d. rewrite Hk. intros Hin. apply Hpk. now apply H8.
Qed.

Lemma succs_link_added : forall st st3 link u v,
  dev_p st3 = dev_p st -> links st3 = links st ->
  (In v (succs (link_added st3 link) u) <->
   In v (succs st u) \/ (supplier link = u /\ consumer link = v)).
Proof.
  intros st st3 link u v Hp Hl. unfold succs, children, consumers. simpl.
  rewrite Hp, Hl, filter_app, map_app, !in_app_iff. simpl.
  destruct (Nat.eqb_spec (supplier link) u) as [E|E]; simpl; intuition.
Qed.

(** The step of device_link_add that creates a link: the reordering
    puts the consumer and all that depends on it behind the supplier,
    and the graph stays in order. The reordering changes the lists only,
    and is described by [moved]. *)
Lemma link_created : forall fuel st c s fl st3,
  Inv_graph st ->
  device_pm_initialized st s = true ->
  device_is_dependent fuel st c s = Some false ->
  find_link st c s = None ->
  device_reorder_to_tail fuel
    (get_device (get_device st (Some s)) (Some c)) c = Some st3 ->
  Inv_graph (link_added st3 (new_link st c s fl)) /\
  dev_parent st3 = dev_parent st /\ dev_p st3 = dev_p st /\
  moved (succs st) (reach (succs st) c) (devices_kset st) (devices_kset st3).
Proof.
  intros fuel st c s fl st3 HI Hpm Hdep Hfind Hr.
  set (st2 := get_device (get_device st (Some s)) (Some c)) in *.
  destruct HI as [H1 H2 H3 H4 H6 H7 H8].
  pose proof (ordered_ranked _ H3) as Hrk.
  destruct (reorder_visit fuel st2 st2 c st3 (same_graph_refl _) Hr)
    as ((Gpar & Gp & _ & _ & Gl & Gn) & Vk & Vd).
  change (succs st2) with (succs st) in Vk, Vd.
  change (devices_kset st2) with (devices_kset st) in Vk.
  change (dpm_list st2) with (dpm_list st) in Vd.
  change (dev_p st2) with (dev_p st) in Gp.
  change (links st2) with (links st) in Gl.
  change (next_link st2) with (next_link st) in Gn.
  change (dev_parent st2) with (dev_parent st) in Gpar.
  assert (Hacyc : forall u v, In v (succs st u) -> ~ reach (succs st) v u).
  { intros u v. eapply ranked_acyclic. exact Hrk. }
  pose proof (visit_moved (succs st) Hacyc fuel _ _ _ Vk) as Hmoved.
  pose proof Hmoved as (M1 & Mn & M2 & M3 & M4).
  pose proof (dep_complete _ _ _ _ Hdep) as Hns.
  assert (Hs : In s (devices_kset st)).
  { rewrite <- H1. now apply mem_In. }
  split; [|split; [exact Gpar|split; [exact Gp|exact Hmoved]]].
  constructor; simpl.
  - rewrite H1 in Vd. congruence.
  - auto.
  - intros u v Hv. apply (succs_link_added st st3 _ u v Gp Gl) in Hv.
    destruct Hv as [Ho|[Hsu Hco]]; simpl in *.
    + pose proof (H3 _ _ Ho) as Hlt.
      destruct (classic (reach (succs st) c u)) as [Hu|Hu].
      * apply M4; [exact Hu | exact Ho | exact (lt_in_In _ _ _ Hlt)].
      * destruct (classic (reach (succs st) c v)) as [Hv'|Hv'].
        -- apply M3; [exact (lt_in_In _ _ _ Hlt) | exact Hu | exact Hv'].
        -- apply M2; assumption.
    + subst u v. apply M3; [exact Hs | exact Hns | apply reach_refl].
  - intros l. rewrite Gl, Gn, in_app_iff. simpl.
    intros [Hl|[<-|[]]]; [apply H4 in Hl; lia | simpl; lia].
  - intros par c0. unfold children. simpl. rewrite Gp. intros Hin.
    apply M1. now apply (H6 par).
  - rewrite Gl, map_app. simpl. apply NoDup_app; [exact H7 | | ].
    + constructor; [intros [] | constructor].
    + intros x Hx [<-|[]]. exact (find_link_none _ _ _ Hfind Hx).
  - intros d Hd. rewrite Gp. apply H8. now apply M1.
Qed.

(** It keeps the whole invariant when the consumer keeps clear of the
    registration windows: a device that is not yet on the klist of its
    parent stays behind that parent, because the parent is not moved. *)
Lemma Inv_link_created : forall fuel st c s fl st3,
  Inv st ->
  clear_of_window st (Some c) ->
  device_pm_initialized st s = true ->
  device_is_dependent fuel st c s = Some false ->
  find_link st c s = None ->
  device_reorder_to_tail fuel
    (get_device (get_device st (Some s)) (Some c)) c = Some st3 ->
  Inv (link_added st3 (new_link st c s fl)).
Proof.
  intros fuel st c s fl st3 HI Hclear Hpm Hdep Hfind Hr.
  destruct (link_created fuel st c s fl st3 (Inv_Inv_graph _ HI)
              Hpm Hdep Hfind Hr)
    as ([G1 G2 G3 G4 G6 G7 G8] & Gpar & Gp & (M1 & Mn & M2 & M3 & M4)).
  constructor; try assumption.
  intros c0 par Hc0 Hpar0. simpl in Hc0, Hpar0 |- *.
  rewrite Gpar in Hpar0. apply M1 in Hc0.
  pose proof (inv_parent _ HI _ _ Hc0 Hpar0) as Hlt.
  destruct (in_dec Nat.eq_dec c0 (children st par)) as [Hch|Hch].
  - apply G3. unfold succs. apply in_or_app. left.
    unfold children. simpl. rewrite Gp. exact Hch.
  - assert (Hnp : ~ reach (succs st) c par).
    { apply (Hclear c c0 par eq_refl). repeat split; assumption. }
    destruct (classic (reach (succs st) c c0)) as [Hr0|Hr0].
    + apply M3; [exact (lt_in_In _ _ _ Hlt) | exact Hnp | exact Hr0].
    + apply M2; assumption.
Qed.


Lemma Inv_device_link_add : forall fuel st con sup fl env st' r,
  Inv st -> clear_of_window st con ->
  device_link_add fuel st con sup fl env = Some (st', r) -> Inv st'.
Proof.
  intros fuel st con sup fl env st' r HI Hclear H.
  destruct con as [c|], sup as [s|];
    try (simpl in H; injection H as <- <-; exact HI).
  destruct (device_link_add_cases _ _ _ _ _ _ _ _ H)
    as [[-> _]|[[-> _]|(_ & Hpm & Hdep & Hfind & st3 & Hr & -> & _)]];
    try exact HI.
  eapply Inv_link_created; eauto.
Qed.

Lemma check_suppliers_frame : forall st dev,
  dev_p (fst (device_links_check_suppliers st dev)) = dev_p st /\
  dev_parent (fst (device_links_check_suppliers st dev)) = dev_parent st /\
  devices_kset (fst (device_links_check_suppliers st dev)) = devices_kset st /\
  dpm_list (fst (device_links_check_suppliers st dev)) = dpm_list st /\
  next_link (fst (device_links_check_suppliers st dev)) = next_link st /\
  dev_kref (fst (device_links_check_suppliers st dev)) = dev_kref st.
Proof.
  intros st dev. unfold device_links_check_suppliers.
  destruct (check_suppliers_loop st dev [] (links st)) as [st1 ret] eqn:E.
  simpl. destruct (forallb (supplier_ready dev) (links st)) eqn:Ef.
  - rewrite (check_suppliers_loop_ok st dev (links st) [] Ef) in E.
    injection E as <- _. repeat split.
  - destruct (check_suppliers_loop_defer st dev (links st) [] Ef)
      as [done' [_ He]].
    rewrite He in E. injection E as <- _. repeat split.
Qed.

Lemma Inv_check_suppliers : forall st dev,
  Inv st -> Inv (fst (device_links_check_suppliers st dev)).
Proof.
  intros st dev HI.
  destruct (check_suppliers_links st dev) as [Hl _].
  destruct (check_suppliers_frame st dev) as (F1 & F2 & F3 & F4 & F5 & _).
  destruct (forallb (supplier_ready dev) (links st)).
  - apply (Inv_map_links (probe_link dev) st); auto.
    apply endpoints_probe_link.
  - apply (Inv_map_links (reset_link dev) st); auto.
    apply endpoints_reset_link.
Qed.

Lemma Inv_driver_bound : forall st dev,
  Inv st -> Inv (device_links_driver_bound st dev).
Proof.
  intros st dev HI. apply (Inv_map_links (bound_link dev) st); auto.
  - apply endpoints_bound_link.
  - apply driver_bound_links.
Qed.

Lemma Inv_step : forall st st',
  Inv st -> step clear_of_window st st' -> Inv st'.
Proof.
  intros st st' HI Hs. destruct Hs.
  - now apply Inv_initialize.
  - now apply Inv_add_head.
  - eapply Inv_add_tail; eauto.
  - eapply Inv_device_link_add; eauto.
  - now apply Inv_check_suppliers.
  - now apply Inv_driver_bound.
Qed.

Lemma reachable_Inv : forall st, reachable st -> Inv st.
Proof.
  intros st H. induction H; [apply Inv_init | eapply Inv_step; eauto].
Qed.

(** When no registration is under way, every consumer keeps clear of
    the windows. *)
Lemma no_window_clear : forall st con,
  no_window st = true -> clear_of_window st con.
Proof.
  intros st con H c d par _ (Hin & Hp & Hn) _. apply Hn.
  unfold no_window in H. rewrite forallb_forall in H.
  specialize (H d Hin). rewrite Hp in H. now apply mem_In.
Qed.



(** A whole device_add during which nothing calls back is the two
    steps one after the other. *)
Lemma reachable_device_add : forall st dev env st' err,
  reachable st -> ~ In dev (devices_kset st) ->
  match dev_parent st dev with
  | Some par => In par (devices_kset st)
  | None => True
  end ->
  device_add st dev env no_probe = Some (st', err) ->
  reachable st'.
Proof.
  intros st dev env st' err Hr Hn Hpar H.
  pose proof (reachable_Inv _ Hr) as HI.
  assert (Hhead : reachable (progress_state (device_add_head st dev env))).
  { eapply reachable_step; [exact Hr|]. now apply step_device_add_head. }
  unfold device_add in H.
  destruct (device_add_head st dev env) as [[s e]|st4 parent] eqn:Eh.
  - injection H as <- _. exact Hhead.
  - simpl in *.
    destruct (device_add_head_probing _ _ _ _ _ Eh)
      as (-> & Hk & _ & _ & _ & Hp & _ & Hc & _).
    eapply reachable_step; [exact Hhead|].
    apply (step_device_add_tail _ st4 dev st' err).
    + intros par Hp4. rewrite Hp in Hp4. repeat split.
      * rewrite Hk. unfold list_add_tail. apply in_or_app. right. now left.
      * now rewrite Hp.
      * rewrite Hc. intros Hin. apply Hn.
        now apply (inv_children _ HI par).
    + now rewrite Hp.
Qed.

(** * The sample run is reachable *)

Example three_devices_lists :
  devices_kset three_devices = [0; 1; 2] /\ dpm_list three_devices = [0; 1; 2]
  /\ children three_devices 0 = [1].
Proof. repeat split. Qed.

Example sample_state_lists :
  devices_kset sample_state = [2; 0; 1] /\ dpm_list sample_state = [2; 0; 1]
  /\ map (fun l => (supplier l, consumer l, status l)) (links sample_state)
     = [(2, 0, DL_STATE_DORMANT)].
Proof. repeat split. Qed.

Lemma run_add_reachable : forall st dev par,
  reachable st ->
  mem dev (devices_kset st) = false ->
  match par with Some p => mem p (devices_kset st) | None => true end = true ->
  forallb (fun l => negb (supplier l =? dev) && negb (consumer l =? dev))
          (links st) = true ->
  snd (match device_add (run_initialize st dev par) dev ok_env no_probe with
       | Some r => r
       | None => (st, 1%Z)
       end) = 0%Z ->
  reachable (run_add (run_initialize st dev par) dev).
Proof.
  intros st dev par Hr Hm Hp Hl He.
  apply mem_false in Hm.
  assert (Hs1 : step clear_of_window st (run_initialize st dev par)).
  { apply step_initialize; [exact Hm|].
    intros l Hin. rewrite forallb_forall in Hl. specialize (Hl l Hin).
    apply andb_prop in Hl. destruct Hl as [H1 H2].
    apply negb_true_iff in H1, H2. apply Nat.eqb_neq in H1, H2. auto. }
  unfold run_add.
  destruct (device_add (run_initialize st dev par) dev ok_env no_probe)
    as [[st' err]|] eqn:E; simpl in *; [|discriminate].
  subst err.
  eapply reachable_device_add;
    [eapply reachable_step; [exact Hr | exact Hs1] | exact Hm | | exact E].
  simpl. rewrite upd_same. destruct par as [p|]; [|exact I].
  now apply mem_In.
Qed.

Lemma three_devices_reachable : reachable three_devices.
Proof.
  repeat (apply run_add_reachable; [| reflexivity ..]).
  apply reachable_init.
Qed.

Lemma sample_state_reachable : reachable sample_state.
Proof.
  eapply reachable_step; [apply three_devices_reachable|].
  apply (step_device_link_add _ 4 _ (Some 0) (Some 2) 0%Z alloc_ok _ (Some 1)).
  - now apply no_window_clear.
  - vm_compute. reflexivity.
Qed.

(** * The properties of the specification *)

(** ** Links made while a device is being registered *)






(** With fuel beyond the number of registered devices,
    device_is_dependent returns, and its answer is reachability. *)
Lemma dep_decides : forall st fuel a t,
  ordered st -> length (devices_kset st) < fuel ->
  (reach (succs st) a t -> device_is_dependent fuel st a t = Some true) /\
  (~ reach (succs st) a t -> device_is_dependent fuel st a t = Some false).
Proof.
  intros st fuel a t HI Hf.
  assert (Hlt : length (devices_kset st) < fuel + index_of a (devices_kset st))
    by lia.
  pose proof (dep_total st _ _ (ordered_ranked _ HI) fuel a t
                (index_of_le _ _) Hlt) as Ht.
  destruct (device_is_dependent fuel st a t) as [[|]|] eqn:E;
    [| |congruence].
  - split; [reflexivity|]. intros Hn. exfalso. apply Hn. eapply dep_sound; eauto.
  - split; [|reflexivity]. intros Hr. exfalso.
    exact (dep_complete _ _ _ _ E Hr).
Qed.

(** With fuel beyond the number of registered devices, device_link_add
    returns in every reachable state: neither recursion runs out. *)
Lemma device_link_add_returns : forall st fuel con sup fl env,
  ordered st -> length (devices_kset st) < fuel ->
  device_link_add fuel st con sup fl env <> None.
Proof.
  intros st fuel con sup fl env HI Hf.
  destruct con as [c|], sup as [s|]; simpl; try discriminate.
  destruct (flag_set fl DL_FLAG_STATELESS && flag_set fl DL_FLAG_AUTOREMOVE);
    [discriminate|].
  destruct (negb (device_pm_initialized st s)); [discriminate|].
  pose proof (ordered_ranked _ HI) as Hrk.
  assert (Hc : index_of c (devices_kset st) <= length (devices_kset st))
    by apply index_of_le.
  assert (Hlt : length (devices_kset st) < fuel + index_of c (devices_kset st))
    by lia.
  pose proof (dep_total st _ _ Hrk fuel c s Hc Hlt) as Hd.
  destruct (device_is_dependent fuel st c s) as [[|]|]; try discriminate;
    [|congruence].
  destruct (find_link st c s); [discriminate|].
  destruct (negb (kzalloc_ok env)); [discriminate|].
  destruct (flag_set fl DL_FLAG_PM_RUNTIME && flag_set fl DL_FLAG_RPM_ACTIVE
            && (pm_runtime_get_sync_r env <? 0)%Z); [discriminate|].
  destruct (device_reorder_to_tail fuel _ c) eqn:Er; [discriminate|].
  exfalso. revert Er.
  apply (reorder_total (get_device (get_device st (Some s)) (Some c))
           _ _ Hrk fuel _ c (same_graph_refl _) Hc Hlt).
Qed.

(** Whenever device_is_dependent answers 1, device_link_add returns
    NULL and changes nothing. *)
Lemma dependent_means_null : forall fuel st c s fl env,
  device_is_dependent fuel st c s = Some true ->
  device_link_add fuel st (Some c) (Some s) fl env = Some (st, None).
Proof.
  intros fuel st c s fl env Hd. unfold device_link_add. rewrite Hd.
  destruct (flag_set fl DL_FLAG_STATELESS && flag_set fl DL_FLAG_AUTOREMOVE);
    [reflexivity|].
  destruct (negb (device_pm_initialized st s)); reflexivity.
Qed.

(** In a reachable state device_add returns, with an error or with 0,
    for every device whose parent, if any, is registered, when the
    calls made from bus_probe_device return and leave the private parts
    of the devices in place. *)
Lemma device_add_returns_reachable :
  forall st dev env (probe : state -> option state),
  reachable st ->
  match dev_parent st dev with
  | Some par => In par (devices_kset st)
  | None => True
  end ->
  (forall s, exists s',
     probe s = Some s' /\
     forall d, dev_p s d <> None -> dev_p s' d <> None) ->
  device_add st dev env probe <> None.
Proof.
  intros st dev env probe Hr Hpar Hprobe.
  apply device_add_returns; [|exact Hprobe].
  intros par Hp. rewrite Hp in Hpar.
  exact (inv_p _ (reachable_Inv _ Hr) par Hpar).
Qed.

Lemma dependent_link_rejected : forall st fuel c s fl env,
  ordered st -> length (devices_kset st) < fuel ->
  reach (succs st) c s ->
  device_is_dependent fuel st c s = Some true /\
  device_link_add fuel st (Some c) (Some s) fl env = Some (st, None).
Proof.
  intros st fuel c s fl env HI Hf Hreach.
  destruct (dep_decides st fuel c s HI Hf) as [Hd _].
  specialize (Hd Hreach). split; [exact Hd|].
  now apply dependent_means_null.
Qed.





(** In the sample run device 1 depends on device 2 (through its parent
    0, a consumer of 2), so 2 cannot be made a consumer of 1. *)
Example sample_cycle_rejected :
  reach (succs sample_state) 2 1 /\
  device_link_add 4 sample_state (Some 2) (Some 1) 0 alloc_ok
  = Some (sample_state, None).
Proof.
  assert (H : reach (succs sample_state) 2 1).
  { apply reach_step with 0; [vm_compute; auto|].
    apply reach_step with 1; [vm_compute; auto|]. apply reach_refl. }
  split; [exact H|].
  apply dependent_link_rejected;
    [exact (inv_order _ (reachable_Inv _ sample_state_reachable))
    | vm_compute; lia | exact H].
Qed.

(** C9 (self link). For every device and every flags value,
    device_is_dependent(dev, dev) answers 1 at once (the first test of
    the function), and device_link_add(dev, dev, flags) returns NULL
    and changes nothing. *)
Theorem self_link_rejected : forall fuel st dev fl env,
  device_is_dependent (S fuel) st dev dev = Some true /\
  device_link_add (S fuel) st (Some dev) (Some dev) fl env = Some (st, None).
Proof.
  intros fuel st dev fl env.
  assert (H : device_is_dependent (S fuel) st dev dev = Some true)
    by (simpl; now rewrite Nat.eqb_refl).
  split; [exact H|]. unfold device_link_add. rewrite H.
  destruct (flag_set fl DL_FLAG_STATELESS && flag_set fl DL_FLAG_AUTOREMOVE);
    [reflexivity|].
  destruct (negb (device_pm_initialized st dev)); reflexivity.
Qed.

(** C3 (initial link state). When device_link_add creates a link (no
    link from this consumer was on the supplier's list) it is appended to
    the links with the given ends and flags, and its state is NONE for a
    STATELESS link and otherwise follows the status of supplier and
    consumer before the call: supplier DRIVER_BOUND gives CONSUMER_PROBE
    for a PROBING consumer, ACTIVE for a DRIVER_BOUND consumer and
    AVAILABLE for any other; supplier UNBINDING gives SUPPLIER_UNBIND;
    any other supplier status gives DORMANT. *)
Theorem initial_state_of_new_link : forall fuel st c s fl env st' a,
  find_link st c s = None ->
  device_link_add fuel st (Some c) (Some s) fl env = Some (st', Some a) ->
  exists link,
    links st' = links st ++ [link] /\
    l_addr link = a /\ supplier link = s /\ consumer link = c /\
    flags link = fl /\
    status link =
      (if flag_set fl DL_FLAG_STATELESS then DL_STATE_NONE
       else match dev_links_status st s, dev_links_status st c with
            | DL_DEV_DRIVER_BOUND, DL_DEV_PROBING => DL_STATE_CONSUMER_PROBE
            | DL_DEV_DRIVER_BOUND, DL_DEV_DRIVER_BOUND => DL_STATE_ACTIVE
            | DL_DEV_DRIVER_BOUND, _ => DL_STATE_AVAILABLE
            | DL_DEV_UNBINDING, _ => DL_STATE_SUPPLIER_UNBIND
            | _, _ => DL_STATE_DORMANT
            end).
Proof.
  intros fuel st c s fl env st' a Hfind H.
  destruct (device_link_add_cases _ _ _ _ _ _ _ _ H)
    as [[_ Hr]|[(_ & _ & _ & link & Hl & _)|
                (_ & _ & _ & _ & st3 & Hre & -> & Hr)]];
    [discriminate | congruence |].
  destruct (reorder_visit _ _ _ _ _ (same_graph_refl _) Hre)
    as ((_ & _ & _ & _ & Gl & _) & _).
  exists (new_link st c s fl). simpl. rewrite Gl. simpl.
  injection Hr as <-. repeat split.
Qed.

Lemma initial_state_of_new_link_witness :
  find_link three_devices 0 2 = None /\
  device_link_add 4 three_devices (Some 0) (Some 2) 0 alloc_ok
  = Some (sample_state, Some 1) /\
  exists link,
    links sample_state = links three_devices ++ [link] /\
    l_addr link = 1 /\ supplier link = 2 /\ consumer link = 0 /\
    flags link = 0%Z /\
    status link =
      (if flag_set 0 DL_FLAG_STATELESS then DL_STATE_NONE
       else match dev_links_status three_devices 2,
                  dev_links_status three_devices 0 with
            | DL_DEV_DRIVER_BOUND, DL_DEV_PROBING => DL_STATE_CONSUMER_PROBE
            | DL_DEV_DRIVER_BOUND, DL_DEV_DRIVER_BOUND => DL_STATE_ACTIVE
            | DL_DEV_DRIVER_BOUND, _ => DL_STATE_AVAILABLE
            | DL_DEV_UNBINDING, _ => DL_STATE_SUPPLIER_UNBIND
            | _, _ => DL_STATE_DORMANT
            end).
Proof.
  assert (H1 : find_link three_devices 0 2 = None) by reflexivity.
  assert (H2 : device_link_add 4 three_devices (Some 0) (Some 2) 0 alloc_ok
               = Some (sample_state, Some 1)) by (vm_compute; reflexivity).
  split; [exact H1|]. split; [exact H2|].
  exact (initial_state_of_new_link 4 three_devices 0 2 0%Z alloc_ok
           sample_state 1 H1 H2).
Defined.






Lemma Forall2_map_r : forall (A : Type) (R : A -> A -> Prop) (f : A -> A) l,
  (forall x, R x (f x)) -> Forall2 R l (map f l).
Proof.
  intros A R f l H. induction l as [|x l IH]; simpl; constructor; auto.
Qed.

Lemma bound_link_status : forall dev l,
  status (bound_link dev l) =
  if stateless l then status l
  else if consumer l =? dev then DL_STATE_ACTIVE
  else if supplier l =? dev then DL_STATE_AVAILABLE
  else status l.
Proof.
  intros dev l. unfold bound_link, stateless.
  destruct (supplier l =? dev) eqn:E1;
    destruct (flag_set (flags l) DL_FLAG_STATELESS) eqn:E2; simpl;
    rewrite ?E2; destruct (consumer l =? dev) eqn:E3; simpl; reflexivity.
Qed.

(** C5 (driver_bound). device_links_driver_bound sets the status of the
    device to DRIVER_BOUND and rewrites the links in place, keeping their
    ends, flags and order: a link that is not STATELESS and on the
    consumers list of the device goes from DORMANT to AVAILABLE, one on
    its suppliers list goes from CONSUMER_PROBE to ACTIVE, and STATELESS
    links and the links of other devices keep their state. *)
Theorem driver_bound_transitions : forall st dev,
  dev_links_status (device_links_driver_bound st dev) dev
  = DL_DEV_DRIVER_BOUND /\
  Forall2
    (fun l l' =>
       l_addr l' = l_addr l /\ supplier l' = supplier l /\
       consumer l' = consumer l /\ flags l' = flags l /\
       (stateless l = false -> supplier l = dev -> consumer l <> dev ->
        status l = DL_STATE_DORMANT -> status l' = DL_STATE_AVAILABLE) /\
       (stateless l = false -> consumer l = dev ->
        status l = DL_STATE_CONSUMER_PROBE -> status l' = DL_STATE_ACTIVE) /\
       (stateless l = true \/ (supplier l <> dev /\ consumer l <> dev) ->
        status l' = status l))
    (links st) (links (device_links_driver_bound st dev)).
Proof.
  intros st dev. split.
  - unfold device_links_driver_bound. simpl. apply upd_same.
  - rewrite driver_bound_links. apply Forall2_map_r. intros l.
    destruct (endpoints_bound_link dev l) as (E1 & E2 & E3 & E4).
    repeat split; auto; rewrite bound_link_status.
    + intros Hs Hsup Hc _. rewrite Hs, Hsup, Nat.eqb_refl.
      destruct (Nat.eqb_spec (consumer l) dev); [contradiction|reflexivity].
    + intros Hs Hc _. now rewrite Hs, Hc, Nat.eqb_refl.
    + intros [Hs|[Hsup Hc]]; [now rewrite Hs|].
      destruct (Nat.eqb_spec (supplier l) dev); [contradiction|].
      destruct (Nat.eqb_spec (consumer l) dev); [contradiction|].
      destruct (stateless l); reflexivity.
Qed.

(** The two writes of device_links_driver_bound are unconditional: the
    WARN_ONs on the previous state only report. *)
Remark driver_bound_overwrites : forall dev l,
  stateless l = false ->
  (consumer l = dev -> status (bound_link dev l) = DL_STATE_ACTIVE) /\
  (supplier l = dev -> consumer l <> dev ->
   status (bound_link dev l) = DL_STATE_AVAILABLE).
Proof.
  intros dev l Hs. rewrite bound_link_status, Hs. split.
  - intros ->. now rewrite Nat.eqb_refl.
  - intros Hsup Hc. rewrite Hsup, Nat.eqb_refl.
    destruct (Nat.eqb_spec (consumer l) dev); [contradiction|reflexivity].
Qed.

(** C6 (check_suppliers). device_links_check_suppliers always sets the
    status of the consumer to PROBING. If one of its supplier links that
    is not STATELESS is not AVAILABLE, it returns -EPROBE_DEFER and the
    links are those of before with every supplier link of the consumer
    that was in CONSUMER_PROBE reset to AVAILABLE (the links the loop
    had already moved to CONSUMER_PROBE are back to AVAILABLE), so none
    is left in CONSUMER_PROBE. Otherwise it returns 0 and every supplier
    link that is not STATELESS is in CONSUMER_PROBE. *)
Theorem check_suppliers_outcomes : forall st dev,
  dev_links_status (fst (device_links_check_suppliers st dev)) dev
  = DL_DEV_PROBING /\
  ((exists l, In l (suppliers st dev) /\ stateless l = false /\
              status l <> DL_STATE_AVAILABLE) ->
   snd (device_links_check_suppliers st dev) = (- EPROBE_DEFER)%Z /\
   links (fst (device_links_check_suppliers st dev))
   = map (reset_link dev) (links st) /\
   (forall l', In l' (suppliers (fst (device_links_check_suppliers st dev)) dev)
               -> status l' <> DL_STATE_CONSUMER_PROBE)) /\
  ((forall l, In l (suppliers st dev) -> stateless l = false ->
              status l = DL_STATE_AVAILABLE) ->
   snd (device_links_check_suppliers st dev) = 0%Z /\
   links (fst (device_links_check_suppliers st dev))
   = map (probe_link dev) (links st) /\
   (forall l', In l' (suppliers (fst (device_links_check_suppliers st dev)) dev)
               -> stateless l' = false ->
               status l' = DL_STATE_CONSUMER_PROBE)).
Proof.
  intros st dev. destruct (check_suppliers_links st dev) as [Hl Hret].
  split; [|split].
  - unfold device_links_check_suppliers.
    destruct (check_suppliers_loop st dev [] (links st)). simpl.
    apply upd_same.
  - intros [l (Hin & Hs & Hst)].
    assert (E : forallb (supplier_ready dev) (links st) = false).
    { destruct (forallb (supplier_ready dev) (links st)) eqn:E; [|reflexivity].
      exfalso. apply Hst. now apply (proj1 (forallb_supplier_ready st dev) E). }
    rewrite E in Hl, Hret. split; [exact Hret|]. split; [exact Hl|].
    intros l' Hl'. apply In_suppliers in Hl'. destruct Hl' as [Hl' Hc'].
    rewrite Hl in Hl'. apply in_map_iff in Hl'. destruct Hl' as [l0 [<- _]].
    unfold reset_link in *.
    destruct (consumer l0 =? dev) eqn:Ec; simpl in *.
    + destruct (device_link_state_eqb (status l0) DL_STATE_CONSUMER_PROBE)
        eqn:Es; simpl; [discriminate|].
      intros Hx. apply device_link_state_eqb_spec in Hx. congruence.
    + apply Nat.eqb_neq in Ec. contradiction.
  - intros Hall.
    assert (E : forallb (supplier_ready dev) (links st) = true)
      by now apply forallb_supplier_ready.
    rewrite E in Hl, Hret. split; [exact Hret|]. split; [exact Hl|].
    intros l' Hl' Hs'. apply In_suppliers in Hl'. destruct Hl' as [Hl' Hc'].
    rewrite Hl in Hl'. apply in_map_iff in Hl'. destruct Hl' as [l0 [<- _]].
    unfold probe_link in *.
    destruct ((consumer l0 =? dev) && negb (stateless l0)) eqn:Eb;
      simpl in *; [reflexivity|].
    apply Nat.eqb_eq in Hc'.
    unfold stateless in *. simpl in Hs'. rewrite Hc', Hs' in Eb. discriminate.
Qed.

(** C7 (failed registration unwinds). When device_add, called on a
    device that is not yet registered (on neither list, on no klist of
    children), returns an error, the device is still on neither list
    and on no klist, every reference count is what it was before the
    call (the reference taken on the parent has been dropped), and the
    lists, the links and the klists of all other devices are unchanged. *)
Theorem device_add_failure_unwinds : forall st dev env probe st' err,
  ~ In dev (devices_kset st) ->
  ~ In dev (dpm_list st) ->
  (forall par, ~ In dev (children st par)) ->
  device_add st dev env probe = Some (st', err) ->
  err <> 0%Z ->
  ~ In dev (devices_kset st') /\
  ~ In dev (dpm_list st') /\
  (forall par, ~ In dev (children st' par)) /\
  (forall d, dev_kref st' d = dev_kref st d) /\
  devices_kset st' = devices_kset st /\
  dpm_list st' = dpm_list st /\
  links st' = links st /\
  (forall d, d <> dev -> children st' d = children st d).
Proof.
  intros st dev env probe st' err Hk Hd Hc H Herr.
  destruct (device_add_fail _ _ _ _ _ _ Hk Hd H Herr)
    as (_ & Ek & Ed & El & _ & _ & _ & Ekr & Epo & Epd).
  assert (Hch : forall d, d <> dev -> children st' d = children st d).
  { intros d Hne. unfold children. now rewrite (Epo _ Hne). }
  repeat split; try congruence; try assumption.
  intros par Hin. destruct (Nat.eq_dec par dev) as [->|Hne].
  - unfold children in Hin. destruct Epd as [E|E]; rewrite E in Hin.
    + exact Hin.
    + exact (Hc dev Hin).
  - rewrite (Hch _ Hne) in Hin. exact (Hc par Hin).
Qed.

Lemma device_add_failure_unwinds_witness :
  let st := run_initialize three_devices 5 (Some 0) in
  let st' := state_of (device_add st 5 late_failure (probe_links 5 1)) st in
  ~ In 5 (devices_kset st) /\
  ~ In 5 (dpm_list st) /\
  (forall par, ~ In 5 (children st par)) /\
  device_add st 5 late_failure (probe_links 5 1) = Some (st', (-5)%Z) /\
  (-5)%Z <> 0%Z /\
  ~ In 5 (devices_kset st') /\
  ~ In 5 (dpm_list st') /\
  (forall par, ~ In 5 (children st' par)) /\
  (forall d, dev_kref st' d = dev_kref st d) /\
  devices_kset st' = devices_kset st /\
  dpm_list st' = dpm_list st /\
  links st' = links st /\
  (forall d, d <> 5 -> children st' d = children st d).
Proof.
  intros st st'.
  assert (H1 : ~ In 5 (devices_kset st)) by (vm_compute; intuition lia).
  assert (H2 : ~ In 5 (dpm_list st)) by (vm_compute; intuition lia).
  assert (H3 : forall par, ~ In 5 (children st par)).
  { intros par. unfold children, st. simpl. unfold upd.
    destruct par as [|[|[|par]]]; simpl; intuition lia. }
  assert (H4 : device_add st 5 late_failure (probe_links 5 1)
               = Some (st', (-5)%Z))
    by (vm_compute; reflexivity).
  assert (H5 : (-5)%Z <> 0%Z) by lia.
  split; [exact H1|]. split; [exact H2|]. split; [exact H3|].
  split; [exact H4|]. split; [exact H5|].
  exact (device_add_failure_unwinds st 5 late_failure (probe_links 5 1) st'
           (-5)%Z H1 H2 H3 H4 H5).
Defined.

(** ** Teardown *)

Lemma fold_link_del : forall L st,
  (forall l, In l (links (fold_left __device_link_del L st)) <->
             In l (links st) /\ ~ In (l_addr l) (map l_addr L)) /\
  devices_kset (fold_left __device_link_del L st) = devices_kset st /\
  dpm_list (fold_left __device_link_del L st) = dpm_list st /\
  dev_p (fold_left __device_link_del L st) = dev_p st /\
  dev_parent (fold_left __device_link_del L st) = dev_parent st.
Proof.
  induction L as [|x L IH]; intros st; simpl.
  - repeat split; tauto.
  - destruct (IH (__device_link_del st x)) as (Hl & Hk & Hd & Hp & Hpar).
    split; [|repeat split; assumption].
    intros l. rewrite Hl. unfold __device_link_del. simpl.
    rewrite filter_In, negb_true_iff, Nat.eqb_neq. intuition.
Qed.

(** device_links_purge leaves no link with the device at either end, and
    touches neither the lists nor the klists. *)
Lemma device_links_purge_spec : forall st dev,
  (forall l, In l (links (device_links_purge st dev)) ->
             In l (links st) /\ supplier l <> dev /\ consumer l <> dev) /\
  devices_kset (device_links_purge st dev) = devices_kset st /\
  dpm_list (device_links_purge st dev) = dpm_list st /\
  dev_p (device_links_purge st dev) = dev_p st /\
  dev_parent (device_links_purge st dev) = dev_parent st.
Proof.
  intros st dev. unfold device_links_purge.
  set (st1 := fold_left __device_link_del (rev (suppliers st dev)) st).
  destruct (fold_link_del (rev (suppliers st dev)) st)
    as (Hl1 & Hk1 & Hd1 & Hp1 & Hpar1).
  destruct (fold_link_del (rev (consumers st1 dev)) st1)
    as (Hl2 & Hk2 & Hd2 & Hp2 & Hpar2).
  fold st1 in Hl1, Hk1, Hd1, Hp1, Hpar1.
  split; [|repeat split; congruence].
  intros l Hin. apply Hl2 in Hin. destruct Hin as [Hin1 Hn2].
  pose proof Hin1 as Hin0. apply Hl1 in Hin0. destruct Hin0 as [Hin0 Hn1].
  split; [exact Hin0|]. split.
  - intros Hs. apply Hn2. apply in_map. rewrite <- in_rev.
    apply In_consumers. auto.
  - intros Hc. apply Hn1. apply in_map. rewrite <- in_rev.
    apply In_suppliers. auto.
Qed.

(** C4 (order of teardown), as amended. device_del of a registered
    device works in this order. First the device leaves the klist of
    its parent (a device without parent is on none), while it is still
    on both ordering lists and its links are still there. Then
    device_pm_remove takes it off dpm_list, the copy of the order that
    the PM core keeps: this comes before the links are purged. Then
    device_links_purge deletes every link with the device at either
    end, while the device is still on devices_kset->list and the
    reference on the parent is still held. Then kobject_del takes it
    off devices_kset->list. Last, put_device drops the reference on the
    parent; for a device without parent nothing is left to do. *)
Theorem device_del_order : forall st dev,
  (dev_parent st dev <> None -> dev_p st dev <> None) ->
  dev_parent st dev <> Some dev ->
  In dev (devices_kset st) ->
  In dev (dpm_list st) ->
  exists s1 s2 s3 s4 s5,
    device_del_upto 1 st dev = Some s1 /\
    device_del_upto 2 st dev = Some s2 /\
    device_del_upto 3 st dev = Some s3 /\
    device_del_upto 4 st dev = Some s4 /\
    device_del st dev = Some s5 /\
    ((forall par, dev_parent st dev = Some par ->
        ~ In dev (children s1 par) /\ dev_kref s1 par = dev_kref st par) /\
     (dev_parent st dev = None -> s1 = st) /\
     links s1 = links st /\
     In dev (devices_kset s1) /\ In dev (dpm_list s1)) /\
    (~ In dev (dpm_list s2) /\ links s2 = links st /\
     In dev (devices_kset s2)) /\
    ((forall l, In l (links s3) -> supplier l <> dev /\ consumer l <> dev) /\
     (forall par, dev_parent st dev = Some par -> ~ In dev (children s3 par)) /\
     In dev (devices_kset s3) /\ ~ In dev (dpm_list s3)) /\
    (~ In dev (devices_kset s4) /\ links s4 = links s3 /\
     (forall d, dev_kref s4 d = dev_kref s3 d)) /\
    ((forall par, dev_parent st dev = Some par ->
        dev_kref s5 par = pred (dev_kref s4 par)) /\
     (dev_parent st dev = None -> s5 = s4) /\
     devices_kset s5 = devices_kset s4 /\ dpm_list s5 = dpm_list s4 /\
     links s5 = links s4 /\
     (forall d, children s5 d = children s4 d)).
Proof.
  intros st dev Hp Hne Hk Hd.
  unfold device_del, device_del_upto.
  assert (Hs1 : exists s1,
            match dev_parent st dev with
            | Some par => klist_del st dev par
            | None => Some st
            end = Some s1 /\
            (forall par, dev_parent st dev = Some par ->
               ~ In dev (children s1 par) /\
               dev_kref s1 par = dev_kref st par) /\
            (dev_parent st dev = None -> s1 = st) /\
            links s1 = links st /\
            devices_kset s1 = devices_kset st /\
            dpm_list s1 = dpm_list st).
  { destruct (dev_parent st dev) as [par|] eqn:Epar.
    - unfold klist_del.
      destruct (dev_p st dev) as [cs|] eqn:Ep;
        [|exfalso; apply Hp; [discriminate | reflexivity]].
      eexists. split; [reflexivity|]. repeat split; try discriminate.
      + injection H as <-. unfold children. simpl. rewrite upd_same.
        destruct (dev_p st par); simpl; [|tauto].
        rewrite In_list_del. tauto.
      + injection H as <-. simpl. apply upd_other. congruence.
    - exists st. repeat split; intros; discriminate. }
  destruct Hs1 as (s1 & E1 & A1 & A2 & A3 & A4 & A5).
  simpl. rewrite E1. simpl.
  set (s2 := device_pm_remove s1 dev).
  set (s3 := device_links_purge s2 dev).
  destruct (device_links_purge_spec s2 dev) as (Hl3 & Hk3 & Hd3 & Hp3 & Hpar3).
  fold s3 in Hl3, Hk3, Hd3, Hp3, Hpar3.
  exists s1, s2, s3, (kobject_del s3 dev),
    (put_device (kobject_del s3 dev) (dev_parent st dev)).
  assert (Hnd2 : ~ In dev (dpm_list s2)).
  { unfold s2. simpl. rewrite In_list_del. tauto. }
  repeat split; try reflexivity; try assumption.
  - now apply A1.
  - now apply A1.
  - now rewrite A4.
  - now rewrite A5.
  - unfold s2. simpl. now rewrite A4.
  - destruct (Hl3 l H) as (_ & H1 & _). exact H1.
  - destruct (Hl3 l H) as (_ & _ & H1). exact H1.
  - intros par Hpar. unfold children. rewrite Hp3.
    exact (proj1 (A1 par Hpar)).
  - rewrite Hk3. unfold s2. simpl. now rewrite A4.
  - now rewrite Hd3.
  - simpl. rewrite In_list_del. tauto.
  - intros par Hpar. rewrite Hpar. simpl. apply upd_same.
  - intros Hnone. now rewrite Hnone.
  - now destruct (dev_parent st dev).
  - now destruct (dev_parent st dev).
  - now destruct (dev_parent st dev).
  - intros d. now destruct (dev_parent st dev).
Qed.

Lemma device_del_order_witness :
  (dev_parent linked_child 1 <> None -> dev_p linked_child 1 <> None) /\
  dev_parent linked_child 1 <> Some 1 /\
  In 1 (devices_kset linked_child) /\
  In 1 (dpm_list linked_child) /\
  exists s1 s2 s3 s4 s5,
    device_del_upto 1 linked_child 1 = Some s1 /\
    device_del_upto 2 linked_child 1 = Some s2 /\
    device_del_upto 3 linked_child 1 = Some s3 /\
    device_del_upto 4 linked_child 1 = Some s4 /\
    device_del linked_child 1 = Some s5 /\
    ((forall par, dev_parent linked_child 1 = Some par ->
        ~ In 1 (children s1 par) /\
        dev_kref s1 par = dev_kref linked_child par) /\
     (dev_parent linked_child 1 = None -> s1 = linked_child) /\
     links s1 = links linked_child /\
     In 1 (devices_kset s1) /\ In 1 (dpm_list s1)) /\
    (~ In 1 (dpm_list s2) /\ links s2 = links linked_child /\
     In 1 (devices_kset s2)) /\
    ((forall l, In l (links s3) -> supplier l <> 1 /\ consumer l <> 1) /\
     (forall par, dev_parent linked_child 1 = Some par ->
        ~ In 1 (children s3 par)) /\
     In 1 (devices_kset s3) /\ ~ In 1 (dpm_list s3)) /\
    (~ In 1 (devices_kset s4) /\ links s4 = links s3 /\
     (forall d, dev_kref s4 d = dev_kref s3 d)) /\
    ((forall par, dev_parent linked_child 1 = Some par ->
        dev_kref s5 par = pred (dev_kref s4 par)) /\
     (dev_parent linked_child 1 = None -> s5 = s4) /\
     devices_kset s5 = devices_kset s4 /\ dpm_list s5 = dpm_list s4 /\
     links s5 = links s4 /\
     (forall d, children s5 d = children s4 d)).
Proof.
  assert (H1 : dev_parent linked_child 1 <> None -> dev_p linked_child 1 <> None)
    by (intros _; vm_compute; discriminate).
  assert (H2 : dev_parent linked_child 1 <> Some 1)
    by (vm_compute; discriminate).
  assert (H3 : In 1 (devices_kset linked_child))
    by (vm_compute; do 2 right; left; reflexivity).
  assert (H4 : In 1 (dpm_list linked_child))
    by (vm_compute; do 2 right; left; reflexivity).
  split; [exact H1|]. split; [exact H2|]. split; [exact H3|].
  split; [exact H4|].
  exact (device_del_order linked_child 1 H1 H2 H3 H4).
Defined.

(** C4, the order as the specification states it, fails for one of the
    two ordering lists. In the teardown of device 1, which is a consumer
    of device 2, the device is off dpm_list after the second statement
    (device_pm_remove, l.2004) while its link is still there; the links
    are purged by the third (device_links_purge, l.2007). Before the
    call the two lists were the same list. *)
Lemma device_del_leaves_dpm_list_first :
  dpm_list linked_child = devices_kset linked_child /\
  In 1 (dpm_list linked_child) /\
  exists s2 s3,
    device_del_upto 2 linked_child 1 = Some s2 /\
    device_del_upto 3 linked_child 1 = Some s3 /\
    ~ In 1 (dpm_list s2) /\
    In 1 (devices_kset s2) /\
    map link_ends (links s2) = [(2, 0); (2, 1)] /\
    map link_ends (links s3) = [(2, 0)].
Proof.
  split; [reflexivity|]. split; [vm_compute; auto|].
  eexists. eexists. split; [reflexivity|]. split; [reflexivity|].
  split; [vm_compute; intuition lia|]. split; [vm_compute; auto|].
  split; reflexivity.
Qed.

(** The teardown of a device without parent: device 2 of the three
    devices leaves both lists and nothing else changes. *)
Example root_teardown :
  dev_parent three_devices 2 = None /\
  option_map (fun st => (devices_kset st, dpm_list st, children st 0))
             (device_del three_devices 2)
  = Some ([0; 1], [0; 1], [1]).
Proof. split; reflexivity. Qed.

(** In that run the teardown of device 1 deletes its link to device 2
    and leaves the link between 0 and 2. *)
Example linked_child_teardown :
  map link_ends (links linked_child) = [(2, 0); (2, 1)] /\
  option_map (fun st => (map link_ends (links st), devices_kset st,
                         dpm_list st, children st 0))
             (device_del linked_child 1)
  = Some ([(2, 0)], [2; 0], [2; 0], []).
Proof. split; reflexivity. Qed.

(** * The scenarios of the specification *)

(** add_link(C, B, 0) succeeds with a DORMANT link. *)
Example scenario_link_dormant :
  device_link_add 4 three_devices (Some 2) (Some 1) 0 alloc_ok
  = Some (scenario_linked, Some 1) /\
  devices_kset scenario_linked = [0; 1; 2] /\
  map (fun l => (supplier l, consumer l, status l)) (links scenario_linked)
  = [(1, 2, DL_STATE_DORMANT)].
Proof. split; [vm_compute; reflexivity | split; reflexivity]. Qed.

(** add_link(B, C, 0) is then refused. *)
Example scenario_cycle_refused :
  device_link_add 4 scenario_linked (Some 1) (Some 2) 0 alloc_ok
  = Some (scenario_linked, None).
Proof. vm_compute. reflexivity. Qed.

(** driver_bound(B) makes the link AVAILABLE, check_suppliers(C)
    succeeds and makes it CONSUMER_PROBE, driver_bound(C) makes it
    ACTIVE. *)
Example scenario_probe :
  let s1 := device_links_driver_bound scenario_linked 1 in
  let r2 := device_links_check_suppliers s1 2 in
  let s3 := device_links_driver_bound (fst r2) 2 in
  map status (links s1) = [DL_STATE_AVAILABLE] /\
  snd r2 = 0%Z /\
  map status (links (fst r2)) = [DL_STATE_CONSUMER_PROBE] /\
  dev_links_status (fst r2) 2 = DL_DEV_PROBING /\
  map status (links s3) = [DL_STATE_ACTIVE] /\
  dev_links_status s3 2 = DL_DEV_DRIVER_BOUND.
Proof. repeat split. Qed.

(** check_suppliers(C) while the link is still DORMANT defers the probe. *)
Example scenario_defer :
  snd (device_links_check_suppliers scenario_linked 2) = (- EPROBE_DEFER)%Z /\
  map status (links (fst (device_links_check_suppliers scenario_linked 2)))
  = [DL_STATE_DORMANT].
Proof. repeat split. Qed.

(** After the early link the consumer 3 is on no list; device_add then
    appends it, behind its supplier 1. *)
Example early_link_unregistered :
  map (fun l => (supplier l, consumer l)) (links early_link) = [(1, 3)] /\
  devices_kset early_link = [0; 1; 2] /\
  index_of 1 (devices_kset early_link) = 1 /\
  index_of 3 (devices_kset early_link) = 3 /\
  devices_kset (run_add early_link 3) = [0; 1; 2; 3].
Proof. repeat split. Qed.

(** The early link is a state the driver core can reach. *)
Example early_link_reachable : reachable early_link.
Proof.
  eapply reachable_step;
    [eapply reachable_step; [apply three_devices_reachable|]|].
  - apply (step_initialize _ three_devices 3 None).
    + vm_compute. intuition lia.
    + intros l [].
  - apply (step_device_link_add _ 4 _ (Some 3) (Some 1) 0%Z alloc_ok _
             (Some 1)).
    + now apply no_window_clear.
    + vm_compute. reflexivity.
Qed.

(** * Unbinding *)

(** ** device_links_busy *)

Lemma links_busy_loop_false : forall dev todo done,
  existsb (busy_link dev) todo = false ->
  links_busy_loop dev done todo = (done ++ map (unbind_link dev) todo, false).
Proof.
  intros dev todo. induction todo as [|l rest IH]; intros done H; simpl.
  - now rewrite app_nil_r.
  - simpl in H. apply orb_false_iff in H. destruct H as [Hl Hrest].
    unfold busy_link in Hl. unfold unbind_link at 1.
    destruct (supplier l =? dev); simpl in *.
    + destruct (stateless l); simpl in *.
      * rewrite IH by exact Hrest. now rewrite <- app_assoc.
      * rewrite Hl. rewrite IH by exact Hrest. now rewrite <- app_assoc.
    + rewrite IH by exact Hrest. now rewrite <- app_assoc.
Qed.

Lemma links_busy_loop_true : forall dev todo done,
  existsb (busy_link dev) todo = true ->
  exists pre l post,
    todo = pre ++ l :: post /\ busy_link dev l = true /\
    existsb (busy_link dev) pre = false /\
    links_busy_loop dev done todo
    = (done ++ map (unbind_link dev) pre ++ l :: post, true).
Proof.
  intros dev todo. induction todo as [|l rest IH]; intros done H; simpl in H.
  - discriminate.
  - destruct (busy_link dev l) eqn:Hl.
    + exists [], l, rest. repeat split; try reflexivity; try assumption.
      simpl. unfold busy_link in Hl.
      destruct (supplier l =? dev); simpl in *; [|discriminate].
      destruct (stateless l); simpl in *; [discriminate|].
      now rewrite Hl.
    + simpl in H.
      assert (Hstep : links_busy_loop dev done (l :: rest)
                      = links_busy_loop dev (done ++ [unbind_link dev l]) rest).
      { simpl. unfold busy_link in Hl. unfold unbind_link.
        destruct (supplier l =? dev); simpl in *; [|reflexivity].
        destruct (stateless l); simpl in *; [reflexivity|].
        now rewrite Hl. }
      destruct (IH (done ++ [unbind_link dev l]) H)
        as (pre & x & post & E & Hx & Hpre & Hloop).
      exists (l :: pre), x, post. repeat split.
      * simpl. now rewrite E.
      * exact Hx.
      * simpl. now rewrite Hl.
      * rewrite Hstep, Hloop. simpl. now rewrite <- app_assoc.
Qed.

Lemma busy_link_iff : forall dev l,
  busy_link dev l = true <->
  supplier l = dev /\ stateless l = false /\
  (status l = DL_STATE_CONSUMER_PROBE \/ status l = DL_STATE_ACTIVE).
Proof.
  intros dev l. unfold busy_link.
  rewrite !andb_true_iff, orb_true_iff, negb_true_iff, Nat.eqb_eq,
    !device_link_state_eqb_spec. tauto.
Qed.

Lemma unbind_link_ends : forall dev l,
  l_addr (unbind_link dev l) = l_addr l /\
  supplier (unbind_link dev l) = supplier l /\
  consumer (unbind_link dev l) = consumer l /\
  flags (unbind_link dev l) = flags l.
Proof.
  intros dev l. unfold unbind_link.
  destruct ((supplier l =? dev) && negb (stateless l)); simpl; auto.
Qed.

(** X1 (device_links_busy). device_links_busy always sets the status of
    the device to UNBINDING. It returns true exactly when one of the
    links to its consumers is not STATELESS and in CONSUMER_PROBE or
    ACTIVE. When it returns false, every link to a consumer that is not
    STATELESS has been put into SUPPLIER_UNBIND and nothing else has
    changed. When it returns true, this has happened to the links in
    front of the first busy one only: that link and all behind it are
    as they were. *)
Theorem device_links_busy_outcome : forall st dev,
  dev_links_status (fst (device_links_busy st dev)) dev = DL_DEV_UNBINDING /\
  (snd (device_links_busy st dev) = true <->
   exists l, In l (consumers st dev) /\ stateless l = false /\
             (status l = DL_STATE_CONSUMER_PROBE \/
              status l = DL_STATE_ACTIVE)) /\
  (snd (device_links_busy st dev) = false ->
   links (fst (device_links_busy st dev))
   = map (unbind_link dev) (links st)) /\
  (snd (device_links_busy st dev) = true ->
   exists pre l post,
     links st = pre ++ l :: post /\
     busy_link dev l = true /\
     (forall x, In x pre -> busy_link dev x = false) /\
     links (fst (device_links_busy st dev))
     = map (unbind_link dev) pre ++ l :: post).
Proof.
  intros st dev. unfold device_links_busy.
  destruct (existsb (busy_link dev) (links st)) eqn:E.
  - destruct (links_busy_loop_true dev (links st) [] E)
      as (pre & l & post & El & Hl & Hpre & Hloop).
    rewrite Hloop. simpl. split; [apply upd_same|]. split; [|split].
    + split; [intros _|reflexivity].
      exists l. apply busy_link_iff in Hl. destruct Hl as (Hs & Hn & Hst).
      repeat split; try assumption.
      apply In_consumers. split; [|exact Hs].
      rewrite El. apply in_or_app. right. now left.
    + discriminate.
    + intros _. exists pre, l, post. repeat split; try assumption.
      intros x Hx.
      destruct (busy_link dev x) eqn:Ex; [|reflexivity].
      exfalso. assert (Hf : existsb (busy_link dev) pre = true).
      { apply existsb_exists. exists x. auto. }
      congruence.
  - rewrite (links_busy_loop_false dev (links st) [] E). simpl.
    split; [apply upd_same|]. split; [|split].
    + split; [discriminate|].
      intros (l & Hin & Hn & Hst). apply In_consumers in Hin.
      destruct Hin as [Hin Hs].
      assert (Hf : existsb (busy_link dev) (links st) = true).
      { apply existsb_exists. exists l. split; [exact Hin|].
        apply busy_link_iff. auto. }
      congruence.
    + reflexivity.
    + discriminate.
Qed.

(** Once device_links_busy has returned false, the links to the
    consumers that are not STATELESS are in SUPPLIER_UNBIND. *)
Lemma busy_false_links : forall st dev,
  snd (device_links_busy st dev) = false ->
  links (fst (device_links_busy st dev)) = map (unbind_link dev) (links st).
Proof.
  intros st dev H. unfold device_links_busy in *.
  destruct (existsb (busy_link dev) (links st)) eqn:E.
  - destruct (links_busy_loop_true dev (links st) [] E)
      as (pre & l & post & El & Hl & Hpre & Hloop).
    rewrite Hloop in H. discriminate.
  - now rewrite (links_busy_loop_false dev (links st) [] E).
Qed.

(** X2 (no probe while the supplier unbinds). After device_links_busy
    has returned false for a supplier, device_links_check_suppliers
    returns -EPROBE_DEFER for each of its consumers that is linked to it
    by a link that is not STATELESS. *)
Theorem unbinding_supplier_defers_probe : forall st dev l,
  snd (device_links_busy st dev) = false ->
  In l (consumers st dev) ->
  stateless l = false ->
  snd (device_links_check_suppliers (fst (device_links_busy st dev))
         (consumer l))
  = (- EPROBE_DEFER)%Z.
Proof.
  intros st dev l Hret Hin Hn.
  set (st1 := fst (device_links_busy st dev)).
  destruct (check_suppliers_links st1 (consumer l)) as [_ Hsnd].
  rewrite Hsnd.
  destruct (forallb (supplier_ready (consumer l)) (links st1)) eqn:E;
    [|reflexivity].
  exfalso. rewrite forallb_forall in E.
  apply In_consumers in Hin. destruct Hin as [Hin Hs].
  assert (Hin1 : In (unbind_link dev l) (links st1)).
  { unfold st1. rewrite (busy_false_links st dev Hret). now apply in_map. }
  specialize (E _ Hin1). unfold supplier_ready, unbind_link, stateless in *.
  rewrite Hs, Nat.eqb_refl, Hn in E. simpl in E.
  rewrite Nat.eqb_refl, Hn in E. simpl in E. discriminate.
Qed.

Lemma unbinding_supplier_defers_probe_witness :
  snd (device_links_busy scenario_linked 1) = false /\
  In (mk_link 1 1 2 0 DL_STATE_DORMANT false) (consumers scenario_linked 1) /\
  stateless (mk_link 1 1 2 0 DL_STATE_DORMANT false) = false /\
  snd (device_links_check_suppliers (fst (device_links_busy scenario_linked 1))
         (consumer (mk_link 1 1 2 0 DL_STATE_DORMANT false)))
  = (- EPROBE_DEFER)%Z.
Proof.
  assert (H1 : snd (device_links_busy scenario_linked 1) = false)
    by reflexivity.
  assert (H2 : In (mk_link 1 1 2 0 DL_STATE_DORMANT false)
                  (consumers scenario_linked 1))
    by (vm_compute; left; reflexivity).
  assert (H3 : stateless (mk_link 1 1 2 0 DL_STATE_DORMANT false) = false)
    by reflexivity.
  split; [exact H1|]. split; [exact H2|]. split; [exact H3|].
  exact (unbinding_supplier_defers_probe scenario_linked 1
           (mk_link 1 1 2 0 DL_STATE_DORMANT false) H1 H2 H3).
Defined.

(** ** __device_links_no_driver *)

Lemma filter_filter : forall (A : Type) (f g : A -> bool) l,
  filter f (filter g l) = filter (fun x => g x && f x) l.
Proof.
  intros A f g l. induction l as [|x l IH]; simpl; [reflexivity|].
  destruct (g x); simpl; [destruct (f x)|]; now rewrite IH.
Qed.

Lemma filter_map_comm : forall (A : Type) (f : A -> bool) (w : A -> A) l,
  (forall x, f (w x) = f x) ->
  filter f (map w l) = map w (filter f l).
Proof.
  intros A f w l H. induction l as [|x l IH]; simpl; [reflexivity|].
  rewrite H. destruct (f x); simpl; now rewrite IH.
Qed.

Lemma no_driver_link_frame : forall st x,
  devices_kset (no_driver_link st x) = devices_kset st /\
  dpm_list (no_driver_link st x) = dpm_list st /\
  dev_p (no_driver_link st x) = dev_p st /\
  dev_parent (no_driver_link st x) = dev_parent st /\
  dev_links_status (no_driver_link st x) = dev_links_status st /\
  next_link (no_driver_link st x) = next_link st.
Proof.
  intros st x. unfold no_driver_link.
  destruct (stateless x); [repeat split|].
  destruct (flag_set (flags x) DL_FLAG_AUTOREMOVE); [repeat split|].
  destruct (negb _); repeat split.
Qed.

Lemma fold_no_driver_frame : forall L st,
  devices_kset (fold_left no_driver_link L st) = devices_kset st /\
  dpm_list (fold_left no_driver_link L st) = dpm_list st /\
  dev_p (fold_left no_driver_link L st) = dev_p st /\
  dev_parent (fold_left no_driver_link L st) = dev_parent st /\
  dev_links_status (fold_left no_driver_link L st) = dev_links_status st /\
  next_link (fold_left no_driver_link L st) = next_link st.
Proof.
  induction L as [|x L IH]; intros st; simpl; [repeat split|].
  destruct (IH (no_driver_link st x)) as (H1 & H2 & H3 & H4 & H5 & H6).
  destruct (no_driver_link_frame st x) as (G1 & G2 & G3 & G4 & G5 & G6).
  repeat split; congruence.
Qed.

Lemma map_filter_ext : forall (A B : Type) (f f' : A -> B) (g g' : A -> bool) l,
  (forall x, f x = f' x) -> (forall x, g x = g' x) ->
  map f (filter g l) = map f' (filter g' l).
Proof.
  intros A B f f' g g' l Hf Hg.
  rewrite (filter_ext g g' Hg). now apply map_ext.
Qed.

Lemma fold_no_driver_links : forall L st,
  links (fold_left no_driver_link L st)
  = map (fun l => if reset_by L l then with_status DL_STATE_AVAILABLE l else l)
        (filter (fun l => negb (removed_by L l)) (links st)).
Proof.
  induction L as [|x L IH]; intros st; cbn [fold_left].
  - induction (links st) as [|l ls IHl]; simpl;
      [reflexivity | now f_equal].
  - rewrite IH. unfold no_driver_link.
    destruct (stateless x) eqn:Hs.
    { apply map_filter_ext; intros l; unfold reset_by, removed_by; simpl;
        now rewrite Hs, ?andb_false_r. }
    destruct (flag_set (flags x) DL_FLAG_AUTOREMOVE) eqn:Ha.
    { unfold __device_link_del. simpl links. rewrite filter_filter.
      apply map_filter_ext; intros l; unfold reset_by, removed_by; simpl;
        rewrite Hs, Ha; simpl.
      - now rewrite !andb_false_r.
      - rewrite !andb_true_r, negb_orb.
        now rewrite (Nat.eqb_sym (l_addr x)). }
    destruct (device_link_state_eqb (status x) DL_STATE_SUPPLIER_UNBIND)
      eqn:Hu; simpl negb; cbv iota.
    { apply map_filter_ext; intros l; unfold reset_by, removed_by; simpl;
        now rewrite Hs, Ha, ?Hu, ?andb_false_r. }
    unfold write_status. simpl links.
    rewrite filter_map_comm.
    2:{ intros l. unfold removed_by.
        destruct (l_addr l =? l_addr x); reflexivity. }
    rewrite map_map.
    apply map_filter_ext; intros l; unfold reset_by, removed_by; simpl;
      rewrite Hs, Ha, ?Hu; simpl.
    + rewrite !andb_true_r. rewrite (Nat.eqb_sym (l_addr x)).
      destruct (l_addr l =? l_addr x) eqn:E; simpl; [|reflexivity].
      match goal with |- (if ?b then _ else _) = _ => destruct b end;
        reflexivity.
    + now rewrite !andb_false_r.
Qed.


(** Two links at the same address are the same link. *)
Lemma addr_inj : forall ls (x y : device_link),
  NoDup (map l_addr ls) -> In x ls -> In y ls -> l_addr x = l_addr y -> x = y.
Proof.
  induction ls as [|a ls IH]; intros x y Hnd Hx Hy E; [contradiction|].
  simpl in Hnd. inversion Hnd as [|? ? Hn Hnd']; subst.
  destruct Hx as [<-|Hx]; destruct Hy as [<-|Hy]; auto.
  - exfalso. apply Hn. rewrite E. now apply in_map.
  - exfalso. apply Hn. rewrite <- E. now apply in_map.
Qed.

Lemma removed_by_suppliers : forall st dev l,
  NoDup (map l_addr (links st)) -> In l (links st) ->
  removed_by (rev (suppliers st dev)) l = auto_removed dev l.
Proof.
  intros st dev l Hnd Hin. unfold removed_by, auto_removed.
  destruct (existsb _ _) eqn:E.
  - apply existsb_exists in E. destruct E as (x & Hx & Hc).
    rewrite <- in_rev in Hx. apply In_suppliers in Hx. destruct Hx as [Hx Hd].
    rewrite !andb_true_iff, Nat.eqb_eq in Hc. destruct Hc as [[Ha Hs] Hf].
    assert (x = l) by (eapply addr_inj; eauto). subst x.
    now rewrite Hd, Nat.eqb_refl, Hs, Hf.
  - symmetry. destruct ((consumer l =? dev) && negb (stateless l)
                        && flag_set (flags l) DL_FLAG_AUTOREMOVE) eqn:F;
      [|reflexivity].
    rewrite !andb_true_iff, Nat.eqb_eq in F. destruct F as [[Hd Hs] Hf].
    rewrite <- E. symmetry. apply existsb_exists. exists l. split.
    + rewrite <- in_rev. apply In_suppliers. auto.
    + now rewrite Nat.eqb_refl, Hs, Hf.
Qed.

Lemma reset_by_suppliers : forall st dev l,
  NoDup (map l_addr (links st)) -> In l (links st) ->
  auto_removed dev l = false ->
  (if reset_by (rev (suppliers st dev)) l
   then with_status DL_STATE_AVAILABLE l else l) = idle_link dev l.
Proof.
  intros st dev l Hnd Hin Hrm. unfold reset_by, idle_link, auto_removed in *.
  destruct (existsb _ _) eqn:E.
  - apply existsb_exists in E. destruct E as (x & Hx & Hc).
    rewrite <- in_rev in Hx. apply In_suppliers in Hx. destruct Hx as [Hx Hd].
    rewrite !andb_true_iff, Nat.eqb_eq in Hc.
    destruct Hc as [[[Ha Hs] Hf] Hu].
    assert (x = l) by (eapply addr_inj; eauto). subst x.
    now rewrite Hd, Nat.eqb_refl, Hs, Hu.
  - destruct ((consumer l =? dev) && negb (stateless l)
              && negb (device_link_state_eqb (status l)
                         DL_STATE_SUPPLIER_UNBIND)) eqn:F; [|reflexivity].
    rewrite !andb_true_iff, Nat.eqb_eq in F. destruct F as [[Hd Hs] Hu].
    exfalso. rewrite Hd, Nat.eqb_refl, Hs in Hrm. simpl in Hrm.
    assert (Ht : existsb
                   (fun x => (l_addr x =? l_addr l) && negb (stateless x)
                             && negb (flag_set (flags x) DL_FLAG_AUTOREMOVE)
                             && negb (device_link_state_eqb (status x)
                                        DL_STATE_SUPPLIER_UNBIND))
                   (rev (suppliers st dev)) = true).
    { apply existsb_exists. exists l. split.
      - rewrite <- in_rev. apply In_suppliers. auto.
      - now rewrite Nat.eqb_refl, Hs, Hrm, Hu. }
    congruence.
Qed.

Lemma no_driver_links : forall st dev,
  NoDup (map l_addr (links st)) ->
  links (__device_links_no_driver st dev)
  = map (idle_link dev)
        (filter (fun l => negb (auto_removed dev l)) (links st)).
Proof.
  intros st dev Hnd. unfold __device_links_no_driver. simpl.
  rewrite fold_no_driver_links.
  rewrite (filter_ext_in (fun l => negb (removed_by (rev (suppliers st dev)) l))
             (fun l => negb (auto_removed dev l))).
  2:{ intros l Hin. now rewrite (removed_by_suppliers st dev l Hnd Hin). }
  apply map_ext_in. intros l Hin. apply filter_In in Hin.
  destruct Hin as [Hin Hk]. apply negb_true_iff in Hk.
  now apply reset_by_suppliers.
Qed.





(** In that state the AUTOREMOVE link goes and the other one becomes
    AVAILABLE. *)
Example autoremove_sample_no_driver :
  map (fun l => (supplier l, consumer l, flags l, status l))
      (links autoremove_sample)
  = [(1, 2, DL_FLAG_AUTOREMOVE, DL_STATE_DORMANT);
     (0, 2, 0%Z, DL_STATE_DORMANT)] /\
  map (fun l => (supplier l, consumer l, flags l, status l))
      (links (device_links_no_driver autoremove_sample 2))
  = [(0, 2, 0%Z, DL_STATE_AVAILABLE)].
Proof. split; reflexivity. Qed.

(** ** Sequences of link state calls *)

Lemma map_addr_map : forall (f : device_link -> device_link) ls,
  (forall l, l_addr (f l) = l_addr l) ->
  map l_addr (map f ls) = map l_addr ls.
Proof.
  intros f ls H. rewrite map_map. now apply map_ext.
Qed.

Lemma EPROBE_DEFER_nonzero : (- EPROBE_DEFER)%Z <> 0%Z.
Proof. unfold EPROBE_DEFER. lia. Qed.



Lemma dormant_link_ends : forall dev l,
  l_addr (dormant_link dev l) = l_addr l /\
  supplier (dormant_link dev l) = supplier l /\
  consumer (dormant_link dev l) = consumer l /\
  flags (dormant_link dev l) = flags l.
Proof.
  intros dev l. unfold dormant_link.
  destruct ((supplier l =? dev) && negb (stateless l)); simpl; auto.
Qed.

Lemma idle_link_ends : forall dev l,
  l_addr (idle_link dev l) = l_addr l /\
  supplier (idle_link dev l) = supplier l /\
  consumer (idle_link dev l) = consumer l /\
  flags (idle_link dev l) = flags l.
Proof.
  intros dev l. unfold idle_link.
  destruct ((consumer l =? dev) && negb (stateless l) && negb _); simpl; auto.
Qed.

Lemma driver_cleanup_links : forall st dev,
  NoDup (map l_addr (links st)) ->
  links (device_links_driver_cleanup st dev)
  = map (idle_link dev)
        (filter (fun l => negb (auto_removed dev l))
                (map (dormant_link dev) (links st))).
Proof.
  intros st dev Hnd. unfold device_links_driver_cleanup.
  rewrite no_driver_links; [reflexivity|].
  simpl. change (map _ (links st)) with (map (dormant_link dev) (links st)).
  rewrite map_addr_map; [exact Hnd|]. intros l. apply dormant_link_ends.
Qed.

(** X5 (a supplier that unbinds). In a memory where no two links have
    the same address and no link joins a device to itself: once
    device_links_busy has returned false for a device, every link to
    one of its consumers that is not STATELESS is in SUPPLIER_UNBIND,
    which is what device_links_driver_cleanup expects (its WARN_ON on
    the status); device_links_driver_cleanup then keeps every one of
    these links, leaves those that are not STATELESS in DORMANT, and
    the device in NO_DRIVER. *)
Theorem supplier_unbind_sequence : forall st dev,
  NoDup (map l_addr (links st)) ->
  (forall l, In l (links st) -> supplier l <> consumer l) ->
  snd (device_links_busy st dev) = false ->
  (forall l, In l (consumers (fst (device_links_busy st dev)) dev) ->
     stateless l = false -> status l = DL_STATE_SUPPLIER_UNBIND) /\
  (forall l, In l (consumers st dev) ->
     exists l', In l'
                  (consumers (device_links_driver_cleanup
                                (fst (device_links_busy st dev)) dev) dev) /\
                l_addr l' = l_addr l /\ consumer l' = consumer l /\
                flags l' = flags l) /\
  (forall l', In l'
                (consumers (device_links_driver_cleanup
                              (fst (device_links_busy st dev)) dev) dev) ->
     stateless l' = false -> status l' = DL_STATE_DORMANT) /\
  dev_links_status
    (device_links_driver_cleanup (fst (device_links_busy st dev)) dev) dev
  = DL_DEV_NO_DRIVER.
Proof.
  intros st dev Hnd Hself Hret.
  pose proof (busy_false_links st dev Hret) as Hl1.
  set (st1 := fst (device_links_busy st dev)) in *.
  assert (Hnd1 : NoDup (map l_addr (links st1))).
  { rewrite Hl1, map_addr_map; [exact Hnd|].
    intros l. apply unbind_link_ends. }
  pose proof (driver_cleanup_links st1 dev Hnd1) as Hl2.
  set (st2 := device_links_driver_cleanup st1 dev) in *.
  split; [|split; [|split]].
  - intros l Hin Hn. apply In_consumers in Hin. destruct Hin as [Hin Hs].
    rewrite Hl1 in Hin. apply in_map_iff in Hin.
    destruct Hin as (l0 & <- & Hin0).
    destruct (unbind_link_ends dev l0) as (_ & Es & _ & Ef).
    unfold stateless in Hn. rewrite Ef in Hn. rewrite Es in Hs.
    unfold unbind_link, stateless. rewrite Hs, Nat.eqb_refl, Hn. reflexivity.
  - intros l Hin. apply In_consumers in Hin. destruct Hin as [Hin Hs].
    pose proof (Hself l Hin) as Hne.
    destruct (unbind_link_ends dev l) as (A1 & S1 & C1 & F1).
    destruct (dormant_link_ends dev (unbind_link dev l)) as (A2 & S2 & C2 & F2).
    destruct (idle_link_ends dev (dormant_link dev (unbind_link dev l)))
      as (A3 & S3 & C3 & F3).
    exists (idle_link dev (dormant_link dev (unbind_link dev l))).
    split; [|repeat split; congruence].
    apply In_consumers. split; [|congruence].
    rewrite Hl2. apply in_map. apply filter_In. split.
    + apply in_map. rewrite Hl1. now apply in_map.
    + unfold auto_removed. rewrite C2, C1.
      destruct (Nat.eqb_spec (consumer l) dev); [congruence|reflexivity].
  - intros l' Hin Hn. apply In_consumers in Hin. destruct Hin as [Hin Hs].
    rewrite Hl2 in Hin. apply in_map_iff in Hin.
    destruct Hin as (l2 & <- & Hin2). apply filter_In in Hin2.
    destruct Hin2 as [Hin2 _]. apply in_map_iff in Hin2.
    destruct Hin2 as (l1 & <- & Hin1). rewrite Hl1 in Hin1.
    apply in_map_iff in Hin1. destruct Hin1 as (l & <- & Hin).
    pose proof (Hself l Hin) as Hne.
    destruct (unbind_link_ends dev l) as (A1 & S1 & C1 & F1).
    destruct (dormant_link_ends dev (unbind_link dev l)) as (A2 & S2 & C2 & F2).
    destruct (idle_link_ends dev (dormant_link dev (unbind_link dev l)))
      as (A3 & S3 & C3 & F3).
    rewrite S3, S2, S1 in Hs. unfold stateless in Hn.
    rewrite F3, F2, F1 in Hn.
    assert (Hc : (consumer l =? dev) = false).
    { apply Nat.eqb_neq. congruence. }
    unfold idle_link. rewrite C2, C1, Hc. simpl.
    unfold dormant_link, stateless. rewrite S1, F1, Hs, Nat.eqb_refl, Hn.
    reflexivity.
  - unfold st2, device_links_driver_cleanup, __device_links_no_driver.
    simpl. apply upd_same.
Qed.

Lemma supplier_unbind_sequence_witness :
  NoDup (map l_addr (links scenario_linked)) /\
  (forall l, In l (links scenario_linked) -> supplier l <> consumer l) /\
  snd (device_links_busy scenario_linked 1) = false /\
  (forall l, In l (consumers (fst (device_links_busy scenario_linked 1)) 1) ->
     stateless l = false -> status l = DL_STATE_SUPPLIER_UNBIND) /\
  (forall l, In l (consumers scenario_linked 1) ->
     exists l', In l'
                  (consumers (device_links_driver_cleanup
                                (fst (device_links_busy scenario_linked 1)) 1)
                     1) /\
                l_addr l' = l_addr l /\ consumer l' = consumer l /\
                flags l' = flags l) /\
  (forall l', In l'
                (consumers (device_links_driver_cleanup
                              (fst (device_links_busy scenario_linked 1)) 1)
                   1) ->
     stateless l' = false -> status l' = DL_STATE_DORMANT) /\
  dev_links_status
    (device_links_driver_cleanup (fst (device_links_busy scenario_linked 1)) 1)
    1
  = DL_DEV_NO_DRIVER.
Proof.
  assert (H1 : NoDup (map l_addr (links scenario_linked))).
  { vm_compute. repeat constructor; simpl; intuition lia. }
  assert (H2 : forall l, In l (links scenario_linked) ->
                         supplier l <> consumer l).
  { intros l [<-|[]]. vm_compute. lia. }
  assert (H3 : snd (device_links_busy scenario_linked 1) = false)
    by reflexivity.
  split; [exact H1|]. split; [exact H2|]. split; [exact H3|].
  exact (supplier_unbind_sequence scenario_linked 1 H1 H2 H3).
Defined.

(** ** device_link_del *)





(** * The invariant under all calls *)

Lemma NoDup_map_filter : forall (A B : Type) (h : A -> B) (g : A -> bool) l,
  NoDup (map h l) -> NoDup (map h (filter g l)).
Proof.
  intros A B h g l. induction l as [|x l IH]; simpl; intros H; [constructor|].
  inversion H as [|? ? Hn Hnd]; subst.
  destruct (g x); simpl; [|now apply IH]. constructor; [|now apply IH].
  intros Hin. apply Hn. apply in_map_iff in Hin.
  destruct Hin as (y & E & Hy). apply filter_In in Hy. rewrite <- E.
  apply in_map. tauto.
Qed.

Lemma map_link_id_addr : forall ls, map l_addr ls = map fst (map link_id ls).
Proof. intros ls. rewrite map_map. reflexivity. Qed.

Lemma map_link_id_ends : forall ls,
  map link_ends ls = map snd (map link_id ls).
Proof. intros ls. rewrite map_map. reflexivity. Qed.

Lemma In_succs_ends : forall st u v,
  In v (succs st u) <->
  In v (children st u) \/ In (u, v) (map link_ends (links st)).
Proof.
  intros st u v. rewrite In_succs, in_map_iff. unfold link_ends. split.
  - intros [H|(l & Hl & <- & <-)]; [now left|]. right. now exists l.
  - intros [H|(l & E & Hl)]; [now left|]. right. exists l.
    injection E as -> ->. auto.
Qed.

(** A call that only deletes links and rewrites statuses keeps the
    invariant. *)
Lemma Inv_shrink : forall (g : device_link -> bool) st st',
  map link_id (links st') = map link_id (filter g (links st)) ->
  dev_p st' = dev_p st -> dev_parent st' = dev_parent st ->
  devices_kset st' = devices_kset st -> dpm_list st' = dpm_list st ->
  next_link st' = next_link st ->
  Inv st -> Inv st'.
Proof.
  intros g st st' Hl Hp Hpar Hk Hd Hn [H1 H2 H3 H4 H5 H6 H7 H8].
  assert (He : map link_ends (links st')
               = map link_ends (filter g (links st))).
  { now rewrite !map_link_id_ends, Hl. }
  assert (Ha : map l_addr (links st') = map l_addr (filter g (links st))).
  { now rewrite !map_link_id_addr, Hl. }
  constructor.
  - congruence.
  - now rewrite Hk.
  - intros u v Hv. rewrite Hk. apply H3. apply In_succs_ends.
    apply In_succs_ends in Hv. unfold children in *. rewrite Hp in Hv.
    destruct Hv as [Hv|Hv]; [now left|]. right. rewrite He in Hv.
    apply in_map_iff in Hv. destruct Hv as (l & E & Hin).
    apply filter_In in Hin. rewrite <- E. apply in_map. tauto.
  - intros l Hin. rewrite Hn.
    assert (Hx : In (l_addr l) (map l_addr (links st'))) by now apply in_map.
    rewrite Ha in Hx. apply in_map_iff in Hx. destruct Hx as (l0 & <- & Hin0).
    apply filter_In in Hin0. apply H4. tauto.
  - intros c par. rewrite Hk, Hpar. apply H5.
  - intros par c. rewrite Hk. unfold children. rewrite Hp. apply H6.
  - rewrite He. now apply NoDup_map_filter.
  - intros d. rewrite Hk, Hp. apply H8.
Qed.

Lemma Inv_all_shrink : forall (g : device_link -> bool) st st',
  map link_id (links st') = map link_id (filter g (links st)) ->
  dev_p st' = dev_p st -> dev_parent st' = dev_parent st ->
  devices_kset st' = devices_kset st -> dpm_list st' = dpm_list st ->
  next_link st' = next_link st ->
  Inv_all st -> Inv_all st'.
Proof.
  intros g st st' Hl Hp Hpar Hk Hd Hn [HI Ha Hc]. constructor.
  - eapply Inv_shrink; eauto.
  - rewrite map_link_id_addr, Hl, <- map_link_id_addr.
    now apply NoDup_map_filter.
  - intros par c. unfold children. rewrite Hp, Hpar. apply Hc.
Qed.

Lemma filter_true : forall (A : Type) (l : list A),
  filter (fun _ => true) l = l.
Proof.
  intros A l. induction l as [|x l IH]; simpl; congruence.
Qed.

Lemma links_busy_loop_ids : forall dev todo done,
  map link_id (fst (links_busy_loop dev done todo))
  = map link_id (done ++ todo).
Proof.
  intros dev todo. induction todo as [|l rest IH]; intros done; simpl.
  - now rewrite app_nil_r.
  - assert (E : done ++ l :: rest = (done ++ [l]) ++ rest)
      by now rewrite <- app_assoc.
    destruct (negb (supplier l =? dev)); [rewrite IH; now rewrite E|].
    destruct (stateless l); [rewrite IH; now rewrite E|].
    destruct (_ || _); [reflexivity|].
    rewrite IH, E, !map_app. reflexivity.
Qed.

Lemma Inv_all_busy : forall st dev,
  Inv_all st -> Inv_all (fst (device_links_busy st dev)).
Proof.
  intros st dev HI. apply (Inv_all_shrink (fun _ => true) st); auto;
    unfold device_links_busy;
    pose proof (links_busy_loop_ids dev (links st) []) as Hids;
    destruct (links_busy_loop dev [] (links st)) as [ls ret];
    try reflexivity.
  simpl in *. now rewrite filter_true.
Qed.

Lemma fold_no_driver_ids : forall L st,
  map link_id (links (fold_left no_driver_link L st))
  = map link_id (filter (fun l => negb (removed_by L l)) (links st)).
Proof.
  intros L st. rewrite fold_no_driver_links, map_map. apply map_ext.
  intros l. destruct (reset_by L l); reflexivity.
Qed.

Lemma Inv_all_no_driver : forall st dev,
  Inv_all st -> Inv_all (__device_links_no_driver st dev).
Proof.
  intros st dev HI.
  destruct (fold_no_driver_frame (rev (suppliers st dev)) st)
    as (F1 & F2 & F3 & F4 & F5 & F6).
  apply (Inv_all_shrink
           (fun l => negb (removed_by (rev (suppliers st dev)) l)) st);
    auto.
  unfold __device_links_no_driver. simpl. apply fold_no_driver_ids.
Qed.

Lemma Inv_all_set_links_map : forall (f : device_link -> device_link) st,
  (forall l, link_id (f l) = link_id l) ->
  Inv_all st -> Inv_all (set_links st (map f (links st))).
Proof.
  intros f st Hf HI. apply (Inv_all_shrink (fun _ => true) st); auto.
  simpl. rewrite filter_true, map_map. now apply map_ext.
Qed.

Lemma Inv_all_driver_cleanup : forall st dev,
  Inv_all st -> Inv_all (device_links_driver_cleanup st dev).
Proof.
  intros st dev HI. unfold device_links_driver_cleanup.
  apply Inv_all_no_driver.
  change (map _ (links st)) with (map (dormant_link dev) (links st)).
  apply Inv_all_set_links_map; [|exact HI].
  intros l. unfold link_id, link_ends.
  destruct (dormant_link_ends dev l) as (-> & -> & -> & _). reflexivity.
Qed.

Lemma Inv_all_link_del : forall st a st',
  Inv_all st -> device_link_del st a = Some st' -> Inv_all st'.
Proof.
  intros st a st' HI H. unfold device_link_del in H.
  destruct (link_at st a) as [link|]; [|discriminate].
  injection H as <-.
  apply (Inv_all_shrink (fun l => negb (l_addr l =? l_addr link)) st); auto.
Qed.

(** What the two parts of device_add do to the links, the parent
    pointers and the klists. *)
Lemma add_head_frame : forall st dev env,
  Inv st -> ~ In dev (devices_kset st) ->
  links (progress_state (device_add_head st dev env)) = links st /\
  dev_parent (progress_state (device_add_head st dev env)) = dev_parent st /\
  (forall d c,
     In c (children (progress_state (device_add_head st dev env)) d) ->
     In c (children st d)).
Proof.
  intros st dev env HI Hn.
  destruct (device_add_head st dev env) as [[st' err]|st4 parent] eqn:Eh;
    simpl.
  - assert (Hnd : ~ In dev (dpm_list st))
      by now rewrite (inv_lists _ HI).
    destruct (device_add_head_returned _ _ _ _ _ Hn Hnd Eh)
      as (_ & _ & _ & Hl & _ & Hp & _ & _ & Hpo & Hpd).
    split; [exact Hl|]. split; [exact Hp|].
    intros d c Hin. unfold children in *.
    destruct (Nat.eq_dec d dev) as [->|Hne].
    + destruct Hpd as [E|E]; rewrite E in Hin; [destruct Hin | exact Hin].
    + now rewrite (Hpo _ Hne) in Hin.
  - destruct (device_add_head_probing _ _ _ _ _ Eh)
      as (_ & _ & _ & Hl & _ & Hp & _ & Hc & _).
    split; [exact Hl|]. split; [exact Hp|].
    intros d c. now rewrite Hc.
Qed.

Lemma add_tail_frame : forall st dev st' err,
  device_add_tail st dev (dev_parent st dev) = Some (st', err) ->
  links st' = links st /\ dev_parent st' = dev_parent st /\
  (forall d c, In c (children st' d) ->
     In c (children st d) \/ (dev_parent st dev = Some d /\ c = dev)).
Proof.
  intros st dev st' err H.
  destruct (device_add_tail_spec _ _ _ _ _ H)
    as (_ & _ & _ & Hl & _ & Hp & _ & Hc & _).
  split; [exact Hl|]. split; [exact Hp|].
  intros d c. rewrite Hc. destruct (dev_parent st dev) as [par|]; [|tauto].
  destruct (Nat.eqb_spec d par) as [->|Hne]; [|tauto].
  unfold list_add_tail. rewrite in_app_iff. simpl. intuition.
Qed.

Lemma device_link_add_graph : forall fuel st con sup fl env st' r,
  device_link_add fuel st con sup fl env = Some (st', r) ->
  dev_p st' = dev_p st /\ dev_parent st' = dev_parent st /\
  (links st' = links st \/
   exists new, links st' = links st ++ [new] /\ l_addr new = next_link st).
Proof.
  intros fuel st con sup fl env st' r H.
  destruct con as [c|], sup as [s|];
    try (simpl in H; injection H as <- <-; repeat split; now left).
  destruct (device_link_add_cases _ _ _ _ _ _ _ _ H)
    as [[-> _]|[[-> _]|(_ & _ & _ & _ & st3 & Hr & -> & _)]];
    try (repeat split; now left).
  destruct (reorder_visit fuel _ _ c st3 (same_graph_refl _) Hr)
    as ((Gpar & Gp & _ & _ & Gl & _) & _ & _).
  simpl in *. split; [exact Gp|]. split; [exact Gpar|].
  right. exists (new_link st c s fl). rewrite Gl. split; reflexivity.
Qed.

Lemma Inv_all_step : forall st st',
  Inv_all st -> step clear_of_window st st' -> Inv_all st'.
Proof.
  intros st st' [HI Ha Hc] Hs.
  constructor; [eapply Inv_step; eauto| |]; destruct Hs.
  - exact Ha.
  - destruct (add_head_frame st dev env HI H) as (Hl & _). now rewrite Hl.
  - destruct (add_tail_frame _ _ _ _ H0) as (Hl & _). now rewrite Hl.
  - destruct (device_link_add_graph _ _ _ _ _ _ _ _ H0)
      as (_ & _ & [Hl|(new & Hl & Hnew)]); rewrite Hl; [exact Ha|].
    rewrite map_app. simpl. apply NoDup_add_tail; [exact Ha|].
    intros Hin. apply in_map_iff in Hin. destruct Hin as (l & E & Hin).
    pose proof (inv_fresh _ HI l Hin). lia.
  - destruct (check_suppliers_links st dev) as [Hl _]. rewrite Hl.
    rewrite map_addr_map; [exact Ha|]. intros l.
    destruct (forallb _ _);
      [apply endpoints_probe_link | apply endpoints_reset_link].
  - rewrite driver_bound_links, map_addr_map; [exact Ha|].
    intros l. apply endpoints_bound_link.
  - intros par c. unfold children. simpl. unfold upd. intros Hin.
    destruct (Nat.eqb_spec c dev) as [->|Hne]; [|now apply Hc].
    exfalso. apply H. now apply (inv_children _ HI par).
  - destruct (add_head_frame st dev env HI H) as (_ & Hp & Hch).
    intros par c Hin. rewrite Hp. apply Hc. now apply Hch.
  - destruct (add_tail_frame _ _ _ _ H0) as (_ & Hp & Hch).
    intros par c Hin. rewrite Hp.
    destruct (Hch _ _ Hin) as [Hin0|[Hpar ->]]; [now apply Hc | exact Hpar].
  - destruct (device_link_add_graph _ _ _ _ _ _ _ _ H0) as (Hp & Hpar & _).
    intros par c. unfold children. rewrite Hp, Hpar. apply Hc.
  - destruct (check_suppliers_frame st dev) as (Hp & Hpar & _).
    intros par c. unfold children. rewrite Hp, Hpar. apply Hc.
  - exact Hc.
Qed.

(** ** device_del *)

Lemma fold_link_del_links : forall L st,
  links (fold_left __device_link_del L st)
  = filter (fun l => negb (existsb (fun x => l_addr l =? l_addr x) L))
           (links st).
Proof.
  induction L as [|x L IH]; intros st; cbn [fold_left].
  - simpl. now rewrite filter_true.
  - rewrite IH. unfold __device_link_del. simpl links. rewrite filter_filter.
    apply filter_ext. intros l. simpl. now rewrite negb_orb.
Qed.

Lemma fold_link_del_more : forall L st,
  next_link (fold_left __device_link_del L st) = next_link st /\
  dev_links_status (fold_left __device_link_del L st) = dev_links_status st /\
  forall d, dev_kref (fold_left __device_link_del L st) d
            = dev_kref st d - refs_held L d.
Proof.
  induction L as [|x L IH]; intros st; cbn [fold_left].
  - repeat split. intros d. unfold refs_held. simpl. lia.
  - destruct (IH (__device_link_del st x)) as (H1 & H2 & H3).
    split; [exact H1|]. split; [exact H2|]. intros d. rewrite H3.
    unfold __device_link_del, refs_held. simpl. unfold upd.
    destruct (Nat.eqb_spec (consumer x) d) as [Ec|Ec];
      destruct (Nat.eqb_spec (supplier x) d) as [Es|Es];
      rewrite ?Ec, ?Es, ?Nat.eqb_refl;
      repeat match goal with
             | |- context [?a =? ?b] => destruct (Nat.eqb_spec a b)
             end; try congruence; simpl; lia.
Qed.

(** In a memory without two links at one address, device_links_purge
    deletes the links that have the device at one end, and no other. *)
Lemma device_links_purge_links : forall st dev,
  NoDup (map l_addr (links st)) ->
  links (device_links_purge st dev)
  = filter (fun l => negb (consumer l =? dev) && negb (supplier l =? dev))
           (links st).
Proof.
  intros st dev Hnd. unfold device_links_purge.
  set (st1 := fold_left __device_link_del (rev (suppliers st dev)) st).
  assert (H1 : links st1 = filter (fun l => negb (consumer l =? dev))
                                  (links st)).
  { unfold st1. rewrite fold_link_del_links. apply filter_ext_in.
    intros l Hin. f_equal.
    destruct (consumer l =? dev) eqn:E.
    - apply existsb_exists. exists l. split; [|apply Nat.eqb_refl].
      rewrite <- in_rev. apply In_suppliers. split; [exact Hin|].
      now apply Nat.eqb_eq.
    - destruct (existsb _ _) eqn:Ex; [|reflexivity].
      apply existsb_exists in Ex. destruct Ex as (x & Hx & Ea).
      rewrite <- in_rev in Hx. apply In_suppliers in Hx.
      destruct Hx as [Hx Hc]. apply Nat.eqb_eq in Ea.
      assert (l = x) by (eapply addr_inj; eauto). subst x.
      rewrite Hc, Nat.eqb_refl in E. discriminate. }
  assert (Hnd1 : NoDup (map l_addr (links st1))).
  { rewrite H1. now apply NoDup_map_filter. }
  rewrite fold_link_del_links, H1. rewrite filter_filter.
  apply filter_ext_in. intros l Hin.
  destruct (consumer l =? dev) eqn:Ec; simpl; [reflexivity|]. f_equal.
  assert (Hin1 : In l (links st1)).
  { rewrite H1. apply filter_In. split; [exact Hin|]. now rewrite Ec. }
  destruct (supplier l =? dev) eqn:E.
  - apply existsb_exists. exists l. split; [|apply Nat.eqb_refl].
    rewrite <- in_rev. apply In_consumers. split; [exact Hin1|].
    now apply Nat.eqb_eq.
  - destruct (existsb _ _) eqn:Ex; [|reflexivity].
    apply existsb_exists in Ex. destruct Ex as (x & Hx & Ea).
    rewrite <- in_rev in Hx. apply In_consumers in Hx.
    destruct Hx as [Hx Hc]. apply Nat.eqb_eq in Ea.
    assert (l = x) by (eapply addr_inj; eauto). subst x.
    rewrite Hc, Nat.eqb_refl in E. discriminate.
Qed.

Lemma device_del_unfold : forall st dev,
  device_del st dev =
  match dev_parent st dev with
  | Some par =>
      match klist_del st dev par with
      | Some s1 =>
          Some (put_device
                  (kobject_del
                     (device_links_purge (device_pm_remove s1 dev) dev) dev)
                  (Some par))
      | None => None
      end
  | None =>
      Some (kobject_del (device_links_purge (device_pm_remove st dev) dev) dev)
  end.
Proof.
  intros st dev. unfold device_del, device_del_steps.
  destruct (dev_parent st dev) as [par|]; simpl; [|reflexivity].
  destruct (klist_del st dev par); reflexivity.
Qed.

Lemma device_links_purge_frame : forall st dev,
  devices_kset (device_links_purge st dev) = devices_kset st /\
  dpm_list (device_links_purge st dev) = dpm_list st /\
  dev_p (device_links_purge st dev) = dev_p st /\
  dev_parent (device_links_purge st dev) = dev_parent st /\
  next_link (device_links_purge st dev) = next_link st /\
  dev_links_status (device_links_purge st dev) = dev_links_status st.
Proof.
  intros st dev.
  destruct (device_links_purge_spec st dev) as (_ & H1 & H2 & H3 & H4).
  unfold device_links_purge.
  set (st1 := fold_left __device_link_del (rev (suppliers st dev)) st).
  destruct (fold_link_del_more (rev (suppliers st dev)) st) as (A1 & A2 & _).
  destruct (fold_link_del_more (rev (consumers st1 dev)) st1)
    as (B1 & B2 & _).
  fold st1 in A1, A2. unfold device_links_purge in H1, H2, H3, H4.
  fold st1 in H1, H2, H3, H4.
  repeat split; congruence.
Qed.

(** What a device_del that returns has done. *)
Lemma device_del_result : forall st dev st',
  NoDup (map l_addr (links st)) ->
  device_del st dev = Some st' ->
  devices_kset st' = list_del dev (devices_kset st) /\
  dpm_list st' = list_del dev (dpm_list st) /\
  links st'
  = filter (fun l => negb (consumer l =? dev) && negb (supplier l =? dev))
           (links st) /\
  (forall d, children st' d =
             if match dev_parent st dev with
                | Some par => d =? par
                | None => false
                end
             then list_del dev (children st d) else children st d) /\
  dev_parent st' = dev_parent st /\
  next_link st' = next_link st /\
  dev_links_status st' = dev_links_status st /\
  (forall d, dev_p st d <> None -> dev_p st' d <> None).
Proof.
  intros st dev st' Hnd H. rewrite device_del_unfold in H.
  destruct (dev_parent st dev) as [par|] eqn:Epar.
  - unfold klist_del in H. destruct (dev_p st dev) as [cs|] eqn:Ep;
      [|discriminate].
    injection H as <-.
    match goal with
    | |- context [device_links_purge ?s dev] =>
        destruct (device_links_purge_frame s dev)
          as (F1 & F2 & F3 & F4 & F5 & F6);
        pose proof (device_links_purge_links s dev Hnd) as Hl;
        remember (device_links_purge s dev) as s3 eqn:E3
    end.
    clear E3. simpl in *. rewrite F1, F2, F4, F5, F6, Hl.
    repeat split.
    + intros d. unfold children. simpl. rewrite F3. unfold upd.
      destruct (d =? par) eqn:E; [|reflexivity].
      apply Nat.eqb_eq in E. subst d. now destruct (dev_p st par).
    + intros d Hd. rewrite F3. unfold upd.
      destruct (d =? par) eqn:E; [|exact Hd].
      apply Nat.eqb_eq in E. subst d. destruct (dev_p st par); simpl;
        congruence.
  - injection H as <-.
    match goal with
    | |- context [device_links_purge ?s dev] =>
        destruct (device_links_purge_frame s dev)
          as (F1 & F2 & F3 & F4 & F5 & F6);
        pose proof (device_links_purge_links s dev Hnd) as Hl;
        remember (device_links_purge s dev) as s3 eqn:E3
    end.
    clear E3. simpl in *. rewrite F1, F2, F4, F5, F6, Hl.
    repeat split.
    + intros d. unfold children. simpl. now rewrite F3.
    + intros d Hd. now rewrite F3.
Qed.

(** X7 (device_del). In a memory without two links at one address, a
    device_del that returns takes the device off both ordering lists
    and off the klist of its parent, deletes the links that have the
    device at one end and no other link, and keeps the order of
    everything that stays. *)
Theorem device_del_outcome : forall st dev st',
  NoDup (map l_addr (links st)) ->
  device_del st dev = Some st' ->
  devices_kset st' = list_del dev (devices_kset st) /\
  dpm_list st' = list_del dev (dpm_list st) /\
  links st'
  = filter (fun l => negb (consumer l =? dev) && negb (supplier l =? dev))
           (links st) /\
  (forall d, children st' d =
             if match dev_parent st dev with
                | Some par => d =? par
                | None => false
                end
             then list_del dev (children st d) else children st d) /\
  dev_parent st' = dev_parent st /\
  next_link st' = next_link st /\
  dev_links_status st' = dev_links_status st /\
  (forall d, dev_p st d <> None -> dev_p st' d <> None).
Proof.
  intros st dev st' Hnd H. exact (device_del_result st dev st' Hnd H).
Qed.

Lemma device_del_outcome_witness :
  NoDup (map l_addr (links linked_child)) /\
  device_del linked_child 1 = Some child_deleted /\
  devices_kset child_deleted = list_del 1 (devices_kset linked_child) /\
  dpm_list child_deleted = list_del 1 (dpm_list linked_child) /\
  links child_deleted
  = filter (fun l => negb (consumer l =? 1) && negb (supplier l =? 1))
           (links linked_child) /\
  (forall d, children child_deleted d =
             if match dev_parent linked_child 1 with
                | Some par => d =? par
                | None => false
                end
             then list_del 1 (children linked_child d)
             else children linked_child d) /\
  dev_parent child_deleted = dev_parent linked_child /\
  next_link child_deleted = next_link linked_child /\
  dev_links_status child_deleted = dev_links_status linked_child /\
  (forall d, dev_p linked_child d <> None -> dev_p child_deleted d <> None).
Proof.
  assert (H1 : NoDup (map l_addr (links linked_child))).
  { vm_compute. repeat constructor; simpl; intuition lia. }
  assert (H2 : device_del linked_child 1 = Some child_deleted)
    by reflexivity.
  split; [exact H1|]. split; [exact H2|].
  exact (device_del_outcome linked_child 1 child_deleted H1 H2).
Defined.

Lemma Inv_all_device_del : forall st dev st',
  Inv_all st -> In dev (devices_kset st) ->
  (forall c, In c (devices_kset st) -> dev_parent st c <> Some dev) ->
  device_del st dev = Some st' -> Inv_all st'.
Proof.
  intros st dev st' [HI Ha Hc] Hin Hleaf H.
  destruct (device_del_result st dev st' Ha H)
    as (Hk & Hd & Hl & Hchild & Hpar & Hn & _ & Hp).
  assert (Hch : children st dev = []).
  { destruct (children st dev) as [|c cs] eqn:E; [reflexivity|]. exfalso.
    assert (Hx : In c (children st dev)) by (rewrite E; now left).
    apply (Hleaf c); [exact (inv_children _ HI dev c Hx) | now apply Hc]. }
  assert (Hsub : forall p c, In c (children st' p) ->
                             In c (children st p) /\ c <> dev).
  { intros p c. rewrite Hchild.
    destruct (dev_parent st dev) as [par|] eqn:Epar.
    - destruct (Nat.eqb_spec p par) as [->|Hne].
      + rewrite In_list_del. tauto.
      + intros Hx. split; [exact Hx|]. intros ->.
        apply Hc in Hx. congruence.
    - intros Hx. split; [exact Hx|]. intros ->. apply Hc in Hx. congruence. }
  assert (Hsup : forall p c, In c (children st p) -> c <> dev ->
                             In c (children st' p)).
  { intros p c Hx Hne. rewrite Hchild.
    destruct (match dev_parent st dev with
              | Some par => p =? par | None => false end); [|exact Hx].
    apply In_list_del. tauto. }
  assert (Hlk : forall l, In l (links st') ->
                  In l (links st) /\ consumer l <> dev /\ supplier l <> dev).
  { intros l. rewrite Hl, filter_In, andb_true_iff, !negb_true_iff,
      !Nat.eqb_neq. tauto. }
  destruct HI as [H1 H2 H3 H4 H5 H6 H7 H8].
  constructor; [constructor| |].
  - congruence.
  - rewrite Hk. now apply NoDup_list_del.
  - intros u v Hv. rewrite Hk. apply In_succs in Hv.
    destruct Hv as [Hv|(l & Hv & <- & <-)].
    + destruct (Hsub _ _ Hv) as [Hv0 Hne].
      apply lt_in_del; [|exact Hne|].
      * intros ->. rewrite Hch in Hv0. exact Hv0.
      * apply H3. apply In_succs. now left.
    + destruct (Hlk _ Hv) as (Hv0 & Hcn & Hsn).
      apply lt_in_del; [exact Hsn|exact Hcn|].
      apply H3. apply In_succs. right. now exists l.
  - intros l Hx. rewrite Hn. apply H4. now apply Hlk.
  - intros c par. rewrite Hk, Hpar, In_list_del. intros [Hx Hne] Hcp.
    apply lt_in_del; [|exact Hne|now apply H5].
    intros ->. exact (Hleaf c Hx Hcp).
  - intros par c Hx. rewrite Hk. apply In_list_del.
    destruct (Hsub _ _ Hx) as [Hx0 Hne]. split; [|exact Hne].
    now apply (H6 par).
  - rewrite Hl. now apply NoDup_map_filter.
  - intros d. rewrite Hk, In_list_del. intros [Hx _]. apply Hp. now apply H8.
  - rewrite Hl. now apply NoDup_map_filter.
  - intros par c Hx. rewrite Hpar. apply Hc. now apply Hsub.
Qed.

Lemma Inv_all_put_device : forall st od,
  Inv_all st -> Inv_all (put_device st od).
Proof.
  intros st [d|] HI; [|exact HI].
  apply (Inv_all_shrink (fun _ => true) st); auto.
  simpl. now rewrite filter_true.
Qed.

Lemma Inv_all_call : forall st st', Inv_all st -> call st st' -> Inv_all st'.
Proof.
  intros st st' HI Hc. destruct Hc.
  - now apply Inv_all_step with st.
  - now apply Inv_all_no_driver.
  - now apply Inv_all_driver_cleanup.
  - now apply Inv_all_busy.
  - eapply Inv_all_link_del; eauto.
  - eapply Inv_all_device_del; eauto.
  - unfold device_unregister in H2.
    destruct (device_del st dev) as [s|] eqn:E; [|discriminate].
    injection H2 as <-. apply (Inv_all_put_device s (Some dev)).
    eapply Inv_all_device_del; eauto.
Qed.

Lemma Inv_all_init : Inv_all init_state.
Proof.
  constructor; [apply Inv_init | constructor | intros par c []].
Qed.

Lemma by_calls_Inv_all : forall st, reachable_by_calls st -> Inv_all st.
Proof.
  intros st H. induction H; [apply Inv_all_init | eapply Inv_all_call; eauto].
Qed.

Lemma reachable_by_calls_of_reachable : forall st,
  reachable st -> reachable_by_calls st.
Proof.
  intros st H. induction H; [constructor|].
  eapply by_calls_step; [eassumption|]. now apply call_step.
Qed.




(** * device_shutdown *)

Lemma list_last_app : forall l x, list_last (l ++ [x]) = Some x.
Proof.
  induction l as [|y l IH]; intros x; [reflexivity|].
  simpl. rewrite IH. destruct (l ++ [x]) eqn:E; [|reflexivity].
  destruct l; discriminate.
Qed.

Lemma list_last_none : forall l, list_last l = None -> l = [].
Proof.
  intros l. destruct l as [|x l] using rev_ind; [reflexivity|].
  rewrite list_last_app. discriminate.
Qed.

Lemma shutdown_one_frame : forall ops st dev,
  devices_kset (fst (shutdown_one ops st dev))
  = list_del dev (devices_kset st) /\
  dpm_list (fst (shutdown_one ops st dev)) = dpm_list st /\
  links (fst (shutdown_one ops st dev)) = links st /\
  dev_parent (fst (shutdown_one ops st dev)) = dev_parent st /\
  dev_p (fst (shutdown_one ops st dev)) = dev_p st /\
  dev_links_status (fst (shutdown_one ops st dev)) = dev_links_status st /\
  (forall d, dev_kref (fst (shutdown_one ops st dev)) d = dev_kref st d) /\
  snd (shutdown_one ops st dev) = shutdown_calls ops dev.
Proof.
  intros ops st dev. unfold shutdown_one.
  destruct (dev_parent st dev) as [par|]; simpl; repeat split;
    intros d; unfold upd;
    repeat match goal with
           | |- context [?x =? ?y] => destruct (Nat.eqb_spec x y)
           end; subst; try congruence; simpl; lia.
Qed.

Lemma device_shutdown_loop_spec : forall ops l fuel st calls,
  devices_kset st = l -> NoDup l -> length l < fuel ->
  exists st',
    device_shutdown_loop fuel ops st calls
    = Some (st', calls ++ flat_map (shutdown_calls ops) (rev l)) /\
    devices_kset st' = [] /\
    dpm_list st' = dpm_list st /\ links st' = links st /\
    dev_parent st' = dev_parent st /\ dev_p st' = dev_p st /\
    dev_links_status st' = dev_links_status st /\
    (forall d, dev_kref st' d = dev_kref st d).
Proof.
  intros ops l. induction l as [|x l IH] using rev_ind;
    intros fuel st calls Hk Hnd Hlen.
  - destruct fuel as [|n]; [simpl in Hlen; lia|]. simpl. rewrite Hk. simpl.
    exists st. rewrite app_nil_r. repeat split. exact Hk.
  - destruct fuel as [|n]; [simpl in Hlen; lia|].
    rewrite length_app in Hlen. simpl in Hlen.
    cbn [device_shutdown_loop]. rewrite Hk, list_last_app.
    destruct (shutdown_one_frame ops st x)
      as (F1 & F2 & F3 & F4 & F5 & F6 & F7 & F8).
    destruct (shutdown_one ops st x) as [st1 cs]. simpl in *.
    apply NoDup_remove in Hnd. rewrite app_nil_r in Hnd.
    destruct Hnd as [Hnd Hx].
    assert (Hk1 : devices_kset st1 = l).
    { rewrite F1, Hk, list_del_app, (list_del_notin x l Hx). simpl.
      rewrite Nat.eqb_refl. simpl. apply app_nil_r. }
    assert (Hlen1 : length l < n) by lia.
    destruct (IH n st1 (calls ++ cs) Hk1 Hnd Hlen1)
      as (st' & Hrun & G1 & G2 & G3 & G4 & G5 & G6 & G7).
    exists st'. rewrite Hrun, rev_app_distr. simpl.
    rewrite F8, <- app_assoc.
    repeat split; try congruence; intros d; now rewrite G7.
Qed.

(** X9 (device_shutdown). When devices_kset->list holds no device
    twice, device_shutdown ends (with fuel above the length of the
    list) and has then gone through the list from its end to its
    start: the callbacks called are those of the last device, then
    those of the one before it, and so on; for each device
    shutdown_pre of the class comes first, then the shutdown of the
    bus, or that of the driver if the bus has none. The list is empty
    at the end, and dpm_list, the links, the klists and all reference
    counts are as before. *)
Theorem device_shutdown_walks_backwards : forall ops fuel st,
  NoDup (devices_kset st) ->
  length (devices_kset st) < fuel ->
  exists st',
    device_shutdown fuel ops st
    = Some (st', flat_map (shutdown_calls ops) (rev (devices_kset st))) /\
    devices_kset st' = [] /\
    dpm_list st' = dpm_list st /\ links st' = links st /\
    dev_parent st' = dev_parent st /\ dev_p st' = dev_p st /\
    (forall d, dev_kref st' d = dev_kref st d).
Proof.
  intros ops fuel st Hnd Hlen.
  destruct (device_shutdown_loop_spec ops (devices_kset st) fuel st []
              eq_refl Hnd Hlen)
    as (st' & Hrun & G1 & G2 & G3 & G4 & G5 & G6 & G7).
  exists st'. unfold device_shutdown. rewrite Hrun. simpl.
  repeat split; assumption.
Qed.

Lemma device_shutdown_walks_backwards_witness :
  NoDup (devices_kset sample_state) /\
  length (devices_kset sample_state) < 4 /\
  exists st',
    device_shutdown 4 all_shutdown_ops sample_state
    = Some (st', flat_map (shutdown_calls all_shutdown_ops)
                   (rev (devices_kset sample_state))) /\
    devices_kset st' = [] /\
    dpm_list st' = dpm_list sample_state /\
    links st' = links sample_state /\
    dev_parent st' = dev_parent sample_state /\
    dev_p st' = dev_p sample_state /\
    (forall d, dev_kref st' d = dev_kref sample_state d).
Proof.
  assert (H1 : NoDup (devices_kset sample_state)).
  { vm_compute. repeat constructor; simpl; intuition lia. }
  assert (H2 : length (devices_kset sample_state) < 4) by (vm_compute; lia).
  split; [exact H1|]. split; [exact H2|].
  exact (device_shutdown_walks_backwards all_shutdown_ops 4 sample_state
           H1 H2).
Defined.

(** In the sample run (list 2, 0, 1, where 0 is a consumer of 2 and 1 a
    child of 0) the bus shutdown runs on 1, then 0, then 2. *)
Example sample_shutdown :
  option_map snd (device_shutdown 4 all_shutdown_ops sample_state)
  = Some [Bus_shutdown 1; Bus_shutdown 0; Bus_shutdown 2].
Proof. reflexivity. Qed.

Lemma called_on_shutdown_calls : forall ops d e,
  In e (shutdown_calls ops d) -> called_on e = d.
Proof.
  intros ops d e. unfold shutdown_calls. rewrite in_app_iff.
  destruct (has_class_shutdown_pre ops d), (has_bus_shutdown ops d),
    (has_driver_shutdown ops d); simpl; intuition (subst; reflexivity).
Qed.

Lemma flat_map_split : forall (A B : Type) (f : A -> list B) L pre e post,
  flat_map f L = pre ++ e :: post ->
  exists L1 x L2 a b,
    L = L1 ++ x :: L2 /\ f x = a ++ e :: b /\ post = b ++ flat_map f L2.
Proof.
  intros A B f L. induction L as [|x L IH]; intros pre e post H; simpl in H.
  - destruct pre; discriminate.
  - apply app_eq_app in H. destruct H as [m [[H1 H2]|[H1 H2]]].
    + destruct m as [|e0 m].
      * rewrite app_nil_r in H1. simpl in H2. symmetry in H2.
        destruct (IH [] e post H2) as (L1 & y & L2 & a & b & E1 & E2 & E3).
        exists (x :: L1), y, L2, a, b. repeat split; try assumption.
        simpl. now rewrite E1.
      * injection H2 as <- ->. exists [], x, L, pre, m. repeat split.
        exact H1.
    + destruct (IH m e post H2) as (L1 & y & L2 & a & b & E1 & E2 & E3).
      exists (x :: L1), y, L2, a, b. repeat split; try assumption.
      simpl. now rewrite E1.
Qed.

Lemma index_of_app_l : forall v A B,
  In v A -> index_of v (A ++ B) = index_of v A.
Proof.
  intros v A B. induction A as [|a A IH]; simpl; [tauto|].
  intros [->|Hin]; [now rewrite Nat.eqb_refl|].
  destruct (a =? v); [reflexivity|]. now rewrite IH.
Qed.

Lemma index_of_app_r : forall x A B,
  ~ In x A -> index_of x (A ++ x :: B) = length A.
Proof.
  intros x A B. induction A as [|a A IH]; simpl; intros Hn.
  - now rewrite Nat.eqb_refl.
  - destruct (Nat.eqb_spec a x) as [->|Hne]; [tauto|]. rewrite IH; tauto.
Qed.

(** In a list without duplicates, what stands behind [x] in the
    reversed list stands before it in the list. *)
Lemma rev_split_before : forall l L1 x L2 v,
  NoDup l -> rev l = L1 ++ x :: L2 -> In v L2 ->
  index_of v l < index_of x l.
Proof.
  intros l L1 x L2 v Hnd E Hv.
  assert (El : l = rev L2 ++ x :: rev L1).
  { rewrite <- (rev_involutive l), E, rev_app_distr. simpl.
    now rewrite <- app_assoc. }
  rewrite El in *. apply NoDup_remove_2 in Hnd.
  assert (Hx : ~ In x (rev L2)).
  { intros Hin. apply Hnd. apply in_or_app. now left. }
  rewrite index_of_app_r by exact Hx.
  rewrite index_of_app_l by (now apply -> in_rev).
  apply index_of_In. now apply -> in_rev.
Qed.

(** X10 (shutdown goes dependents first). When devices_kset->list
    holds no device twice and every device stands on it in front of
    its children and of its consumers, device_shutdown ends, and once
    it has called a shutdown callback on a device it calls none on a
    child of that device or on a consumer of one of its links:
    children are shut down before their parent and consumers before
    their suppliers. The order on the list is what registrations and
    device_link_add keep (C1, X8); after a device_move that has put a
    parent behind its child (X18) it does not hold, and device_shutdown
    then follows the list as it is. *)
Theorem shutdown_dependents_first : forall ops fuel st,
  NoDup (devices_kset st) ->
  ordered st ->
  length (devices_kset st) < fuel ->
  exists st' calls,
    device_shutdown fuel ops st = Some (st', calls) /\
    forall pre e post, calls = pre ++ e :: post ->
    forall v, In v (succs st (called_on e)) ->
    forall e', In e' post -> called_on e' <> v.
Proof.
  intros ops fuel st Hnd Hord Hlen.
  destruct (device_shutdown_loop_spec ops (devices_kset st) fuel st []
              eq_refl Hnd Hlen) as (st' & Hrun & _).
  exists st', (flat_map (shutdown_calls ops) (rev (devices_kset st))).
  split; [exact Hrun|].
  intros pre e post Hsplit v Hv e' He' Heq.
  destruct (flat_map_split _ _ _ _ _ _ _ Hsplit)
    as (L1 & x & L2 & a & b & EL & Ex & Epost).
  assert (Hex : called_on e = x).
  { apply (called_on_shutdown_calls ops). rewrite Ex.
    apply in_or_app. right. now left. }
  rewrite Hex in Hv. pose proof (Hord _ _ Hv) as Hlt.
  unfold lt_in in Hlt.
  rewrite Epost in He'. apply in_app_or in He'. destruct He' as [He'|He'].
  - assert (called_on e' = x).
    { apply (called_on_shutdown_calls ops). rewrite Ex.
      apply in_or_app. right. now right. }
    assert (Hvx : v = x) by congruence. rewrite Hvx in Hlt. lia.
  - apply in_flat_map in He'. destruct He' as (y & Hy & He').
    apply called_on_shutdown_calls in He'.
    assert (Hvy : v = y) by congruence. rewrite Hvy in Hlt.
    pose proof (rev_split_before _ _ _ _ y Hnd EL Hy). lia.
Qed.

Lemma shutdown_dependents_first_witness :
  NoDup (devices_kset sample_state) /\
  ordered sample_state /\
  length (devices_kset sample_state) < 4 /\
  exists st' calls,
    device_shutdown 4 all_shutdown_ops sample_state = Some (st', calls) /\
    forall pre e post, calls = pre ++ e :: post ->
    forall v, In v (succs sample_state (called_on e)) ->
    forall e', In e' post -> called_on e' <> v.
Proof.
  assert (H0 : NoDup (devices_kset sample_state))
    by exact (inv_nodup _ (reachable_Inv _ sample_state_reachable)).
  assert (H1 : ordered sample_state)
    by exact (inv_order _ (reachable_Inv _ sample_state_reachable)).
  assert (H2 : length (devices_kset sample_state) < 4) by (vm_compute; lia).
  split; [exact H0|]. split; [exact H1|]. split; [exact H2|].
  exact (shutdown_dependents_first all_shutdown_ops 4 sample_state H0 H1 H2).
Defined.

(** * The child iterators *)

Lemma for_each_child_loop_app :
  forall (T : Type) (fn : T -> dev_id -> option (T * Z)) xs ys s,
  for_each_child_loop fn s (xs ++ ys)
  = match for_each_child_loop fn s xs with
    | Some (s1, error) =>
        if nonzero error then Some (s1, error)
        else for_each_child_loop fn s1 ys
    | None => None
    end.
Proof.
  intros T fn xs ys. induction xs as [|x xs IH]; intros s; simpl.
  - reflexivity.
  - destruct (fn s x) as [[s1 e]|]; [|reflexivity].
    destruct (nonzero e) eqn:E; [now rewrite E|]. apply IH.
Qed.

Lemma for_each_child_loop_pure : forall (f : dev_id -> Z) cs,
  for_each_child_loop (pure_fn f) tt cs
  = Some (tt, match find (fun c => nonzero (f c)) cs with
              | Some c => f c
              | None => 0%Z
              end).
Proof.
  intros f cs. induction cs as [|c cs IH]; simpl; [reflexivity|].
  destruct (nonzero (f c)); [reflexivity|exact IH].
Qed.

Lemma nonzero_false : forall z, nonzero z = false <-> z = 0%Z.
Proof.
  intros z. unfold nonzero. rewrite negb_false_iff. apply Z.eqb_eq.
Qed.

Lemma find_nonzero_none : forall (f : dev_id -> Z) cs,
  find (fun c => nonzero (f c)) cs = None <-> (forall c, In c cs -> f c = 0%Z).
Proof.
  intros f cs. split.
  - intros H c Hc. apply nonzero_false. exact (find_none _ _ H c Hc).
  - intros H. destruct (find _ cs) as [c|] eqn:E; [|reflexivity].
    apply find_some in E. destruct E as [Hc Hn].
    rewrite (H c Hc) in Hn. discriminate.
Qed.

(** X11 (device_for_each_child). For a callback [f] without side
    effects, device_for_each_child returns [f] of the first child on
    the klist for which it is not 0, and 0 when there is none or the
    parent has no private part; device_for_each_child_reverse returns
    [f] of the last such child. So each of the two returns 0 exactly
    when [f] is 0 on every child. *)
Theorem device_for_each_child_result : forall st parent (f : dev_id -> Z),
  device_for_each_child st parent (pure_fn f) tt
  = Some (tt, match find (fun c => nonzero (f c)) (children st parent) with
              | Some c => f c
              | None => 0%Z
              end) /\
  device_for_each_child_reverse st parent (pure_fn f) tt
  = Some (tt, match find (fun c => nonzero (f c))
                         (rev (children st parent)) with
              | Some c => f c
              | None => 0%Z
              end) /\
  (device_for_each_child st parent (pure_fn f) tt = Some (tt, 0%Z) <->
   forall c, In c (children st parent) -> f c = 0%Z) /\
  (device_for_each_child_reverse st parent (pure_fn f) tt = Some (tt, 0%Z) <->
   forall c, In c (children st parent) -> f c = 0%Z).
Proof.
  intros st parent f.
  assert (H1 : device_for_each_child st parent (pure_fn f) tt
               = Some (tt, match find (fun c => nonzero (f c))
                                      (children st parent) with
                           | Some c => f c
                           | None => 0%Z
                           end)).
  { unfold device_for_each_child, children.
    destruct (dev_p st parent); [apply for_each_child_loop_pure|reflexivity]. }
  assert (H2 : device_for_each_child_reverse st parent (pure_fn f) tt
               = Some (tt, match find (fun c => nonzero (f c))
                                      (rev (children st parent)) with
                           | Some c => f c
                           | None => 0%Z
                           end)).
  { unfold device_for_each_child_reverse, children.
    destruct (dev_p st parent); [apply for_each_child_loop_pure|reflexivity]. }
  assert (Hz : forall cs,
            Some (tt, match find (fun c => nonzero (f c)) cs with
                      | Some c => f c
                      | None => 0%Z
                      end) = Some (tt, 0%Z) <->
            (forall c, In c cs -> f c = 0%Z)).
  { intros cs. rewrite <- find_nonzero_none.
    destruct (find _ cs) as [c|] eqn:E; split; try reflexivity;
      try discriminate.
    intros H. injection H as H. apply find_some in E.
    destruct E as [_ E]. apply nonzero_true in E. contradiction. }
  split; [exact H1|]. split; [exact H2|]. split.
  - rewrite H1. apply Hz.
  - rewrite H2. rewrite Hz. split; intros H c Hc; apply H.
    + now apply -> in_rev.
    + now apply in_rev.
Qed.

Lemma find_child_loop_spec : forall st mtch cs,
  match snd (find_child_loop st mtch cs) with
  | Some c =>
      exists pre post,
        cs = pre ++ c :: post /\
        (forall x, In x pre -> mtch x = 0%Z) /\ mtch c <> 0%Z /\
        fst (find_child_loop st mtch cs) = get_device st (Some c)
  | None =>
      fst (find_child_loop st mtch cs) = st /\
      forall x, In x cs -> mtch x = 0%Z
  end.
Proof.
  intros st mtch cs. induction cs as [|c cs IH]; simpl.
  - split; [reflexivity|]. intros x [].
  - destruct (nonzero (mtch c)) eqn:E; simpl.
    + exists [], cs. repeat split.
      * intros x [].
      * now apply nonzero_true.
    + apply nonzero_false in E.
      destruct (snd (find_child_loop st mtch cs)) as [d|].
      * destruct IH as (pre & post & E1 & E2 & E3 & E4).
        exists (c :: pre), post. repeat split; try assumption.
        -- simpl. now rewrite E1.
        -- intros x [<-|Hx]; [exact E|now apply E2].
      * destruct IH as [E1 E2]. split; [exact E1|].
        intros x [<-|Hx]; [exact E|now apply E2].
Qed.

(** X12 (device_find_child). On a parent with a private part,
    device_find_child returns the first child on the klist for which
    [match] is not 0, having taken one reference on it, which a
    put_device of the caller gives back; nothing else changes. When no
    child matches it returns NULL and changes nothing, as it does for a
    NULL parent. *)
Theorem device_find_child_result : forall st par mtch,
  dev_p st par <> None ->
  exists st' r,
    device_find_child st (Some par) mtch = Some (st', r) /\
    match r with
    | Some c =>
        (exists pre post,
           children st par = pre ++ c :: post /\
           (forall x, In x pre -> mtch x = 0%Z) /\ mtch c <> 0%Z) /\
        st' = get_device st (Some c) /\
        dev_kref st' c = S (dev_kref st c) /\
        (forall d, dev_kref (put_device st' (Some c)) d = dev_kref st d)
    | None =>
        st' = st /\ forall x, In x (children st par) -> mtch x = 0%Z
    end.
Proof.
  intros st par mtch Hp. unfold device_find_child, children.
  destruct (dev_p st par) as [cs|]; [|congruence].
  exists (fst (find_child_loop st mtch cs)), (snd (find_child_loop st mtch cs)).
  split; [now destruct (find_child_loop st mtch cs)|].
  pose proof (find_child_loop_spec st mtch cs) as H.
  destruct (snd (find_child_loop st mtch cs)) as [c|]; [|exact H].
  destruct H as (pre & post & E1 & E2 & E3 & E4). rewrite E4.
  split; [now exists pre, post|]. split; [reflexivity|].
  simpl. rewrite upd_same. split; [reflexivity|].
  intros d. unfold upd. destruct (d =? c) eqn:E; [|reflexivity].
  apply Nat.eqb_eq in E. now subst.
Qed.

Lemma device_find_child_result_witness :
  dev_p three_devices 0 <> None /\
  exists st' r,
    device_find_child three_devices (Some 0) (fun c => Z.of_nat c)
    = Some (st', r) /\
    match r with
    | Some c =>
        (exists pre post,
           children three_devices 0 = pre ++ c :: post /\
           (forall x, In x pre -> Z.of_nat x = 0%Z) /\ Z.of_nat c <> 0%Z) /\
        st' = get_device three_devices (Some c) /\
        dev_kref st' c = S (dev_kref three_devices c) /\
        (forall d, dev_kref (put_device st' (Some c)) d
                   = dev_kref three_devices d)
    | None =>
        st' = three_devices /\
        forall x, In x (children three_devices 0) -> Z.of_nat x = 0%Z
    end.
Proof.
  assert (H1 : dev_p three_devices 0 <> None) by (vm_compute; discriminate).
  split; [exact H1|].
  exact (device_find_child_result three_devices 0 (fun c => Z.of_nat c) H1).
Defined.

(** device_for_each_child tests [parent->p] and device_find_child does
    not: on a device that was never registered the first returns 0 and
    the second runs its iterator on a NULL private part. *)
Remark find_child_without_private_part : forall st par mtch,
  dev_p st par = None ->
  device_for_each_child st par (pure_fn mtch) tt = Some (tt, 0%Z) /\
  device_find_child st (Some par) mtch = None /\
  device_find_child st None mtch = Some (st, None).
Proof.
  intros st par mtch H. unfold device_for_each_child, device_find_child.
  now rewrite H.
Qed.

(** * Taking devices offline *)

Lemma for_each_child_loop_opt : forall (g : dev_id -> option Z) cs,
  match for_each_child_loop
          (fun (s : unit) c => option_map (fun r => (s, r)) (g c)) tt cs with
  | Some (_, ret) =>
      (ret = 0%Z -> forall c, In c cs -> g c = Some 0%Z) /\
      (ret <> 0%Z -> exists c, In c cs /\ g c = Some ret)
  | None => exists c, In c cs /\ g c = None
  end.
Proof.
  intros g cs. induction cs as [|c cs IH]; simpl.
  - split; [intros _ c []|congruence].
  - destruct (g c) as [r|] eqn:E; simpl.
    + destruct (nonzero r) eqn:En.
      * apply nonzero_true in En. split; [congruence|]. intros _.
        exists c. auto.
      * apply nonzero_false in En. subst r.
        destruct (for_each_child_loop _ tt cs) as [[u ret]|].
        -- destruct IH as [I1 I2]. split.
           ++ intros Hr x [<-|Hx]; [exact E|now apply I1].
           ++ intros Hr. destruct (I2 Hr) as (x & Hx & Ex). exists x. auto.
        -- destruct IH as (x & Hx & Ex). exists x. auto.
    + exists c. auto.
Qed.

Lemma check_offline_sound : forall fuel st hp dev r,
  device_check_offline fuel st hp dev = Some r ->
  (r = 0%Z /\ ~ online_below st hp dev) \/
  (r = (- EBUSY)%Z /\ online_below st hp dev).
Proof.
  induction fuel as [|n IH]; intros st hp dev r H; [discriminate|].
  simpl in H. unfold device_for_each_child in H.
  pose proof (for_each_child_loop_opt (device_check_offline n st hp)
                (children st dev)) as L.
  unfold children in L.
  destruct (dev_p st dev) as [cs|] eqn:Ep.
  - destruct (for_each_child_loop _ tt cs) as [[u ret]|]; [|discriminate].
    destruct L as [L1 L2].
    destruct (nonzero ret) eqn:En.
    + injection H as <-. apply nonzero_true in En.
      destruct (L2 En) as (c & Hc & Ec).
      destruct (IH _ _ _ _ Ec) as [[E0 _]|[E1 (d & Hd & Hs & Ho)]];
        [contradiction|].
      right. split; [exact E1|]. exists d. split; [|auto].
      apply reach_step with c; [|exact Hd]. unfold children. now rewrite Ep.
    + apply nonzero_false in En. subst ret. specialize (L1 eq_refl).
      destruct (device_supports_offline hp dev && negb (dev_offline hp dev))
        eqn:Ed; injection H as <-.
      * right. split; [reflexivity|]. exists dev.
        apply andb_true_iff in Ed. destruct Ed as [Hs Ho].
        apply negb_true_iff in Ho. split; [apply reach_refl|auto].
      * left. split; [reflexivity|]. intros (d & Hd & Hs & Ho).
        apply reach_inv in Hd. destruct Hd as [<-|(c & Hc & Hd)].
        -- rewrite Hs, Ho in Ed. discriminate.
        -- unfold children in Hc. rewrite Ep in Hc.
           destruct (IH _ _ _ _ (L1 c Hc)) as [[_ Hn]|[E1 _]].
           ++ apply Hn. exists d. auto.
           ++ unfold EBUSY in E1. discriminate.
  - simpl in H.
    destruct (device_supports_offline hp dev && negb (dev_offline hp dev))
      eqn:Ed; injection H as <-.
    + right. split; [reflexivity|]. exists dev.
      apply andb_true_iff in Ed. destruct Ed as [Hs Ho].
      apply negb_true_iff in Ho. split; [apply reach_refl|auto].
    + left. split; [reflexivity|]. intros (d & Hd & Hs & Ho).
      apply reach_inv in Hd. destruct Hd as [<-|(c & Hc & Hd)].
      * rewrite Hs, Ho in Ed. discriminate.
      * unfold children in Hc. now rewrite Ep in Hc.
Qed.

Lemma check_offline_total : forall st rk N, ranked (children st) rk N ->
  forall fuel hp dev, rk dev <= N -> N < fuel + rk dev ->
  device_check_offline fuel st hp dev <> None.
Proof.
  intros st rk N Hrk. induction fuel as [|n IH]; intros hp dev H1 H2;
    [lia|].
  simpl. unfold device_for_each_child.
  pose proof (for_each_child_loop_opt (device_check_offline n st hp)
                (children st dev)) as L.
  unfold children in L.
  destruct (dev_p st dev) as [cs|] eqn:Ep.
  - destruct (for_each_child_loop _ tt cs) as [[u ret]|].
    + destruct (nonzero ret); discriminate.
    + destruct L as (c & Hc & Ec). exfalso.
      assert (Hin : In c (children st dev))
        by (unfold children; now rewrite Ep).
      destruct (Hrk _ _ Hin) as [R1 R2].
      apply (IH hp c); [exact R2| lia | exact Ec].
  - simpl. discriminate.
Qed.

Lemma children_ordered_ranked : forall st,
  children_ordered st ->
  ranked (children st) (fun d => index_of d (devices_kset st))
         (length (devices_kset st)).
Proof.
  intros st Ho u v Hin. split; [exact (Ho _ _ Hin) | apply index_of_le].
Qed.

(** X13 (device_offline refuses). device_offline returns -EPERM and
    changes nothing when offlining is disabled for the device. When
    every device stands on devices_kset->list in front of its children
    (so that the klists form a forest, as registrations leave them; a
    device_move can make a device a child of its own descendant, and
    the recursion of device_check_offline then has no end), it
    otherwise returns, with fuel above the number of registered
    devices, and if some device below one of the children supports
    offlining and is not offline it returns -EBUSY, the bus callback is
    not called and nothing changes. Only when no such device is left
    does the result depend on the device itself: 1 if it is offline
    already, the non-zero result of the bus callback if that fails, and
    0 with the device marked offline otherwise; 0 and no change if the
    device does not support offlining. *)
Theorem device_offline_outcome : forall fuel st hp dev r,
  children_ordered st ->
  length (devices_kset st) < fuel ->
  (dev_offline_disabled hp dev = true ->
   device_offline fuel st hp dev r = Some (hp, (- EPERM)%Z)) /\
  (dev_offline_disabled hp dev = false ->
   (exists c, In c (children st dev) /\ online_below st hp c) ->
   device_offline fuel st hp dev r = Some (hp, (- EBUSY)%Z)) /\
  (dev_offline_disabled hp dev = false ->
   (forall c, In c (children st dev) -> ~ online_below st hp c) ->
   device_offline fuel st hp dev r
   = Some (if device_supports_offline hp dev
           then if dev_offline hp dev then (hp, 1%Z)
                else if nonzero r then (hp, r)
                else (set_offline hp dev true, 0%Z)
           else (hp, 0%Z))).
Proof.
  intros fuel st hp dev r Hord Hlen.
  pose proof (children_ordered_ranked st Hord) as Hrk.
  assert (Htot : forall c, device_check_offline fuel st hp c <> None).
  { intros c. apply (check_offline_total st _ _ Hrk).
    - apply index_of_le.
    - lia. }
  pose proof (for_each_child_loop_opt (device_check_offline fuel st hp)
                (children st dev)) as L.
  split; [|split].
  - intros Hd. unfold device_offline. now rewrite Hd.
  - intros Hd (c & Hc & Hon). unfold device_offline, device_for_each_child.
    rewrite Hd. unfold children in L, Hc.
    destruct (dev_p st dev) as [cs|]; [|contradiction].
    destruct (for_each_child_loop _ tt cs) as [[u ret]|].
    + destruct L as [L1 L2]. destruct (nonzero ret) eqn:En.
      * apply nonzero_true in En. destruct (L2 En) as (x & Hx & Ex).
        destruct (check_offline_sound _ _ _ _ _ Ex) as [[E0 _]|[E1 _]];
          [contradiction|]. now rewrite E1.
      * apply nonzero_false in En. specialize (L1 En c Hc).
        destruct (check_offline_sound _ _ _ _ _ L1) as [[_ Hn]|[E1 _]];
          [contradiction|]. unfold EBUSY in E1. discriminate.
    + destruct L as (x & _ & Ex). now apply Htot in Ex.
  - intros Hd Hnone. unfold device_offline, device_for_each_child.
    rewrite Hd. unfold children in L, Hnone.
    destruct (dev_p st dev) as [cs|].
    + destruct (for_each_child_loop _ tt cs) as [[u ret]|].
      * destruct L as [L1 L2]. destruct (nonzero ret) eqn:En.
        -- apply nonzero_true in En. destruct (L2 En) as (x & Hx & Ex).
           destruct (check_offline_sound _ _ _ _ _ Ex) as [[E0 _]|[_ Hon]];
             [contradiction|]. exfalso. exact (Hnone x Hx Hon).
        -- apply nonzero_false in En. subst ret.
           destruct (device_supports_offline hp dev); [|reflexivity].
           destruct (dev_offline hp dev); [reflexivity|].
           destruct (nonzero r) eqn:Enr; [reflexivity|].
           apply nonzero_false in Enr. now subst r.
      * destruct L as (x & _ & Ex). now apply Htot in Ex.
    + simpl. destruct (device_supports_offline hp dev); [|reflexivity].
      destruct (dev_offline hp dev); [reflexivity|].
      destruct (nonzero r) eqn:Enr; [reflexivity|].
      apply nonzero_false in Enr. now subst r.
Qed.

Lemma device_offline_outcome_witness :
  children_ordered three_devices /\
  length (devices_kset three_devices) < 4 /\
  (dev_offline_disabled all_online 0 = true ->
   device_offline 4 three_devices all_online 0 0
   = Some (all_online, (- EPERM)%Z)) /\
  (dev_offline_disabled all_online 0 = false ->
   (exists c, In c (children three_devices 0) /\
              online_below three_devices all_online c) ->
   device_offline 4 three_devices all_online 0 0
   = Some (all_online, (- EBUSY)%Z)) /\
  (dev_offline_disabled all_online 0 = false ->
   (forall c, In c (children three_devices 0) ->
              ~ online_below three_devices all_online c) ->
   device_offline 4 three_devices all_online 0 0
   = Some (if device_supports_offline all_online 0
           then if dev_offline all_online 0 then (all_online, 1%Z)
                else if nonzero 0 then (all_online, 0%Z)
                else (set_offline all_online 0 true, 0%Z)
           else (all_online, 0%Z))).
Proof.
  assert (H1 : children_ordered three_devices).
  { intros par c Hin.
    destruct par as [|par]; [|destruct par as [|[|par]]; destruct Hin].
    destruct Hin as [<-|[]]. vm_compute. lia. }
  assert (H2 : length (devices_kset three_devices) < 4) by (vm_compute; lia).
  split; [exact H1|]. split; [exact H2|].
  exact (device_offline_outcome 4 three_devices all_online 0 0%Z H1 H2).
Defined.

(** In the sample run device 0 cannot go offline while its child 1 is
    online, and can once the child is offline. *)
Example offline_parent_after_child :
  device_offline 4 three_devices all_online 0 0
  = Some (all_online, (- EBUSY)%Z) /\
  device_offline 4 three_devices all_online 1 0
  = Some (set_offline all_online 1 true, 0%Z) /\
  option_map snd
    (device_offline 4 three_devices (set_offline all_online 1 true) 0 0)
  = Some 0%Z.
Proof. repeat split. Qed.

(** X14 (offline, then online). When device_offline has returned 0,
    a device_online whose bus callback succeeds returns 0 as well and
    every device is offline or not as it was before the device_offline.
    device_online of a device that supports offlining and is not
    offline returns 1 and changes nothing. *)
Theorem offline_online_round_trip : forall fuel st hp dev r hp',
  device_offline fuel st hp dev r = Some (hp', 0%Z) ->
  snd (device_online hp' dev 0) = 0%Z /\
  (forall d, dev_offline (fst (device_online hp' dev 0)) d
             = dev_offline hp d) /\
  dev_offline_disabled (fst (device_online hp' dev 0))
  = dev_offline_disabled hp /\
  device_supports_offline (fst (device_online hp' dev 0))
  = device_supports_offline hp /\
  (device_supports_offline hp dev = true ->
   forall r', device_online (fst (device_online hp' dev 0)) dev r'
              = (fst (device_online hp' dev 0), 1%Z)).
Proof.
  intros fuel st hp dev r hp' H. unfold device_offline in H.
  destruct (dev_offline_disabled hp dev); [discriminate|].
  destruct (device_for_each_child _ _ _ _) as [[u ret]|]; [|discriminate].
  destruct (nonzero ret) eqn:En.
  { injection H as _ H. apply nonzero_true in En. contradiction. }
  unfold device_online.
  destruct (device_supports_offline hp dev) eqn:Es.
  - destruct (dev_offline hp dev) eqn:Eo; [discriminate|].
    destruct (nonzero r) eqn:Er.
    { injection H as _ H. apply nonzero_true in Er. contradiction. }
    injection H as <- _. simpl. rewrite Es, upd_same. simpl.
    repeat split.
    + intros d. unfold upd. destruct (d =? dev) eqn:E; [|reflexivity].
      apply Nat.eqb_eq in E. now subst.
    + intros _ r'. rewrite Es. simpl. now rewrite upd_same.
  - injection H as <- _. rewrite Es. simpl. repeat split. congruence.
Qed.

Lemma offline_online_round_trip_witness :
  device_offline 4 three_devices all_online 1 0
  = Some (set_offline all_online 1 true, 0%Z) /\
  snd (device_online (set_offline all_online 1 true) 1 0) = 0%Z /\
  (forall d, dev_offline (fst (device_online (set_offline all_online 1 true)
                                 1 0)) d
             = dev_offline all_online d) /\
  dev_offline_disabled (fst (device_online (set_offline all_online 1 true)
                               1 0))
  = dev_offline_disabled all_online /\
  device_supports_offline (fst (device_online (set_offline all_online 1 true)
                                  1 0))
  = device_supports_offline all_online /\
  (device_supports_offline all_online 1 = true ->
   forall r', device_online (fst (device_online (set_offline all_online 1 true)
                                    1 0)) 1 r'
              = (fst (device_online (set_offline all_online 1 true) 1 0),
                 1%Z)).
Proof.
  assert (H1 : device_offline 4 three_devices all_online 1 0
               = Some (set_offline all_online 1 true, 0%Z)) by reflexivity.
  split; [exact H1|].
  exact (offline_online_round_trip 4 three_devices all_online 1 0%Z _ H1).
Defined.

(** * device_move *)

Lemma In_add_after : forall a b l x,
  In b l -> (In x (list_add_after a b l) <-> x = a \/ In x l).
Proof.
  intros a b l x. induction l as [|y l IH]; simpl; [tauto|].
  intros [->|Hb].
  - rewrite Nat.eqb_refl. simpl. intuition.
  - destruct (y =? b); simpl; [intuition|]. rewrite (IH Hb). intuition.
Qed.

Lemma add_after_split : forall a b l,
  In b l -> exists A B, l = A ++ b :: B /\ ~ In b A /\
                        list_add_after a b l = A ++ b :: a :: B.
Proof.
  intros a b l. induction l as [|y l IH]; simpl; [tauto|]. intros Hb.
  destruct (Nat.eqb_spec y b) as [->|Hne].
  - exists [], l. simpl. auto.
  - destruct Hb as [Hb|Hb]; [contradiction|].
    destruct (IH Hb) as (A & B & E1 & E2 & E3).
    exists (y :: A), B. simpl. rewrite E1 at 1. rewrite E3.
    repeat split. intros [H|H]; [contradiction|auto].
Qed.

Lemma add_before_split : forall a b l,
  In b l -> exists A B, l = A ++ b :: B /\ ~ In b A /\
                        list_add_before a b l = A ++ a :: b :: B.
Proof.
  intros a b l. induction l as [|y l IH]; simpl; [tauto|]. intros Hb.
  destruct (Nat.eqb_spec y b) as [->|Hne].
  - exists [], l. simpl. auto.
  - destruct Hb as [Hb|Hb]; [contradiction|].
    destruct (IH Hb) as (A & B & E1 & E2 & E3).
    exists (y :: A), B. simpl. rewrite E1 at 1. rewrite E3.
    repeat split. intros [H|H]; [contradiction|auto].
Qed.

(** X15 (device_move gives up early). device_move of a NULL device
    returns -EINVAL. When get_device_parent or the first kobject_move
    fails, device_move returns that error and has changed nothing:
    parent pointers, klists, both ordering lists, links and all
    reference counts are as before. *)
Theorem device_move_fails_early : forall st d np order env,
  (move_parent_r env <? 0)%Z = true \/ nonzero (kobject_move_r env) = true ->
  device_move st None np order env = Some (st, (- EINVAL)%Z) /\
  exists st' err,
    device_move st (Some d) np order env = Some (st', err) /\
    err <> 0%Z /\
    (err = move_parent_r env \/ err = kobject_move_r env) /\
    dev_parent st' = dev_parent st /\ dev_p st' = dev_p st /\
    devices_kset st' = devices_kset st /\ dpm_list st' = dpm_list st /\
    links st' = links st /\
    (forall x, dev_kref st' x = dev_kref st x).
Proof.
  intros st d np order env H. split; [reflexivity|].
  unfold device_move, move_fail, move_out.
  assert (Hk : forall x,
            dev_kref (put_device
                        (put_device (get_device (get_device st (Some d)) np)
                                    np) (Some d)) x = dev_kref st x).
  { intros x. destruct np as [n|]; simpl; unfold upd;
      repeat match goal with
             | |- context [?a =? ?b] => destruct (Nat.eqb_spec a b)
             end; subst; try congruence; simpl; lia. }
  destruct (move_parent_r env <? 0)%Z eqn:E1.
  - eexists _, _. split; [reflexivity|]. apply Z.ltb_lt in E1.
    split; [lia|]. split; [now left|].
    destruct np; repeat split; try exact Hk.
  - destruct H as [H|H]; [discriminate|]. rewrite H.
    eexists _, _. split; [reflexivity|]. split; [now apply nonzero_true|].
    split; [now right|].
    destruct np; repeat split; try exact Hk.
Qed.

Lemma move_order_lists : forall st d np order,
  np <> d ->
  (order = DPM_ORDER_DEV_AFTER_PARENT ->
   In np (devices_kset st) /\ In np (dpm_list st)) ->
  (order = DPM_ORDER_PARENT_BEFORE_DEV ->
   In d (devices_kset st) /\ In d (dpm_list st)) ->
  exists st',
    move_order st d (Some np) order = Some st' /\
    devices_kset st' = moved_list order d np (devices_kset st) /\
    dpm_list st' = moved_list order d np (dpm_list st) /\
    dev_parent st' = dev_parent st /\ dev_p st' = dev_p st /\
    dev_kref st' = dev_kref st /\ links st' = links st /\
    dev_links_status st' = dev_links_status st /\
    next_link st' = next_link st.
Proof.
  intros st d np order Hne Ha Hb. destruct order; simpl.
  - exists st. repeat split.
  - destruct (Ha eq_refl) as [H1 H2].
    unfold device_pm_move_after, devices_kset_move_after, list_move_after.
    apply mem_In in H1, H2.
    assert (E : (d =? np) = false) by (apply Nat.eqb_neq; congruence).
    rewrite E, H2. simpl. rewrite H1. simpl.
    eexists. split; [reflexivity|]. repeat split.
  - destruct (Hb eq_refl) as [H1 H2].
    unfold device_pm_move_before, devices_kset_move_before, list_move_before.
    apply mem_In in H1, H2.
    assert (E : (np =? d) = false) by (apply Nat.eqb_neq; congruence).
    rewrite E, H2. simpl. rewrite H1. simpl.
    eexists. split; [reflexivity|]. repeat split.
  - eexists. split; [reflexivity|]. repeat split.
Qed.

Ltac move_order_step Hne Ha Hb :=
  match goal with
  | |- context [move_order ?s ?d (Some ?np) ?order] =>
      let st5 := fresh "st5" in
      let Hmo := fresh "Hmo" in
      destruct (move_order_lists s d np order Hne Ha Hb)
        as (st5 & Hmo & ?L1 & ?L2 & ?L3 & ?L4 & ?L5 & ?L6 & ?L7 & ?L8);
      rewrite Hmo; eexists; split; [reflexivity|];
      simpl in L1, L2, L3, L4, L5, L6 |- *;
      rewrite L1, L2, L3, L6;
      split; [apply upd_same|];
      split; [intros x Hx; now apply upd_other|]
  end.

(** The state after a device_move that meets no error. Of the
    reference counts only those of the device itself and of the devices
    other than the two parents are stated: kobject_move, which is not
    followed, hands the reference the kobject holds on its parent from
    the old parent to the new one. *)
Lemma device_move_success : forall st d np order env,
  (move_parent_r env <? 0)%Z = false ->
  kobject_move_r env = 0%Z ->
  has_class env = false \/ create_link_r env = 0%Z ->
  dev_p st d <> None -> dev_p st np <> None ->
  np <> d -> dev_parent st d <> Some d ->
  (order = DPM_ORDER_DEV_AFTER_PARENT ->
   In np (devices_kset st) /\ In np (dpm_list st)) ->
  (order = DPM_ORDER_PARENT_BEFORE_DEV ->
   In d (devices_kset st) /\ In d (dpm_list st)) ->
  exists st',
    device_move st (Some d) (Some np) order env = Some (st', 0%Z) /\
    dev_parent st' d = Some np /\
    (forall x, x <> d -> dev_parent st' x = dev_parent st x) /\
    (forall x, children st' x = moved_children st d (dev_parent st d) np x) /\
    devices_kset st' = moved_list order d np (devices_kset st) /\
    dpm_list st' = moved_list order d np (dpm_list st) /\
    links st' = links st /\
    dev_kref st' d = match dev_parent st d with
                     | Some _ => dev_kref st d
                     | None => S (dev_kref st d)
                     end /\
    (forall x, x <> d -> x <> np -> dev_parent st d <> Some x ->
               dev_kref st' x = dev_kref st x).
Proof.
  intros st d np order env H1 H2 H3 Hd Hn Hne Hself Ha Hb.
  unfold device_move. rewrite H1, H2.
  assert (H3' : has_class env
                && nonzero (device_move_class_links (Some np) env) = false).
  { simpl. destruct H3 as [-> | ->]; [reflexivity|apply andb_false_r]. }
  rewrite H3'. cbn [nonzero Z.eqb negb].
  destruct (dev_p st d) as [cs_d|] eqn:Ed; [|congruence].
  destruct (dev_p st np) as [cs_n|] eqn:En; [|congruence].
  assert (End : (np =? d) = false) by (apply Nat.eqb_neq; congruence).
  assert (Edn : (d =? np) = false) by (apply Nat.eqb_neq; congruence).
  cbn -[move_order list_del list_add_tail knode_remove knode_add move_out
        put_device].
  destruct (dev_parent st d) as [op|] eqn:Eop.
  - assert (Eod : (op =? d) = false) by (apply Nat.eqb_neq; congruence).
    assert (Edo : (d =? op) = false) by (apply Nat.eqb_neq; congruence).
    unfold knode_remove, klist_del, knode_add, klist_add_tail, move_out.
    simpl. rewrite Ed. simpl. unfold upd at 1. rewrite Edo, Ed.
    unfold upd at 1.
    destruct (Nat.eqb_spec np op) as [Hno|Hno].
    + subst op. rewrite En. simpl option_map. cbv iota.
      move_order_step Hne Ha Hb.
      split.
      { intros x. unfold children. simpl. rewrite L4.
        unfold moved_children, children. unfold upd.
        destruct (Nat.eqb_spec x np) as [->|Hxn]; [now rewrite En|].
        reflexivity. }
      repeat split.
      * rewrite L5. unfold upd. rewrite !Nat.eqb_refl, ?Edo, ?Edn. simpl.
        rewrite ?Nat.eqb_refl. reflexivity.
      * intros x Hxd Hxn Hxo. rewrite L5. unfold upd.
        destruct (Nat.eqb_spec x d); [congruence|].
        destruct (Nat.eqb_spec x np); [congruence|]. reflexivity.
    + rewrite En.
      assert (Eon : (op =? np) = false) by (apply Nat.eqb_neq; congruence).
      assert (Eno : (np =? op) = false) by (apply Nat.eqb_neq; congruence).
      move_order_step Hne Ha Hb.
      split.
      { intros x. unfold children. simpl. rewrite L4.
        unfold moved_children, children. unfold upd.
        destruct (Nat.eqb_spec x np) as [->|Hxn].
        - now rewrite Eno, En.
        - destruct (Nat.eqb_spec x op) as [->|Hxo]; [|reflexivity].
          now destruct (dev_p st op). }
      repeat split.
      * rewrite L5. unfold upd. rewrite !Nat.eqb_refl, ?Edo, ?Edn. simpl.
        rewrite ?Nat.eqb_refl. reflexivity.
      * intros x Hxd Hxn Hxo. rewrite L5. unfold upd.
        destruct (Nat.eqb_spec x d); [congruence|].
        destruct (Nat.eqb_spec x np); [congruence|].
        destruct (Nat.eqb_spec x op); [congruence|]. reflexivity.
  - unfold knode_remove, klist_del, knode_add, klist_add_tail, move_out.
    simpl. rewrite Ed, En.
    move_order_step Hne Ha Hb.
    split.
    { intros x. unfold children. simpl. rewrite L4.
      unfold moved_children, children. unfold upd.
      destruct (x =? np) eqn:Exn; [|reflexivity].
      apply Nat.eqb_eq in Exn. subst x. now rewrite En. }
    repeat split.
    + rewrite L5. unfold upd. rewrite !Nat.eqb_refl, ?Edn. simpl.
      rewrite ?Nat.eqb_refl. reflexivity.
    + intros x Hxd Hxn _. rewrite L5. unfold upd.
      destruct (Nat.eqb_spec x d); [congruence|].
      destruct (Nat.eqb_spec x np); [congruence|]. reflexivity.
Qed.

(** X16 (device_move reparents). When nothing outside the graph fails,
    the device and the new parent have their private parts and the
    devices the chosen order is relative to are on the lists,
    device_move returns 0 and: the parent pointer of the device names
    the new parent; the device has left the klist of the old parent and
    is the last entry of the klist of the new one; the device holds
    one reference more only if it was on no klist before, and the count
    of every device other than the old and the new parent is what it
    was (nothing is said of the counts of the two parents, which
    kobject_move changes as well); the links are untouched; and each of
    the two lists has been changed as the order says and in no other
    way. *)
Theorem device_move_reparents : forall st d np order env,
  (move_parent_r env <? 0)%Z = false ->
  kobject_move_r env = 0%Z ->
  has_class env = false \/ create_link_r env = 0%Z ->
  dev_p st d <> None -> dev_p st np <> None ->
  np <> d -> dev_parent st d <> Some d ->
  (order = DPM_ORDER_DEV_AFTER_PARENT ->
   In np (devices_kset st) /\ In np (dpm_list st)) ->
  (order = DPM_ORDER_PARENT_BEFORE_DEV ->
   In d (devices_kset st) /\ In d (dpm_list st)) ->
  exists st',
    device_move st (Some d) (Some np) order env = Some (st', 0%Z) /\
    dev_parent st' d = Some np /\
    (forall x, x <> d -> dev_parent st' x = dev_parent st x) /\
    (forall x, children st' x = moved_children st d (dev_parent st d) np x) /\
    devices_kset st' = moved_list order d np (devices_kset st) /\
    dpm_list st' = moved_list order d np (dpm_list st) /\
    links st' = links st /\
    dev_kref st' d = match dev_parent st d with
                     | Some _ => dev_kref st d
                     | None => S (dev_kref st d)
                     end /\
    (forall x, x <> d -> x <> np -> dev_parent st d <> Some x ->
               dev_kref st' x = dev_kref st x).
Proof.
  intros st d np order env H1 H2 H3 Hd Hn Hne Hself Ha Hb.
  exact (device_move_success st d np order env H1 H2 H3 Hd Hn Hne Hself
           Ha Hb).
Qed.

Lemma device_move_fails_early_witness :
  ((move_parent_r (mk_move_env 0 (-12) false 0 0) <? 0)%Z = true \/
   nonzero (kobject_move_r (mk_move_env 0 (-12) false 0 0)) = true) /\
  device_move three_devices None (Some 2) DPM_ORDER_DEV_LAST
    (mk_move_env 0 (-12) false 0 0)
  = Some (three_devices, (- EINVAL)%Z) /\
  exists st' err,
    device_move three_devices (Some 1) (Some 2) DPM_ORDER_DEV_LAST
      (mk_move_env 0 (-12) false 0 0) = Some (st', err) /\
    err <> 0%Z /\
    (err = move_parent_r (mk_move_env 0 (-12) false 0 0) \/
     err = kobject_move_r (mk_move_env 0 (-12) false 0 0)) /\
    dev_parent st' = dev_parent three_devices /\
    dev_p st' = dev_p three_devices /\
    devices_kset st' = devices_kset three_devices /\
    dpm_list st' = dpm_list three_devices /\
    links st' = links three_devices /\
    (forall x, dev_kref st' x = dev_kref three_devices x).
Proof.
  assert (H : (move_parent_r (mk_move_env 0 (-12) false 0 0) <? 0)%Z = true \/
              nonzero (kobject_move_r (mk_move_env 0 (-12) false 0 0)) = true)
    by (right; reflexivity).
  split; [exact H|].
  exact (device_move_fails_early three_devices 1 (Some 2) DPM_ORDER_DEV_LAST
           (mk_move_env 0 (-12) false 0 0) H).
Defined.

Lemma device_move_reparents_witness :
  (move_parent_r move_ok <? 0)%Z = false /\
  kobject_move_r move_ok = 0%Z /\
  (has_class move_ok = false \/ create_link_r move_ok = 0%Z) /\
  dev_p three_devices 1 <> None /\ dev_p three_devices 2 <> None /\
  2 <> 1 /\ dev_parent three_devices 1 <> Some 1 /\
  (DPM_ORDER_DEV_AFTER_PARENT = DPM_ORDER_DEV_AFTER_PARENT ->
   In 2 (devices_kset three_devices) /\ In 2 (dpm_list three_devices)) /\
  (DPM_ORDER_DEV_AFTER_PARENT = DPM_ORDER_PARENT_BEFORE_DEV ->
   In 1 (devices_kset three_devices) /\ In 1 (dpm_list three_devices)) /\
  exists st',
    device_move three_devices (Some 1) (Some 2) DPM_ORDER_DEV_AFTER_PARENT
      move_ok = Some (st', 0%Z) /\
    dev_parent st' 1 = Some 2 /\
    (forall x, x <> 1 -> dev_parent st' x = dev_parent three_devices x) /\
    (forall x, children st' x
               = moved_children three_devices 1 (dev_parent three_devices 1)
                   2 x) /\
    devices_kset st'
    = moved_list DPM_ORDER_DEV_AFTER_PARENT 1 2 (devices_kset three_devices) /\
    dpm_list st'
    = moved_list DPM_ORDER_DEV_AFTER_PARENT 1 2 (dpm_list three_devices) /\
    links st' = links three_devices /\
    dev_kref st' 1 = match dev_parent three_devices 1 with
                     | Some _ => dev_kref three_devices 1
                     | None => S (dev_kref three_devices 1)
                     end /\
    (forall x, x <> 1 -> x <> 2 -> dev_parent three_devices 1 <> Some x ->
               dev_kref st' x = dev_kref three_devices x).
Proof.
  assert (H1 : (move_parent_r move_ok <? 0)%Z = false) by reflexivity.
  assert (H2 : kobject_move_r move_ok = 0%Z) by reflexivity.
  assert (H3 : has_class move_ok = false \/ create_link_r move_ok = 0%Z)
    by (left; reflexivity).
  assert (H4 : dev_p three_devices 1 <> None) by (vm_compute; discriminate).
  assert (H5 : dev_p three_devices 2 <> None) by (vm_compute; discriminate).
  assert (H6 : 2 <> 1) by lia.
  assert (H7 : dev_parent three_devices 1 <> Some 1)
    by (vm_compute; discriminate).
  assert (H8 : DPM_ORDER_DEV_AFTER_PARENT = DPM_ORDER_DEV_AFTER_PARENT ->
               In 2 (devices_kset three_devices) /\
               In 2 (dpm_list three_devices)).
  { intros _. vm_compute. split; do 2 right; left; reflexivity. }
  assert (H9 : DPM_ORDER_DEV_AFTER_PARENT = DPM_ORDER_PARENT_BEFORE_DEV ->
               In 1 (devices_kset three_devices) /\
               In 1 (dpm_list three_devices)).
  { intros _. vm_compute. split; right; left; reflexivity. }
  repeat (split; [assumption|]).
  exact (device_move_reparents three_devices 1 2 DPM_ORDER_DEV_AFTER_PARENT
           move_ok H1 H2 H3 H4 H5 H6 H7 H8 H9).
Defined.

(** Moving device 1 from its parent 0 to device 2, to be placed behind
    it: the lists become 0, 2, 1. *)
Example move_child_to_other_root :
  option_map (fun r => (devices_kset (fst r), dpm_list (fst r),
                        children (fst r) 0, children (fst r) 2,
                        dev_parent (fst r) 1, snd r))
    (device_move three_devices (Some 1) (Some 2) DPM_ORDER_DEV_AFTER_PARENT
       move_ok)
  = Some ([0; 2; 1], [0; 2; 1], [], [1], Some 2, 0%Z).
Proof. reflexivity. Qed.

(** ** Where device_move puts the device *)

Lemma lt_in_del_inv : forall x l a b,
  a <> x -> b <> x -> lt_in (list_del x l) a b -> lt_in l a b.
Proof.
  intros x l a b Ha Hb. unfold lt_in. induction l as [|y l IH]; simpl.
  - lia.
  - destruct (Nat.eqb_spec y x) as [->|Hyx]; simpl.
    + destruct (Nat.eqb_spec x a); [congruence|].
      destruct (Nat.eqb_spec x b); [congruence|]. intros H.
      apply IH in H. lia.
    + destruct (Nat.eqb_spec y a), (Nat.eqb_spec y b); lia.
Qed.

(** A list on which one entry [m] has changed place. *)
Lemma moved_one : forall m l l',
  In m l -> In m l' -> list_del m l' = list_del m l ->
  (forall x, In x l' <-> In x l) /\
  (forall x y, x <> m -> y <> m -> lt_in l x y -> lt_in l' x y).
Proof.
  intros m l l' Hl Hl' E. split.
  - intros x. destruct (Nat.eq_dec x m) as [->|Hne]; [tauto|].
    assert (H1 : In x l' <-> In x (list_del m l'))
      by (rewrite In_list_del; tauto).
    assert (H2 : In x l <-> In x (list_del m l))
      by (rewrite In_list_del; tauto).
    rewrite H1, H2, E. tauto.
  - intros x y Hx Hy H. apply (lt_in_del_inv m); auto. rewrite E.
    now apply lt_in_del.
Qed.

Lemma NoDup_insert : forall (A B : list nat) a,
  NoDup (A ++ B) -> ~ In a (A ++ B) -> NoDup (A ++ a :: B).
Proof.
  intros A B a H Hn. induction A as [|x A IH]; simpl in *.
  - now constructor.
  - inversion H as [|? ? Hx Hnd]; subst. constructor.
    + rewrite in_app_iff in *. simpl. intuition.
    + apply IH; tauto.
Qed.

Lemma adjacent_precedes : forall (A B : list nat) u v,
  NoDup (A ++ u :: v :: B) -> precedes (A ++ u :: v :: B) u v.
Proof.
  intros A B u v H. unfold precedes.
  split; [apply in_or_app; right; now left|].
  split; [apply in_or_app; right; right; now left|].
  pose proof (NoDup_remove_2 _ _ _ H) as Hu.
  assert (Hv : ~ In v (A ++ [u])).
  { change (A ++ u :: v :: B) with (A ++ [u] ++ v :: B) in H.
    rewrite app_assoc in H. apply NoDup_remove_2 in H.
    intros Hin. apply H. apply in_or_app. now left. }
  rewrite index_of_app_r.
  2:{ intros Hin. apply Hu. apply in_or_app. now left. }
  change (A ++ u :: v :: B) with (A ++ [u] ++ v :: B).
  rewrite app_assoc, index_of_app_r by exact Hv.
  rewrite length_app. simpl. lia.
Qed.

Lemma list_del_insert : forall (A B : list nat) m,
  ~ In m (A ++ B) -> list_del m (A ++ m :: B) = A ++ B.
Proof.
  intros A B m H. rewrite list_del_app. simpl. rewrite Nat.eqb_refl. simpl.
  rewrite <- list_del_app. now apply list_del_notin.
Qed.

(** The list after [m], one of [u] and [v], has been put next to the
    other one. *)
Lemma moved_next_to : forall l m u v A B,
  NoDup l -> In m l -> u <> v -> (m = u \/ m = v) ->
  list_del m l = A ++ (if m =? u then v else u) :: B ->
  NoDup (A ++ u :: v :: B) /\
  precedes (A ++ u :: v :: B) u v /\
  (forall x, In x (A ++ u :: v :: B) <-> In x l) /\
  (forall x y, x <> m -> y <> m -> lt_in l x y -> lt_in (A ++ u :: v :: B) x y).
Proof.
  intros l m u v A B Hnd Hin Huv Hm E.
  assert (Hdel : NoDup (list_del m l)) by now apply NoDup_list_del.
  assert (Hmn : ~ In m (list_del m l)) by (rewrite In_list_del; tauto).
  assert (Hnd' : NoDup (A ++ u :: v :: B)).
  { destruct Hm as [-> | ->].
    - rewrite Nat.eqb_refl in E. rewrite E in Hdel, Hmn.
      now apply NoDup_insert.
    - destruct (Nat.eqb_spec v u) as [Hvu|_]; [congruence|].
      rewrite E in Hdel, Hmn.
      change (A ++ u :: v :: B) with (A ++ [u] ++ v :: B).
      rewrite app_assoc. apply NoDup_insert; rewrite <- app_assoc; assumption. }
  assert (Hin' : In m (A ++ u :: v :: B)).
  { apply in_or_app. right. destruct Hm as [-> | ->];
      [now left | right; now left]. }
  assert (Edel : list_del m (A ++ u :: v :: B) = list_del m l).
  { rewrite E. destruct Hm as [-> | ->].
    - rewrite Nat.eqb_refl in *. apply list_del_insert. now rewrite <- E.
    - destruct (Nat.eqb_spec v u) as [Hvu|_]; [congruence|].
      change (A ++ u :: v :: B) with (A ++ [u] ++ v :: B).
      rewrite app_assoc.
      change (A ++ u :: B) with (A ++ [u] ++ B). rewrite app_assoc.
      apply list_del_insert. rewrite <- app_assoc. simpl. now rewrite <- E. }
  destruct (moved_one m l _ Hin Hin' Edel) as [M1 M2].
  split; [exact Hnd'|]. split; [now apply adjacent_precedes|].
  split; assumption.
Qed.

(** The two relative orders put the new parent right in front of the
    device. *)
Lemma device_move_adjacent : forall st d np order env,
  (move_parent_r env <? 0)%Z = false ->
  kobject_move_r env = 0%Z ->
  has_class env = false \/ create_link_r env = 0%Z ->
  dev_p st d <> None -> dev_p st np <> None ->
  np <> d -> dev_parent st d <> Some d ->
  order = DPM_ORDER_DEV_AFTER_PARENT \/ order = DPM_ORDER_PARENT_BEFORE_DEV ->
  dpm_list st = devices_kset st -> NoDup (devices_kset st) ->
  In d (devices_kset st) -> In np (devices_kset st) ->
  exists st' A B,
    device_move st (Some d) (Some np) order env = Some (st', 0%Z) /\
    devices_kset st' = A ++ np :: d :: B /\
    dpm_list st' = devices_kset st' /\
    NoDup (devices_kset st') /\
    precedes (devices_kset st') np d /\
    (forall x, In x (devices_kset st') <-> In x (devices_kset st)) /\
    (forall x y, x <> moved_dev order d np -> y <> moved_dev order d np ->
       lt_in (devices_kset st) x y -> lt_in (devices_kset st') x y).
Proof.
  intros st d np order env H1 H2 H3 Hd Hn Hne Hself Hord Hl Hnd Hind Hinn.
  assert (Ha : order = DPM_ORDER_DEV_AFTER_PARENT ->
               In np (devices_kset st) /\ In np (dpm_list st))
    by (intros _; rewrite Hl; auto).
  assert (Hb : order = DPM_ORDER_PARENT_BEFORE_DEV ->
               In d (devices_kset st) /\ In d (dpm_list st))
    by (intros _; rewrite Hl; auto).
  destruct (device_move_success st d np order env H1 H2 H3 Hd Hn Hne Hself
              Ha Hb) as (st' & Hrun & _ & _ & _ & Hk & Hdp & _).
  rewrite Hl in Hdp. rewrite <- Hk in Hdp.
  destruct Hord as [-> | ->]; simpl in Hk; simpl moved_dev.
  - assert (Hin : In np (list_del d (devices_kset st)))
      by (apply In_list_del; auto).
    destruct (add_after_split d np _ Hin) as (A & B & E1 & _ & E2).
    rewrite E2 in Hk.
    assert (E : list_del d (devices_kset st)
                = A ++ (if d =? np then d else np) :: B).
    { destruct (Nat.eqb_spec d np); [congruence|exact E1]. }
    destruct (moved_next_to _ d np d A B Hnd Hind Hne (or_intror eq_refl) E)
      as (M1 & M2 & M3 & M4).
    exists st', A, B. split; [exact Hrun|]. split; [exact Hk|].
    split; [exact Hdp|]. rewrite Hk. split; [exact M1|]. split; [exact M2|].
    split; [exact M3|exact M4].
  - assert (Hin : In d (list_del np (devices_kset st)))
      by (apply In_list_del; auto).
    destruct (add_before_split np d _ Hin) as (A & B & E1 & _ & E2).
    rewrite E2 in Hk.
    assert (E : list_del np (devices_kset st)
                = A ++ (if np =? np then d else np) :: B).
    { now rewrite Nat.eqb_refl. }
    destruct (moved_next_to _ np np d A B Hnd Hinn Hne (or_introl eq_refl) E)
      as (M1 & M2 & M3 & M4).
    exists st', A, B. split; [exact Hrun|]. split; [exact Hk|].
    split; [exact Hdp|]. rewrite Hk. split; [exact M1|]. split; [exact M2|].
    split; [exact M3|exact M4].
Qed.

(** X17 (device_move, relative orders). With DPM_ORDER_DEV_AFTER_PARENT
    and with DPM_ORDER_PARENT_BEFORE_DEV a device_move that meets no
    error leaves the new parent directly in front of the device on both
    lists, which stay equal, duplicate-free and with the same devices.
    Only one device changes place (the device itself in the first case,
    the new parent in the second): all others keep their order. *)
Theorem device_move_parent_first : forall st d np order env,
  (move_parent_r env <? 0)%Z = false ->
  kobject_move_r env = 0%Z ->
  has_class env = false \/ create_link_r env = 0%Z ->
  dev_p st d <> None -> dev_p st np <> None ->
  np <> d -> dev_parent st d <> Some d ->
  order = DPM_ORDER_DEV_AFTER_PARENT \/ order = DPM_ORDER_PARENT_BEFORE_DEV ->
  dpm_list st = devices_kset st -> NoDup (devices_kset st) ->
  In d (devices_kset st) -> In np (devices_kset st) ->
  exists st' A B,
    device_move st (Some d) (Some np) order env = Some (st', 0%Z) /\
    devices_kset st' = A ++ np :: d :: B /\
    dpm_list st' = devices_kset st' /\
    NoDup (devices_kset st') /\
    precedes (devices_kset st') np d /\
    (forall x, In x (devices_kset st') <-> In x (devices_kset st)) /\
    (forall x y, x <> moved_dev order d np -> y <> moved_dev order d np ->
       lt_in (devices_kset st) x y -> lt_in (devices_kset st') x y).
Proof.
  intros st d np order env H1 H2 H3 Hd Hn Hne Hself Hord Hl Hnd Hind Hinn.
  exact (device_move_adjacent st d np order env H1 H2 H3 Hd Hn Hne Hself
           Hord Hl Hnd Hind Hinn).
Qed.

Lemma device_move_parent_first_witness :
  (move_parent_r move_ok <? 0)%Z = false /\
  kobject_move_r move_ok = 0%Z /\
  (has_class move_ok = false \/ create_link_r move_ok = 0%Z) /\
  dev_p three_devices 0 <> None /\ dev_p three_devices 2 <> None /\
  2 <> 0 /\ dev_parent three_devices 0 <> Some 0 /\
  (DPM_ORDER_PARENT_BEFORE_DEV = DPM_ORDER_DEV_AFTER_PARENT \/
   DPM_ORDER_PARENT_BEFORE_DEV = DPM_ORDER_PARENT_BEFORE_DEV) /\
  dpm_list three_devices = devices_kset three_devices /\
  NoDup (devices_kset three_devices) /\
  In 0 (devices_kset three_devices) /\ In 2 (devices_kset three_devices) /\
  exists st' A B,
    device_move three_devices (Some 0) (Some 2) DPM_ORDER_PARENT_BEFORE_DEV
      move_ok = Some (st', 0%Z) /\
    devices_kset st' = A ++ 2 :: 0 :: B /\
    dpm_list st' = devices_kset st' /\
    NoDup (devices_kset st') /\
    precedes (devices_kset st') 2 0 /\
    (forall x, In x (devices_kset st') <-> In x (devices_kset three_devices)) /\
    (forall x y,
       x <> moved_dev DPM_ORDER_PARENT_BEFORE_DEV 0 2 ->
       y <> moved_dev DPM_ORDER_PARENT_BEFORE_DEV 0 2 ->
       lt_in (devices_kset three_devices) x y ->
       lt_in (devices_kset st') x y).
Proof.
  assert (H1 : (move_parent_r move_ok <? 0)%Z = false) by reflexivity.
  assert (H2 : kobject_move_r move_ok = 0%Z) by reflexivity.
  assert (H3 : has_class move_ok = false \/ create_link_r move_ok = 0%Z)
    by (left; reflexivity).
  assert (H4 : dev_p three_devices 0 <> None) by (vm_compute; discriminate).
  assert (H5 : dev_p three_devices 2 <> None) by (vm_compute; discriminate).
  assert (H6 : 2 <> 0) by lia.
  assert (H7 : dev_parent three_devices 0 <> Some 0)
    by (vm_compute; discriminate).
  assert (H8 : DPM_ORDER_PARENT_BEFORE_DEV = DPM_ORDER_DEV_AFTER_PARENT \/
               DPM_ORDER_PARENT_BEFORE_DEV = DPM_ORDER_PARENT_BEFORE_DEV)
    by (right; reflexivity).
  assert (H9 : dpm_list three_devices = devices_kset three_devices)
    by reflexivity.
  assert (H10 : NoDup (devices_kset three_devices)).
  { vm_compute. repeat constructor; simpl; intuition lia. }
  assert (H11 : In 0 (devices_kset three_devices))
    by (vm_compute; left; reflexivity).
  assert (H12 : In 2 (devices_kset three_devices))
    by (vm_compute; do 2 right; left; reflexivity).
  repeat (split; [assumption|]).
  exact (device_move_parent_first three_devices 0 2
           DPM_ORDER_PARENT_BEFORE_DEV move_ok
           H1 H2 H3 H4 H5 H6 H7 H8 H9 H10 H11 H12).
Defined.

(** X18 (device_move leaves the children where they are). A
    device_move with DPM_ORDER_DEV_AFTER_PARENT that meets no error
    moves the device only: a registered child of the device that stood
    in front of the new parent is still a child of the device
    afterwards, and now stands in front of its own parent on the
    list. *)
Theorem device_move_leaves_children : forall st d np env c,
  (move_parent_r env <? 0)%Z = false ->
  kobject_move_r env = 0%Z ->
  has_class env = false \/ create_link_r env = 0%Z ->
  dev_p st d <> None -> dev_p st np <> None ->
  np <> d -> dev_parent st d <> Some d ->
  dpm_list st = devices_kset st -> NoDup (devices_kset st) ->
  In d (devices_kset st) ->
  In c (children st d) -> c <> d ->
  precedes (devices_kset st) c np ->
  exists st',
    device_move st (Some d) (Some np) DPM_ORDER_DEV_AFTER_PARENT env
    = Some (st', 0%Z) /\
    In c (children st' d) /\
    precedes (devices_kset st') c d.
Proof.
  intros st d np env c H1 H2 H3 Hd Hn Hne Hself Hl Hnd Hind Hc Hcd
    (Hc1 & Hn1 & Hlt).
  destruct (device_move_adjacent st d np DPM_ORDER_DEV_AFTER_PARENT env
              H1 H2 H3 Hd Hn Hne Hself (or_introl eq_refl) Hl Hnd Hind Hn1)
    as (st' & A & B & Hrun & Hk & _ & Hnd' & (P1 & P2 & P3) & M3 & M4).
  assert (Ha : DPM_ORDER_DEV_AFTER_PARENT = DPM_ORDER_DEV_AFTER_PARENT ->
               In np (devices_kset st) /\ In np (dpm_list st))
    by (intros _; rewrite Hl; auto).
  assert (Hb : DPM_ORDER_DEV_AFTER_PARENT = DPM_ORDER_PARENT_BEFORE_DEV ->
               In d (devices_kset st) /\ In d (dpm_list st))
    by discriminate.
  destruct (device_move_success st d np DPM_ORDER_DEV_AFTER_PARENT env
              H1 H2 H3 Hd Hn Hne Hself Ha Hb)
    as (st2 & Hrun2 & _ & _ & Hch & _).
  rewrite Hrun in Hrun2. injection Hrun2 as <-.
  exists st'. split; [exact Hrun|]. split.
  - rewrite Hch. unfold moved_children.
    assert (E : (d =? np) = false) by (apply Nat.eqb_neq; congruence).
    rewrite E. destruct (dev_parent st d) as [op|]; [|exact Hc].
    destruct (Nat.eqb_spec d op) as [->|_]; [congruence|exact Hc].
  - unfold precedes. split; [now apply M3|]. split; [exact P2|].
    assert (Hlt' : lt_in (devices_kset st') c np).
    { apply M4; simpl; auto. }
    unfold lt_in in Hlt'. lia.
Qed.

Lemma device_move_leaves_children_witness :
  (move_parent_r move_ok <? 0)%Z = false /\
  kobject_move_r move_ok = 0%Z /\
  (has_class move_ok = false \/ create_link_r move_ok = 0%Z) /\
  dev_p three_devices 0 <> None /\ dev_p three_devices 2 <> None /\
  2 <> 0 /\ dev_parent three_devices 0 <> Some 0 /\
  dpm_list three_devices = devices_kset three_devices /\
  NoDup (devices_kset three_devices) /\
  In 0 (devices_kset three_devices) /\
  In 1 (children three_devices 0) /\ 1 <> 0 /\
  precedes (devices_kset three_devices) 1 2 /\
  exists st',
    device_move three_devices (Some 0) (Some 2) DPM_ORDER_DEV_AFTER_PARENT
      move_ok = Some (st', 0%Z) /\
    In 1 (children st' 0) /\
    precedes (devices_kset st') 1 0.
Proof.
  assert (H1 : (move_parent_r move_ok <? 0)%Z = false) by reflexivity.
  assert (H2 : kobject_move_r move_ok = 0%Z) by reflexivity.
  assert (H3 : has_class move_ok = false \/ create_link_r move_ok = 0%Z)
    by (left; reflexivity).
  assert (H4 : dev_p three_devices 0 <> None) by (vm_compute; discriminate).
  assert (H5 : dev_p three_devices 2 <> None) by (vm_compute; discriminate).
  assert (H6 : 2 <> 0) by lia.
  assert (H7 : dev_parent three_devices 0 <> Some 0)
    by (vm_compute; discriminate).
  assert (H9 : dpm_list three_devices = devices_kset three_devices)
    by reflexivity.
  assert (H10 : NoDup (devices_kset three_devices)).
  { vm_compute. repeat constructor; simpl; intuition lia. }
  assert (H11 : In 0 (devices_kset three_devices))
    by (vm_compute; left; reflexivity).
  assert (H12 : In 1 (children three_devices 0))
    by (vm_compute; left; reflexivity).
  assert (H13 : 1 <> 0) by lia.
  assert (H14 : precedes (devices_kset three_devices) 1 2).
  { vm_compute. repeat split; [right; left; reflexivity
                              | do 2 right; left; reflexivity | lia]. }
  repeat (split; [assumption|]).
  exact (device_move_leaves_children three_devices 0 2 move_ok 1
           H1 H2 H3 H4 H5 H6 H7 H9 H10 H11 H12 H13 H14).
Defined.

(** Device 0 moves behind device 2 and its child 1 stays in front of
    both. *)
Example move_parent_behind_child :
  option_map (fun r => (devices_kset (fst r), children (fst r) 0))
    (device_move three_devices (Some 0) (Some 2) DPM_ORDER_DEV_AFTER_PARENT
       move_ok)
  = Some ([1; 2; 0], [1]).
Proof. reflexivity. Qed.

(** The fields after klist_del and klist_add_tail. *)
Lemma klist_del_fields : forall st d par,
  dev_p st d <> None ->
  exists st',
    klist_del st d par = Some st' /\
    dev_parent st' = dev_parent st /\
    dev_p st' = upd (dev_p st) par (option_map (list_del d) (dev_p st par)) /\
    dev_kref st' = upd (dev_kref st) d (pred (dev_kref st d)) /\
    links st' = links st /\ devices_kset st' = devices_kset st /\
    dpm_list st' = dpm_list st.
Proof.
  intros st d par H. unfold klist_del.
  destruct (dev_p st d); [|congruence].
  eexists. split; [reflexivity|]. repeat split.
Qed.

Lemma klist_add_tail_fields : forall st d par cs,
  dev_p st par = Some cs ->
  exists st',
    klist_add_tail st d par = Some st' /\
    dev_parent st' = dev_parent st /\
    dev_p st' = upd (dev_p st) par (Some (list_add_tail d cs)) /\
    dev_kref st' = upd (dev_kref st) d (S (dev_kref st d)) /\
    links st' = links st /\ devices_kset st' = devices_kset st /\
    dpm_list st' = dpm_list st.
Proof.
  intros st d par cs H. unfold klist_add_tail. rewrite H.
  eexists. split; [reflexivity|]. repeat split.
Qed.

(** The count of [x] with [c] references more for [d] and [e] more for
    [np]. *)
Lemma kref_put : forall (k k0 : dev_id -> nat) d np c e,
  d <> np ->
  (forall x, k x = k0 x + (if x =? d then S c else 0)
                   + (if x =? np then e else 0)) ->
  forall x, upd k d (pred (k d)) x
            = k0 x + (if x =? d then c else 0) + (if x =? np then e else 0).
Proof.
  intros k k0 d np c e Hne H x. unfold upd.
  destruct (Nat.eqb_spec x d) as [->|Hx]; [|rewrite H;
    destruct (Nat.eqb_spec x d); [congruence|reflexivity]].
  rewrite H, Nat.eqb_refl. destruct (Nat.eqb_spec d np); [congruence|]. lia.
Qed.

Lemma kref_get : forall (k k0 : dev_id -> nat) d np c e,
  d <> np ->
  (forall x, k x = k0 x + (if x =? d then c else 0)
                   + (if x =? np then e else 0)) ->
  forall x, upd k d (S (k d)) x
            = k0 x + (if x =? d then S c else 0) + (if x =? np then e else 0).
Proof.
  intros k k0 d np c e Hne H x. unfold upd.
  destruct (Nat.eqb_spec x d) as [->|Hx]; [|rewrite H;
    destruct (Nat.eqb_spec x d); [congruence|reflexivity]].
  rewrite H, Nat.eqb_refl. destruct (Nat.eqb_spec d np); [congruence|]. lia.
Qed.

Lemma kref_put_np : forall (k k0 : dev_id -> nat) d np c e,
  d <> np ->
  (forall x, k x = k0 x + (if x =? d then c else 0)
                   + (if x =? np then S e else 0)) ->
  forall x, upd k np (pred (k np)) x
            = k0 x + (if x =? d then c else 0) + (if x =? np then e else 0).
Proof.
  intros k k0 d np c e Hne H x. unfold upd.
  destruct (Nat.eqb_spec x np) as [->|Hx]; [|rewrite H;
    destruct (Nat.eqb_spec x np); [congruence|reflexivity]].
  rewrite H, Nat.eqb_refl. destruct (Nat.eqb_spec np d); [congruence|]. lia.
Qed.

(** The reparenting steps of device_move: the device leaves the klist
    of [op] and joins that of [np]. *)
Lemma move_klists : forall st d np op cs_n cs_o,
  np <> d -> op <> d ->
  dev_p st d <> None -> dev_p st np = Some cs_n -> dev_p st op = Some cs_o ->
  exists st3 st4,
    knode_remove st d (Some op) = Some st3 /\
    knode_add st3 d (Some np) = Some st4 /\
    dev_parent st4 = dev_parent st /\
    dev_p st4
    = upd (upd (dev_p st) op (Some (list_del d cs_o))) np
          (Some (list_add_tail d (if np =? op then list_del d cs_o else cs_n)))
    /\
    dev_kref st4
    = upd (upd (dev_kref st) d (pred (dev_kref st d))) d
          (S (upd (dev_kref st) d (pred (dev_kref st d)) d)) /\
    links st4 = links st /\ devices_kset st4 = devices_kset st /\
    dpm_list st4 = dpm_list st.
Proof.
  intros st d np op cs_n cs_o Hnd Hod Hd Hn Ho.
  destruct (klist_del_fields st d op Hd)
    as (st3 & E3 & A1 & A2 & A3 & A4 & A5 & A6).
  rewrite Ho in A2. simpl in A2.
  assert (Hd3 : dev_p st3 d <> None).
  { rewrite A2. now rewrite upd_other by congruence. }
  assert (Hn3 : dev_p st3 np
                = Some (if np =? op then list_del d cs_o else cs_n)).
  { rewrite A2. unfold upd. now destruct (np =? op). }
  destruct (klist_add_tail_fields st3 d np _ Hn3)
    as (st4 & E4 & B1 & B2 & B3 & B4 & B5 & B6).
  exists st3, st4. split; [exact E3|]. split.
  - unfold knode_add. destruct (dev_p st3 d); [exact E4|congruence].
  - rewrite B1, B2, B3, B4, B5, B6, A1, A2, A3, A4, A5, A6. repeat split.
Qed.

(** X19 (device_move, class link error). When device_move_class_links
    fails, device_move returns its error, the two ordering lists and the
    links are untouched and the reference count of every device other
    than the old and the new parent is what it was (nothing is said of
    the counts of the two parents, on which the kobject_move calls
    act as well). If the kobject can be moved back, the device is a
    child of its old parent again, now as the last entry of that klist.
    If it cannot, the device stays on the klist of the new parent with
    its parent pointer naming the new parent, although the error is
    returned. *)
Theorem device_move_class_link_error : forall st d np op order env,
  (move_parent_r env <? 0)%Z = false ->
  kobject_move_r env = 0%Z ->
  has_class env = true -> create_link_r env <> 0%Z ->
  dev_parent st d = Some op -> op <> d -> np <> d ->
  dev_p st d <> None -> dev_p st np <> None -> dev_p st op <> None ->
  (np <> op -> ~ In d (children st np)) ->
  exists st',
    device_move st (Some d) (Some np) order env
    = Some (st', create_link_r env) /\
    devices_kset st' = devices_kset st /\ dpm_list st' = dpm_list st /\
    links st' = links st /\
    (forall x, x <> np -> x <> op -> dev_kref st' x = dev_kref st x) /\
    (forall x, x <> d -> dev_parent st' x = dev_parent st x) /\
    (kobject_move_back_r env = 0%Z ->
     dev_parent st' d = Some op /\
     forall x, children st' x
               = if x =? op then list_move_tail d (children st x)
                 else children st x) /\
    (kobject_move_back_r env <> 0%Z ->
     dev_parent st' d = Some np /\
     forall x, children st' x = moved_children st d (Some op) np x).
Proof.
  intros st d np op order env H1 H2 Hc He Hop Hod Hnd Hd Hn Ho Hnin.
  assert (Hdn : d <> np) by congruence.
  assert (Hne : nonzero (create_link_r env) = true).
  { unfold nonzero. apply negb_true_iff. now apply Z.eqb_neq. }
  destruct (dev_p st np) as [cs_n|] eqn:En; [|congruence].
  destruct (dev_p st op) as [cs_o|] eqn:Eo; [|congruence].
  set (s2 := set_parent (get_device (get_device st (Some d)) (Some np)) d
               (Some np)).
  assert (S2 : dev_p s2 = dev_p st /\ links s2 = links st /\
               devices_kset s2 = devices_kset st /\
               dpm_list s2 = dpm_list st /\
               dev_parent s2 = upd (dev_parent st) d (Some np))
    by (repeat split).
  destruct S2 as (P2 & L2 & K2 & D2 & Par2).
  assert (R2 : forall x, dev_kref s2 x
                 = dev_kref st x + (if x =? d then 1 else 0)
                   + (if x =? np then 1 else 0)).
  { intros x. simpl. unfold upd.
    repeat match goal with
           | |- context [?a =? ?b] => destruct (Nat.eqb_spec a b)
           end; subst; try congruence; lia. }
  assert (Hd2 : dev_p s2 d <> None) by now rewrite P2.
  assert (Hn2 : dev_p s2 np = Some cs_n) by now rewrite P2.
  assert (Ho2 : dev_p s2 op = Some cs_o) by now rewrite P2.
  destruct (move_klists s2 d np op cs_n cs_o Hnd Hod Hd2 Hn2 Ho2)
    as (s3 & s4 & E3 & E4 & Par4 & P4 & R4 & L4 & K4 & D4).
  assert (R4' : forall x, dev_kref s4 x
                  = dev_kref st x + (if x =? d then 1 else 0)
                    + (if x =? np then 1 else 0)).
  { rewrite R4. apply kref_get; [exact Hdn|].
    apply kref_put; [exact Hdn|exact R2]. }
  assert (Hrun : device_move st (Some d) (Some np) order env
                 = move_undo s4 d (Some op) (Some np) env (create_link_r env)).
  { unfold device_move. rewrite H1, H2.
    cbn -[knode_remove knode_add move_order move_out put_device move_undo
          get_device set_parent].
    rewrite Hc, Hne. cbn [andb].
    change (dev_parent (get_device (get_device st (Some d)) (Some np)) d)
      with (dev_parent st d).
    rewrite Hop. fold s2. rewrite E3, E4. reflexivity. }
  rewrite Hrun. unfold move_undo, move_fail, move_out.
  destruct (nonzero (kobject_move_back_r env)) eqn:Eb.
  - apply nonzero_true in Eb.
    eexists. split; [reflexivity|]. simpl.
    rewrite K4, D4, L4, K2, D2, L2, Par4, Par2.
    split; [reflexivity|]. split; [reflexivity|]. split; [reflexivity|].
    split.
    { intros x _ _.
      rewrite (kref_put _ (dev_kref st) d np 0 0 Hdn
                 (kref_put_np (dev_kref s4) (dev_kref st) d np 1 0 Hdn R4')).
      destruct (x =? d), (x =? np); lia. }
    split; [intros x Hx; now apply upd_other|].
    split; [intros Hz; contradiction|]. intros _.
    split; [apply upd_same|].
    intros x. unfold children. simpl. rewrite P4, P2.
    unfold moved_children, children, upd.
    destruct (Nat.eqb_spec x np) as [->|Hxn].
    + destruct (Nat.eqb_spec np op) as [->|Hno]; [now rewrite Eo|].
      now rewrite En.
    + destruct (Nat.eqb_spec x op) as [->|Hxo]; [now rewrite Eo|reflexivity].
  - apply nonzero_false in Eb.
    assert (Hd4 : dev_p s4 d <> None).
    { rewrite P4, P2. rewrite !upd_other by congruence. exact Hd. }
    destruct (klist_del_fields s4 d np Hd4)
      as (s5 & E5 & Par5 & P5 & R5 & L5 & K5 & D5).
    assert (C5 : forall x, children s5 x
                   = if x =? op then list_del d cs_o else children st x).
    { intros x. unfold children. rewrite P5, P4, P2, upd_same. simpl.
      assert (E : list_del d
                    (list_add_tail d
                       (if np =? op then list_del d cs_o else cs_n))
                  = if np =? op then list_del d cs_o else cs_n).
      { apply list_del_add_tail. destruct (Nat.eqb_spec np op) as [->|Hno].
        - rewrite In_list_del. tauto.
        - specialize (Hnin Hno). unfold children in Hnin.
          now rewrite En in Hnin. }
      rewrite E. unfold upd.
      destruct (Nat.eqb_spec x np) as [->|Hxn].
      - destruct (Nat.eqb_spec np op) as [->|Hno]; [reflexivity|].
        now rewrite En.
      - destruct (Nat.eqb_spec x op) as [->|Hxo]; reflexivity. }
    set (s6 := set_parent s5 d (Some op)).
    assert (Hd6 : dev_p s6 d <> None).
    { unfold s6. simpl. rewrite P5, P4, P2.
      rewrite !upd_other by congruence. exact Hd. }
    assert (Ho6 : dev_p s6 op = Some (list_del d cs_o)).
    { unfold s6. simpl. rewrite P5, P4, P2. unfold upd.
      destruct (Nat.eqb_spec op np) as [->|Hon].
      - rewrite !Nat.eqb_refl. simpl.
        rewrite list_del_add_tail; [reflexivity|].
        rewrite In_list_del. tauto.
      - rewrite Nat.eqb_refl. reflexivity. }
    destruct (klist_add_tail_fields s6 d op _ Ho6)
      as (s7 & E7 & Par7 & P7 & R7 & L7 & K7 & D7).
    unfold knode_remove, knode_add. rewrite E5.
    fold s6. destruct (dev_p s6 d) eqn:Ed6; [|congruence].
    rewrite E7.
    eexists. split; [reflexivity|]. simpl.
    rewrite K7, D7, L7, Par7. unfold s6. simpl.
    rewrite K5, D5, L5, Par5, K4, D4, L4, K2, D2, L2, Par4, Par2.
    split; [reflexivity|]. split; [reflexivity|]. split; [reflexivity|].
    match goal with
    | |- (forall x, _ -> _ -> @?P x) /\ _ => assert (Hcount : forall x, P x)
    end.
    { intros x. cbv beta.
      assert (R5' : forall y, dev_kref s5 y
                      = dev_kref st y + (if y =? d then 0 else 0)
                        + (if y =? np then 1 else 0)).
      { rewrite R5. apply kref_put; [exact Hdn|exact R4']. }
      assert (R7' : forall y, dev_kref s7 y
                      = dev_kref st y + (if y =? d then 1 else 0)
                        + (if y =? np then 1 else 0)).
      { rewrite R7. apply kref_get; [exact Hdn|exact R5']. }
      rewrite (kref_put _ (dev_kref st) d np 0 0 Hdn
                 (kref_put_np (dev_kref s7) (dev_kref st) d np 1 0 Hdn R7')).
      destruct (x =? d), (x =? np); lia. }
    split; [intros x _ _; apply Hcount|].
    split.
    { intros x Hx. unfold upd.
      destruct (Nat.eqb_spec x d); [congruence|reflexivity]. }
    split; [|intros Hz; contradiction]. intros _.
    split; [apply upd_same|].
    intros x. unfold children. simpl. rewrite P7. unfold s6. simpl.
    unfold upd. destruct (Nat.eqb_spec x op) as [->|Hxo].
    + rewrite Eo. reflexivity.
    + pose proof (C5 x) as C. unfold children in C.
      destruct (Nat.eqb_spec x op); [congruence|]. exact C.
Qed.

Lemma device_move_class_link_error_witness :
  (move_parent_r move_link_error <? 0)%Z = false /\
  kobject_move_r move_link_error = 0%Z /\
  has_class move_link_error = true /\ create_link_r move_link_error <> 0%Z /\
  dev_parent three_devices 1 = Some 0 /\ 0 <> 1 /\ 2 <> 1 /\
  dev_p three_devices 1 <> None /\ dev_p three_devices 2 <> None /\
  dev_p three_devices 0 <> None /\
  (2 <> 0 -> ~ In 1 (children three_devices 2)) /\
  exists st',
    device_move three_devices (Some 1) (Some 2) DPM_ORDER_DEV_LAST
      move_link_error = Some (st', create_link_r move_link_error) /\
    devices_kset st' = devices_kset three_devices /\
    dpm_list st' = dpm_list three_devices /\
    links st' = links three_devices /\
    (forall x, x <> 2 -> x <> 0 ->
               dev_kref st' x = dev_kref three_devices x) /\
    (forall x, x <> 1 -> dev_parent st' x = dev_parent three_devices x) /\
    (kobject_move_back_r move_link_error = 0%Z ->
     dev_parent st' 1 = Some 0 /\
     forall x, children st' x
               = if x =? 0 then list_move_tail 1 (children three_devices x)
                 else children three_devices x) /\
    (kobject_move_back_r move_link_error <> 0%Z ->
     dev_parent st' 1 = Some 2 /\
     forall x, children st' x
               = moved_children three_devices 1 (Some 0) 2 x).
Proof.
  assert (H1 : (move_parent_r move_link_error <? 0)%Z = false) by reflexivity.
  assert (H2 : kobject_move_r move_link_error = 0%Z) by reflexivity.
  assert (H3 : has_class move_link_error = true) by reflexivity.
  assert (H4 : create_link_r move_link_error <> 0%Z) by (vm_compute; lia).
  assert (H5 : dev_parent three_devices 1 = Some 0) by reflexivity.
  assert (H6 : 0 <> 1) by lia.
  assert (H7 : 2 <> 1) by lia.
  assert (H8 : dev_p three_devices 1 <> None) by (vm_compute; discriminate).
  assert (H9 : dev_p three_devices 2 <> None) by (vm_compute; discriminate).
  assert (H10 : dev_p three_devices 0 <> None) by (vm_compute; discriminate).
  assert (H11 : 2 <> 0 -> ~ In 1 (children three_devices 2))
    by (intros _; vm_compute; tauto).
  repeat (split; [assumption|]).
  exact (device_move_class_link_error three_devices 1 2 0 DPM_ORDER_DEV_LAST
           move_link_error H1 H2 H3 H4 H5 H6 H7 H8 H9 H10 H11).
Defined.

(** * Registration and unregistration *)

Lemma no_links_no_suppliers : forall st dev,
  (forall l, In l (links st) -> supplier l <> dev /\ consumer l <> dev) ->
  suppliers st dev = [] /\ consumers st dev = [].
Proof.
  intros st dev H. unfold suppliers, consumers.
  induction (links st) as [|l ls IH]; simpl; [auto|].
  destruct (H l (or_introl eq_refl)) as [Hs Hc].
  destruct (Nat.eqb_spec (consumer l) dev); [congruence|].
  destruct (Nat.eqb_spec (supplier l) dev); [congruence|].
  apply IH. intros x Hx. apply H. now right.
Qed.

Lemma device_links_purge_none : forall st dev,
  (forall l, In l (links st) -> supplier l <> dev /\ consumer l <> dev) ->
  device_links_purge st dev = st.
Proof.
  intros st dev H. destruct (no_links_no_suppliers st dev H) as [E1 E2].
  unfold device_links_purge. rewrite E1. simpl. now rewrite E2.
Qed.

(** The reference counts after device_del of a device without links. *)
Lemma device_del_kref : forall st dev st',
  (forall l, In l (links st) -> supplier l <> dev /\ consumer l <> dev) ->
  device_del st dev = Some st' ->
  forall d, dev_kref st' d
            = match dev_parent st dev with
              | Some par =>
                  upd (upd (dev_kref st) dev (pred (dev_kref st dev))) par
                      (pred (upd (dev_kref st) dev (pred (dev_kref st dev))
                               par)) d
              | None => dev_kref st d
              end.
Proof.
  intros st dev st' Hno H d. rewrite device_del_unfold in H.
  destruct (dev_parent st dev) as [par|].
  - unfold klist_del in H. destruct (dev_p st dev); [|discriminate].
    rewrite device_links_purge_none in H by exact Hno.
    injection H as <-. reflexivity.
  - rewrite device_links_purge_none in H by exact Hno.
    injection H as <-. reflexivity.
Qed.

(** A device_del right after the device_add that registered a device
    without links. *)
Lemma device_del_after_add : forall st dev env st1,
  Inv_all st ->
  ~ In dev (devices_kset st) ->
  (forall l, In l (links st) -> supplier l <> dev /\ consumer l <> dev) ->
  device_add st dev env no_probe = Some (st1, 0%Z) ->
  exists st2,
    device_del st1 dev = Some st2 /\
    devices_kset st2 = devices_kset st /\
    dpm_list st2 = dpm_list st /\
    links st2 = links st /\
    (forall d, children st2 d = children st d) /\
    (forall d, dev_kref st2 d = dev_kref st d) /\
    dev_parent st2 = dev_parent st /\
    dev_links_status st2 = dev_links_status st.
Proof.
  intros st dev env st1 [HI Ha Hc] Hn Hno Hadd.
  destruct (device_add_ok _ _ _ _ Hadd)
    as (Hk & Hd & Hl & Hnx & Hp & Hst & Hch & _ & _ & Hpd).
  pose proof (device_add_ok_kref _ _ _ _ Hadd) as Hkr.
  assert (Hno1 : forall l, In l (links st1) ->
                           supplier l <> dev /\ consumer l <> dev)
    by now rewrite Hl.
  assert (Hret : exists st2, device_del st1 dev = Some st2).
  { rewrite device_del_unfold. destruct (dev_parent st1 dev); [|eauto].
    unfold klist_del. destruct (dev_p st1 dev); [eauto|congruence]. }
  destruct Hret as [st2 Hdel]. exists st2. split; [exact Hdel|].
  assert (Ha1 : NoDup (map l_addr (links st1))) by now rewrite Hl.
  destruct (device_del_result st1 dev st2 Ha1 Hdel)
    as (Dk & Dd & Dl & Dch & Dpar & _ & Dst & _).
  pose proof (device_del_kref st1 dev st2 Hno1 Hdel) as Dkr.
  assert (Hnd : ~ In dev (dpm_list st)) by now rewrite (inv_lists _ HI).
  split; [rewrite Dk, Hk; now apply list_del_add_tail|].
  split; [rewrite Dd, Hd; now apply list_del_add_tail|].
  split.
  { rewrite Dl, Hl.
    rewrite (filter_ext_in _ (fun _ => true)); [apply filter_true|].
    intros l Hin. destruct (Hno l Hin) as [Hs Hc'].
    destruct (Nat.eqb_spec (consumer l) dev); [congruence|].
    destruct (Nat.eqb_spec (supplier l) dev); [congruence|]. reflexivity. }
  split.
  { intros d. rewrite Dch, Hp, Hch.
    destruct (dev_parent st dev) as [par|]; [|reflexivity].
    destruct (d =? par); [|reflexivity].
    apply list_del_add_tail. intros Hin. apply Hn.
    now apply (inv_children _ HI d). }
  split.
  { intros d. rewrite Dkr, Hp.
    pose proof (Hkr dev) as Hkd. pose proof (Hkr d) as Hkx.
    destruct (dev_parent st dev) as [par|] eqn:Epar; [|lia].
    pose proof (Hkr par) as Hkp.
    rewrite Nat.eqb_refl in Hkd, Hkp.
    unfold upd.
    repeat match goal with
           | |- context [?a =? ?b] =>
               destruct (Nat.eqb_spec a b); try subst; try congruence
           end;
      rewrite ?Nat.eqb_refl in *;
      repeat match goal with
             | H : context [?a =? ?b] |- _ =>
                 destruct (Nat.eqb_spec a b); try subst; try congruence
             end; lia. }
  split; [congruence|congruence].
Qed.

(** X20 (device_del undoes device_add). In a state the calls of the
    driver core lead to, for a device that is not registered and that no
    link names: after a device_add that succeeds, with a probe that
    leaves the state as it is, device_del returns and gives back the
    two ordering lists, every klist, the links and every reference
    count of before the device_add. *)
Theorem device_del_undoes_device_add : forall st dev env st1,
  reachable_by_calls st ->
  ~ In dev (devices_kset st) ->
  (forall l, In l (links st) -> supplier l <> dev /\ consumer l <> dev) ->
  device_add st dev env no_probe = Some (st1, 0%Z) ->
  exists st2,
    device_del st1 dev = Some st2 /\
    devices_kset st2 = devices_kset st /\
    dpm_list st2 = dpm_list st /\
    links st2 = links st /\
    (forall d, children st2 d = children st d) /\
    (forall d, dev_kref st2 d = dev_kref st d) /\
    dev_parent st2 = dev_parent st /\
    dev_links_status st2 = dev_links_status st.
Proof.
  intros st dev env st1 Hr Hn Hno Hadd.
  exact (device_del_after_add st dev env st1 (by_calls_Inv_all st Hr)
           Hn Hno Hadd).
Qed.

Lemma device_del_undoes_device_add_witness :
  reachable_by_calls (run_initialize three_devices 3 (Some 2)) /\
  ~ In 3 (devices_kset (run_initialize three_devices 3 (Some 2))) /\
  (forall l, In l (links (run_initialize three_devices 3 (Some 2))) ->
             supplier l <> 3 /\ consumer l <> 3) /\
  device_add (run_initialize three_devices 3 (Some 2)) 3 ok_env no_probe
  = Some (run_add (run_initialize three_devices 3 (Some 2)) 3, 0%Z) /\
  exists st2,
    device_del (run_add (run_initialize three_devices 3 (Some 2)) 3) 3
    = Some st2 /\
    devices_kset st2
    = devices_kset (run_initialize three_devices 3 (Some 2)) /\
    dpm_list st2 = dpm_list (run_initialize three_devices 3 (Some 2)) /\
    links st2 = links (run_initialize three_devices 3 (Some 2)) /\
    (forall d, children st2 d
               = children (run_initialize three_devices 3 (Some 2)) d) /\
    (forall d, dev_kref st2 d
               = dev_kref (run_initialize three_devices 3 (Some 2)) d) /\
    dev_parent st2 = dev_parent (run_initialize three_devices 3 (Some 2)) /\
    dev_links_status st2
    = dev_links_status (run_initialize three_devices 3 (Some 2)).
Proof.
  assert (H2 : ~ In 3 (devices_kset (run_initialize three_devices 3 (Some 2))))
    by (vm_compute; intuition lia).
  assert (H3 : forall l, In l (links (run_initialize three_devices 3 (Some 2)))
                         -> supplier l <> 3 /\ consumer l <> 3)
    by (intros l []).
  assert (H1 : reachable_by_calls (run_initialize three_devices 3 (Some 2))).
  { apply (by_calls_step three_devices).
    - exact (reachable_by_calls_of_reachable _ three_devices_reachable).
    - apply call_step. apply (step_initialize _ three_devices 3 (Some 2)).
      + vm_compute. intuition lia.
      + intros l []. }
  assert (H4 : device_add (run_initialize three_devices 3 (Some 2)) 3 ok_env
                 no_probe
               = Some (run_add (run_initialize three_devices 3 (Some 2)) 3,
                       0%Z)) by (vm_compute; reflexivity).
  split; [exact H1|]. split; [exact H2|]. split; [exact H3|].
  split; [exact H4|].
  exact (device_del_undoes_device_add _ 3 ok_env _ H1 H2 H3 H4).
Defined.

(** * Firmware nodes *)

(** X21 (primary and secondary firmware node). For a device whose
    [fwnode] pointer is not an error pointer: set_secondary_fwnode with
    a node that is not the primary node of the device makes that node
    the secondary node of the device and keeps the primary one;
    set_primary_fwnode with a node that is not the secondary node of
    the device makes that node the primary node and keeps the secondary
    one, provided the new node carries no error mark. *)
Theorem fwnode_primary_and_secondary : forall fs dev n,
  dev_fwnode fs dev <> FW_ERR ->
  (primary_of fs dev <> FW_NODE n ->
   exists fs',
     set_secondary_fwnode fs dev (FW_NODE n) = Some fs' /\
     secondary_of fs' dev = FW_NODE n /\
     primary_of fs' dev = primary_of fs dev) /\
  (secondary_of fs dev <> FW_NODE n -> fw_secondary fs n <> FW_ERR ->
   exists fs',
     set_primary_fwnode fs dev (FW_NODE n) = Some fs' /\
     primary_of fs' dev = FW_NODE n /\
     secondary_of fs' dev
     = match secondary_of fs dev with
       | FW_NULL => fw_secondary fs n
       | s => s
       end).
Proof.
  intros fs dev n Hne. split.
  - intros Hp. unfold set_secondary_fwnode, primary_of, secondary_of in *.
    simpl. destruct (dev_fwnode fs dev) as [|a|] eqn:E; [| |congruence].
    + simpl. eexists. split; [reflexivity|]. simpl.
      rewrite upd_same, Nat.eqb_refl. simpl. auto.
    + simpl. destruct (Nat.eqb_spec a n) as [->|Han].
      * simpl. eexists. split; [reflexivity|]. simpl.
        rewrite upd_same, Nat.eqb_refl. simpl.
        destruct (IS_ERR (fw_secondary fs n)); [auto|congruence].
      * destruct (IS_ERR (fw_secondary fs a)) eqn:Ea; simpl.
        -- eexists. split; [reflexivity|]. simpl.
           rewrite upd_same, Nat.eqb_refl. simpl. auto.
        -- eexists. split; [reflexivity|]. simpl.
           rewrite E, Nat.eqb_refl. simpl. auto.
  - intros Hs Hn. unfold set_primary_fwnode, primary_of, secondary_of in *.
    simpl. destruct (dev_fwnode fs dev) as [|a|] eqn:E; [| |congruence].
    + simpl. eexists. split; [reflexivity|]. simpl. rewrite upd_same.
      destruct (fw_secondary fs n); simpl; auto. congruence.
    + simpl. destruct (fw_secondary fs a) as [|b|] eqn:Ea; simpl.
      * eexists. split; [reflexivity|]. simpl. rewrite upd_same.
        destruct (fw_secondary fs n); simpl; auto. congruence.
      * eexists. split; [reflexivity|]. simpl.
        rewrite upd_same, Nat.eqb_refl. simpl. auto.
      * eexists. split; [reflexivity|]. simpl.
        rewrite upd_same, Nat.eqb_refl. simpl. auto.
Qed.

Lemma fwnode_primary_and_secondary_witness :
  dev_fwnode lone_secondary 0 <> FW_ERR /\
  (primary_of lone_secondary 0 <> FW_NODE 5 ->
   exists fs',
     set_secondary_fwnode lone_secondary 0 (FW_NODE 5) = Some fs' /\
     secondary_of fs' 0 = FW_NODE 5 /\
     primary_of fs' 0 = primary_of lone_secondary 0) /\
  (secondary_of lone_secondary 0 <> FW_NODE 5 ->
   fw_secondary lone_secondary 5 <> FW_ERR ->
   exists fs',
     set_primary_fwnode lone_secondary 0 (FW_NODE 5) = Some fs' /\
     primary_of fs' 0 = FW_NODE 5 /\
     secondary_of fs' 0
     = match secondary_of lone_secondary 0 with
       | FW_NULL => fw_secondary lone_secondary 5
       | s => s
       end).
Proof.
  assert (H : dev_fwnode lone_secondary 0 <> FW_ERR)
    by (vm_compute; discriminate).
  split; [exact H|].
  exact (fwnode_primary_and_secondary lone_secondary 0 5 H).
Defined.

(** Device 0 has the secondary node 7; node 5 becomes its primary node
    and 7 stays its secondary node. *)
Example primary_over_secondary :
  secondary_of lone_secondary 0 = FW_NODE 7 /\
  primary_of lone_secondary 0 = FW_NULL /\
  option_map (fun fs => (primary_of fs 0, secondary_of fs 0))
             (set_primary_fwnode lone_secondary 0 (FW_NODE 5))
  = Some (FW_NODE 5, FW_NODE 7).
Proof. repeat split. Qed.

(** X22 (set_primary_fwnode with NULL). For a device whose [fwnode]
    pointer is not an error pointer, set_primary_fwnode(dev, NULL)
    writes no node and leaves [dev->fwnode] at the [secondary] of the
    primary node if the device has one, and at NULL otherwise: a device
    that has a secondary node only loses it. After
    set_primary_fwnode with a fresh node on a device without primary
    node, set_primary_fwnode(dev, NULL) gives [dev->fwnode] back as it
    was. *)
Theorem set_primary_fwnode_null : forall fs dev,
  dev_fwnode fs dev <> FW_ERR ->
  (exists fs',
     set_primary_fwnode fs dev FW_NULL = Some fs' /\
     fw_secondary fs' = fw_secondary fs /\
     (forall d, d <> dev -> dev_fwnode fs' d = dev_fwnode fs d) /\
     dev_fwnode fs' dev
     = match primary_of fs dev with
       | FW_NODE a => fw_secondary fs a
       | _ => FW_NULL
       end) /\
  (forall n,
     primary_of fs dev = FW_NULL -> fw_secondary fs n = FW_NULL ->
     dev_fwnode fs dev <> FW_NODE n ->
     exists fs1 fs2,
       set_primary_fwnode fs dev (FW_NODE n) = Some fs1 /\
       set_primary_fwnode fs1 dev FW_NULL = Some fs2 /\
       dev_fwnode fs2 dev = dev_fwnode fs dev).
Proof.
  intros fs dev Hne. split.
  - unfold set_primary_fwnode, primary_of. simpl.
    destruct (dev_fwnode fs dev) as [|a|] eqn:E; [| |congruence]; simpl.
    + eexists. split; [reflexivity|]. simpl. rewrite upd_same.
      repeat split. intros d Hd. now apply upd_other.
    + destruct (IS_ERR (fw_secondary fs a)) eqn:Ea; simpl.
      * eexists. split; [reflexivity|]. simpl. rewrite upd_same.
        repeat split. intros d Hd. now apply upd_other.
      * eexists. split; [reflexivity|]. simpl. rewrite upd_same.
        repeat split. intros d Hd. now apply upd_other.
  - intros n Hp Hn Hd. unfold set_primary_fwnode, primary_of in *. simpl.
    destruct (dev_fwnode fs dev) as [|a|] eqn:E; [| |congruence]; simpl.
    + eexists _, _. split; [reflexivity|]. simpl. rewrite upd_same. simpl.
      rewrite Hn. simpl. split; [reflexivity|]. simpl. now rewrite upd_same.
    + destruct (IS_ERR (fw_secondary fs a)) eqn:Ea; [|discriminate]. simpl.
      eexists _, _. split; [reflexivity|]. simpl. rewrite upd_same. simpl.
      rewrite Nat.eqb_refl. simpl. split; [reflexivity|]. simpl.
      now rewrite upd_same.
Qed.

Lemma set_primary_fwnode_null_witness :
  dev_fwnode lone_secondary 0 <> FW_ERR /\
  (exists fs',
     set_primary_fwnode lone_secondary 0 FW_NULL = Some fs' /\
     fw_secondary fs' = fw_secondary lone_secondary /\
     (forall d, d <> 0 -> dev_fwnode fs' d = dev_fwnode lone_secondary d) /\
     dev_fwnode fs' 0
     = match primary_of lone_secondary 0 with
       | FW_NODE a => fw_secondary lone_secondary a
       | _ => FW_NULL
       end) /\
  (forall n,
     primary_of lone_secondary 0 = FW_NULL ->
     fw_secondary lone_secondary n = FW_NULL ->
     dev_fwnode lone_secondary 0 <> FW_NODE n ->
     exists fs1 fs2,
       set_primary_fwnode lone_secondary 0 (FW_NODE n) = Some fs1 /\
       set_primary_fwnode fs1 0 FW_NULL = Some fs2 /\
       dev_fwnode fs2 0 = dev_fwnode lone_secondary 0).
Proof.
  assert (H : dev_fwnode lone_secondary 0 <> FW_ERR)
    by (vm_compute; discriminate).
  split; [exact H|].
  exact (set_primary_fwnode_null lone_secondary 0 H).
Defined.

(** The secondary node 7 of device 0 is gone after
    set_primary_fwnode(dev, NULL). *)
Example lone_secondary_dropped :
  secondary_of lone_secondary 0 = FW_NODE 7 /\
  option_map (fun fs => (dev_fwnode fs 0, secondary_of fs 0))
             (set_primary_fwnode lone_secondary 0 FW_NULL)
  = Some (FW_NULL, FW_NULL).
Proof. repeat split. Qed.

(** * The two recursive walks *)

(** X23 (device_is_dependent is exact). When every device stands on
    devices_kset->list in front of its children and of its consumers,
    with fuel above the number of registered devices,
    device_is_dependent returns, and it returns 1 exactly when the
    target is the device itself or can be reached from it through
    children and consumers: device_link_add then refuses a link for a
    dependency cycle only when there would be one. Where the order does
    not hold the children and consumers can form a cycle, and the
    recursion has no end on one that does not lead to the target. *)
Theorem device_is_dependent_exact : forall st fuel dev target,
  ordered st ->
  length (devices_kset st) < fuel ->
  (device_is_dependent fuel st dev target = Some true \/
   device_is_dependent fuel st dev target = Some false) /\
  (device_is_dependent fuel st dev target = Some true <->
   reach (succs st) dev target) /\
  (device_is_dependent fuel st dev target = Some false <->
   ~ reach (succs st) dev target).
Proof.
  intros st fuel dev target Hord Hlen.
  destruct (dep_decides st fuel dev target Hord Hlen) as [D1 D2].
  destruct (classic (reach (succs st) dev target)) as [Hre|Hre].
  - pose proof (D1 Hre) as E. split; [now left|]. split.
    + split; [intros _; exact Hre | intros _; exact E].
    + split; [intros E'; congruence | intros Hn; contradiction].
  - pose proof (D2 Hre) as E. split; [now right|]. split.
    + split; [intros E'; congruence | intros Hn; contradiction].
    + split; [intros _; exact Hre | intros _; exact E].
Qed.

Lemma device_is_dependent_exact_witness :
  ordered sample_state /\
  length (devices_kset sample_state) < 4 /\
  (device_is_dependent 4 sample_state 2 1 = Some true \/
   device_is_dependent 4 sample_state 2 1 = Some false) /\
  (device_is_dependent 4 sample_state 2 1 = Some true <->
   reach (succs sample_state) 2 1) /\
  (device_is_dependent 4 sample_state 2 1 = Some false <->
   ~ reach (succs sample_state) 2 1).
Proof.
  assert (H1 : ordered sample_state)
    by exact (inv_order _ (reachable_Inv _ sample_state_reachable)).
  assert (H2 : length (devices_kset sample_state) < 4) by (vm_compute; lia).
  split; [exact H1|]. split; [exact H2|].
  exact (device_is_dependent_exact sample_state 4 2 1 H1 H2).
Defined.

(** X24 (device_reorder_to_tail). When dpm_list and devices_kset->list
    are equal and hold no device twice, and every device stands on
    them in front of its children and of its consumers, with fuel
    above the number of registered devices, device_reorder_to_tail of
    a device returns and changes the two lists only. They stay equal,
    duplicate-free and with the same devices; the devices that do not
    depend on the device keep their order and all stand in front of
    those that do (the device itself included); and among those that
    were moved every device still stands in front of its children and
    consumers. *)
Theorem device_reorder_to_tail_effect : forall st fuel dev,
  dpm_list st = devices_kset st ->
  NoDup (devices_kset st) ->
  ordered st ->
  length (devices_kset st) < fuel ->
  exists st',
    device_reorder_to_tail fuel st dev = Some st' /\
    same_graph st st' /\
    dpm_list st' = devices_kset st' /\
    (forall x, In x (devices_kset st') <-> In x (devices_kset st)) /\
    NoDup (devices_kset st') /\
    (forall a b, ~ reach (succs st) dev a -> ~ reach (succs st) dev b ->
       lt_in (devices_kset st) a b -> lt_in (devices_kset st') a b) /\
    (forall a b, In a (devices_kset st) ->
       ~ reach (succs st) dev a -> reach (succs st) dev b ->
       lt_in (devices_kset st') a b) /\
    (forall u v, reach (succs st) dev u -> In v (succs st u) ->
       In u (devices_kset st) -> lt_in (devices_kset st') u v).
Proof.
  intros st fuel dev Hlists Hnd Hord Hlen.
  pose proof (ordered_ranked _ Hord) as Hrk.
  assert (Hret : device_reorder_to_tail fuel st dev <> None).
  { apply (reorder_total st _ _ Hrk fuel st dev (same_graph_refl _)).
    - apply index_of_le.
    - lia. }
  destruct (device_reorder_to_tail fuel st dev) as [st'|] eqn:E;
    [|congruence].
  destruct (reorder_visit fuel st st dev st' (same_graph_refl _) E)
    as (G & Vk & Vd).
  assert (Hacyc : forall u v, In v (succs st u) -> ~ reach (succs st) v u).
  { intros u v. eapply ranked_acyclic. exact Hrk. }
  destruct (visit_moved (succs st) Hacyc fuel _ _ _ Vk)
    as (M1 & Mn & M2 & M3 & M4).
  exists st'. split; [reflexivity|]. split; [exact G|].
  split; [rewrite Hlists in Vd; congruence|].
  split; [exact M1|]. split; [exact (Mn Hnd)|].
  split; [exact M2|]. split; [exact M3|exact M4].
Qed.

Lemma device_reorder_to_tail_effect_witness :
  dpm_list three_devices = devices_kset three_devices /\
  NoDup (devices_kset three_devices) /\
  ordered three_devices /\
  length (devices_kset three_devices) < 4 /\
  exists st',
    device_reorder_to_tail 4 three_devices 0 = Some st' /\
    same_graph three_devices st' /\
    dpm_list st' = devices_kset st' /\
    (forall x, In x (devices_kset st') <-> In x (devices_kset three_devices)) /\
    NoDup (devices_kset st') /\
    (forall a b, ~ reach (succs three_devices) 0 a ->
       ~ reach (succs three_devices) 0 b ->
       lt_in (devices_kset three_devices) a b ->
       lt_in (devices_kset st') a b) /\
    (forall a b, In a (devices_kset three_devices) ->
       ~ reach (succs three_devices) 0 a -> reach (succs three_devices) 0 b ->
       lt_in (devices_kset st') a b) /\
    (forall u v, reach (succs three_devices) 0 u ->
       In v (succs three_devices u) ->
       In u (devices_kset three_devices) -> lt_in (devices_kset st') u v).
Proof.
  pose proof (reachable_Inv _ three_devices_reachable) as HI.
  assert (H0 : dpm_list three_devices = devices_kset three_devices)
    by reflexivity.
  assert (Hn : NoDup (devices_kset three_devices)) by exact (inv_nodup _ HI).
  assert (H1 : ordered three_devices) by exact (inv_order _ HI).
  assert (H2 : length (devices_kset three_devices) < 4) by (vm_compute; lia).
  split; [exact H0|]. split; [exact Hn|]. split; [exact H1|].
  split; [exact H2|].
  exact (device_reorder_to_tail_effect three_devices 4 0 H0 Hn H1 H2).
Defined.

(** Reordering device 0 in the list 0, 1, 2 moves it and its child 1
    behind device 2. *)
Example reorder_three_devices :
  option_map devices_kset (device_reorder_to_tail 4 three_devices 0)
  = Some [2; 0; 1].
Proof. reflexivity. Qed.

(** ** The walks after a device_move *)

(** device_move keeps neither the order of the lists nor the forest of
    the klists. When device 0 has been moved under device 2 and put
    behind it, its child 1 stands in front of it, and device_shutdown
    runs the callback of the parent 0 before that of its child 1. *)
Example shutdown_after_move :
  devices_kset parent_moved_behind_child = [1; 2; 0] /\
  children parent_moved_behind_child 0 = [1] /\
  option_map snd (device_shutdown 4 all_shutdown_ops parent_moved_behind_child)
  = Some [Bus_shutdown 0; Bus_shutdown 2; Bus_shutdown 1].
Proof. repeat split. Qed.

(** When device 0 has been moved under its own child 1, each of the
    two is a child of the other, and neither device_is_dependent nor
    device_check_offline returns from device 0, whatever the fuel. *)
Example walks_after_move_under_child :
  children moved_under_child 0 = [1] /\
  children moved_under_child 1 = [0] /\
  (forall fuel, device_is_dependent fuel moved_under_child 0 2 = None) /\
  (forall fuel hp, device_check_offline fuel moved_under_child hp 0 = None).
Proof.
  assert (C0 : children moved_under_child 0 = [1]) by reflexivity.
  assert (C1 : children moved_under_child 1 = [0]) by reflexivity.
  assert (P0 : dev_p moved_under_child 0 = Some [1]) by reflexivity.
  assert (P1 : dev_p moved_under_child 1 = Some [0]) by reflexivity.
  split; [exact C0|]. split; [exact C1|]. split.
  - assert (H : forall fuel,
               device_is_dependent fuel moved_under_child 0 2 = None /\
               device_is_dependent fuel moved_under_child 1 2 = None).
    { induction fuel as [|n [IH0 IH1]]; [split; reflexivity|].
      split; cbn [device_is_dependent Nat.eqb].
      - rewrite C0. cbn [for_each_until]. now rewrite IH1.
      - rewrite C1. cbn [for_each_until]. now rewrite IH0. }
    intros fuel. exact (proj1 (H fuel)).
  - intros fuel hp.
    assert (H : device_check_offline fuel moved_under_child hp 0 = None /\
                device_check_offline fuel moved_under_child hp 1 = None).
    { induction fuel as [|n [IH0 IH1]]; [split; reflexivity|].
      split; cbn [device_check_offline]; unfold device_for_each_child.
      - rewrite P0. cbn [for_each_child_loop]. now rewrite IH1.
      - rewrite P1. cbn [for_each_child_loop]. now rewrite IH0. }
    exact (proj1 H).
Qed.

(** * A consumer that is bound *)

(** X25 (a bound consumer keeps its supplier). When
    device_links_check_suppliers has returned 0 for a consumer and
    device_links_driver_bound has then been called for it, every link
    to one of its suppliers that is not STATELESS has gone through
    CONSUMER_PROBE (which device_links_driver_bound expects) and is
    ACTIVE, and device_links_busy of that supplier returns true and
    leaves the link ACTIVE: the supplier cannot unbind. *)
Theorem bound_consumer_keeps_supplier : forall st dev l,
  snd (device_links_check_suppliers st dev) = 0%Z ->
  In l (suppliers st dev) -> stateless l = false ->
  In (probe_link dev l)
     (suppliers (fst (device_links_check_suppliers st dev)) dev) /\
  status (probe_link dev l) = DL_STATE_CONSUMER_PROBE /\
  In (with_status DL_STATE_ACTIVE l)
     (suppliers (device_links_driver_bound
                   (fst (device_links_check_suppliers st dev)) dev) dev) /\
  snd (device_links_busy
         (device_links_driver_bound
            (fst (device_links_check_suppliers st dev)) dev)
         (supplier l)) = true /\
  In (with_status DL_STATE_ACTIVE l)
     (links (fst (device_links_busy
                    (device_links_driver_bound
                       (fst (device_links_check_suppliers st dev)) dev)
                    (supplier l)))).
Proof.
  intros st dev l Hret Hin Hn.
  destruct (check_suppliers_links st dev) as [Hl Hs].
  rewrite Hs in Hret.
  destruct (forallb (supplier_ready dev) (links st)) eqn:E;
    [|now apply EPROBE_DEFER_nonzero in Hret].
  set (st1 := fst (device_links_check_suppliers st dev)) in *.
  set (st2 := device_links_driver_bound st1 dev).
  apply In_suppliers in Hin. destruct Hin as [Hin Hc].
  assert (Hp : probe_link dev l = with_status DL_STATE_CONSUMER_PROBE l).
  { unfold probe_link. now rewrite Hc, Nat.eqb_refl, Hn. }
  assert (H1 : In (probe_link dev l) (links st1)).
  { rewrite Hl. now apply in_map. }
  assert (Hb : bound_link dev (probe_link dev l)
               = with_status DL_STATE_ACTIVE l).
  { rewrite Hp. unfold bound_link, stateless in *. simpl.
    rewrite Hn. simpl.
    destruct (supplier l =? dev); simpl; now rewrite Hc, Nat.eqb_refl, Hn. }
  assert (H2 : In (with_status DL_STATE_ACTIVE l) (links st2)).
  { unfold st2. rewrite driver_bound_links. rewrite <- Hb.
    now apply in_map. }
  split; [apply In_suppliers; split; [exact H1|now rewrite Hp]|].
  split; [now rewrite Hp|].
  split; [apply In_suppliers; split; [exact H2|exact Hc]|].
  assert (Hex : existsb (busy_link (supplier l)) (links st2) = true).
  { apply existsb_exists. exists (with_status DL_STATE_ACTIVE l).
    split; [exact H2|]. apply busy_link_iff. simpl.
    split; [reflexivity|]. split; [exact Hn|]. now right. }
  destruct (links_busy_loop_true (supplier l) (links st2) [] Hex)
    as (pre & x & post & El & Hx & Hpre & Hloop).
  unfold device_links_busy. rewrite Hloop. simpl.
  split; [reflexivity|].
  rewrite El in H2.
  apply in_app_or in H2. apply in_or_app. destruct H2 as [H2|H2].
  - exfalso.
    assert (Hf : existsb (busy_link (supplier l)) pre = true).
    { apply existsb_exists. exists (with_status DL_STATE_ACTIVE l).
      split; [exact H2|]. apply busy_link_iff. simpl.
      split; [reflexivity|]. split; [exact Hn|]. now right. }
    congruence.
  - now right.
Qed.

Lemma bound_consumer_keeps_supplier_witness :
  snd (device_links_check_suppliers
         (device_links_driver_bound scenario_linked 1) 2) = 0%Z /\
  In (mk_link 1 1 2 0 DL_STATE_AVAILABLE false)
     (suppliers (device_links_driver_bound scenario_linked 1) 2) /\
  stateless (mk_link 1 1 2 0 DL_STATE_AVAILABLE false) = false /\
  In (probe_link 2 (mk_link 1 1 2 0 DL_STATE_AVAILABLE false))
     (suppliers (fst (device_links_check_suppliers
                        (device_links_driver_bound scenario_linked 1) 2)) 2) /\
  status (probe_link 2 (mk_link 1 1 2 0 DL_STATE_AVAILABLE false))
  = DL_STATE_CONSUMER_PROBE /\
  In (with_status DL_STATE_ACTIVE (mk_link 1 1 2 0 DL_STATE_AVAILABLE false))
     (suppliers (device_links_driver_bound
                   (fst (device_links_check_suppliers
                           (device_links_driver_bound scenario_linked 1) 2))
                   2) 2) /\
  snd (device_links_busy
         (device_links_driver_bound
            (fst (device_links_check_suppliers
                    (device_links_driver_bound scenario_linked 1) 2)) 2)
         (supplier (mk_link 1 1 2 0 DL_STATE_AVAILABLE false))) = true /\
  In (with_status DL_STATE_ACTIVE (mk_link 1 1 2 0 DL_STATE_AVAILABLE false))
     (links (fst (device_links_busy
                    (device_links_driver_bound
                       (fst (device_links_check_suppliers
                               (device_links_driver_bound scenario_linked 1)
                               2)) 2)
                    (supplier (mk_link 1 1 2 0 DL_STATE_AVAILABLE false))))).
Proof.
  assert (H1 : snd (device_links_check_suppliers
                      (device_links_driver_bound scenario_linked 1) 2) = 0%Z)
    by reflexivity.
  assert (H2 : In (mk_link 1 1 2 0 DL_STATE_AVAILABLE false)
                  (suppliers (device_links_driver_bound scenario_linked 1) 2))
    by (vm_compute; left; reflexivity).
  assert (H3 : stateless (mk_link 1 1 2 0 DL_STATE_AVAILABLE false) = false)
    by reflexivity.
  split; [exact H1|]. split; [exact H2|]. split; [exact H3|].
  exact (bound_consumer_keeps_supplier
           (device_links_driver_bound scenario_linked 1) 2
           (mk_link 1 1 2 0 DL_STATE_AVAILABLE false) H1 H2 H3).
Defined.

(** * The life of a device *)

Lemma Inv_all_device_initialize : forall st dev,
  Inv_all st -> Inv_all (device_initialize st dev).
Proof.
  intros st dev HI. apply (Inv_all_shrink (fun _ => true) st); auto.
  simpl. now rewrite filter_true.
Qed.

(** X26 (references over the life of a device). In a state the calls of
    the driver core lead to, for a device that is not registered and
    that no link names: if device_register fails, the device is left
    with the one reference of device_initialize, which the put_device
    of the caller gives up, and no other count has changed; if it
    succeeds, with a probe that leaves the state as it is,
    device_unregister returns, the count of the device is 0
    afterwards, and the lists, the klists, the links and the counts of
    all other devices are those of before the registration. *)
Theorem register_unregister_balance : forall st dev env st1 err,
  reachable_by_calls st ->
  ~ In dev (devices_kset st) ->
  (forall l, In l (links st) -> supplier l <> dev /\ consumer l <> dev) ->
  device_register st dev env no_probe = Some (st1, err) ->
  (err <> 0%Z ->
   dev_kref st1 dev = 1 /\
   dev_kref (put_device st1 (Some dev)) dev = 0 /\
   (forall d, d <> dev -> dev_kref st1 d = dev_kref st d) /\
   devices_kset st1 = devices_kset st /\ dpm_list st1 = dpm_list st) /\
  (err = 0%Z ->
   exists st2,
     device_unregister st1 dev = Some st2 /\
     dev_kref st2 dev = 0 /\
     (forall d, d <> dev -> dev_kref st2 d = dev_kref st d) /\
     devices_kset st2 = devices_kset st /\ dpm_list st2 = dpm_list st /\
     links st2 = links st /\
     (forall d, children st2 d = children st d)).
Proof.
  intros st dev env st1 err Hr Hn Hno Hreg. unfold device_register in Hreg.
  pose proof (by_calls_Inv_all st Hr) as HA.
  pose proof (Inv_all_device_initialize st dev HA) as HA0.
  set (s0 := device_initialize st dev) in *.
  assert (K0 : dev_kref s0 dev = 1) by (simpl; apply upd_same).
  assert (K0' : forall d, d <> dev -> dev_kref s0 d = dev_kref st d).
  { intros d Hd. simpl. now apply upd_other. }
  assert (Hn0 : ~ In dev (devices_kset s0)) by exact Hn.
  assert (Hno0 : forall l, In l (links s0) ->
                           supplier l <> dev /\ consumer l <> dev)
    by exact Hno.
  split.
  - intros Herr.
    assert (Hnd : ~ In dev (dpm_list s0)).
    { simpl. rewrite (inv_lists _ (inv_base _ HA)). exact Hn. }
    destruct (device_add_fail _ _ _ _ _ _ Hn0 Hnd Hreg Herr)
      as (_ & Hk & Hd & _ & _ & _ & _ & Hkr & _).
    split; [now rewrite Hkr|]. split.
    + simpl. rewrite upd_same, Hkr, K0. reflexivity.
    + split; [intros d Hd'; rewrite Hkr; now apply K0'|]. split; assumption.
  - intros ->.
    destruct (device_del_after_add s0 dev env st1 HA0 Hn0 Hno0 Hreg)
      as (st2 & Hdel & Dk & Dd & Dl & Dch & Dkr & _).
    exists (put_device st2 (Some dev)). unfold device_unregister.
    rewrite Hdel. split; [reflexivity|]. simpl.
    split; [rewrite upd_same, Dkr, K0; reflexivity|].
    split.
    { intros d Hd. rewrite upd_other by exact Hd. rewrite Dkr.
      now apply K0'. }
    repeat split; assumption.
Qed.

Lemma register_unregister_balance_witness :
  reachable_by_calls three_devices /\
  ~ In 3 (devices_kset three_devices) /\
  (forall l, In l (links three_devices) -> supplier l <> 3 /\ consumer l <> 3)
  /\
  device_register three_devices 3 ok_env no_probe
  = Some (run_add (device_initialize three_devices 3) 3, 0%Z) /\
  ((0 <> 0)%Z ->
   dev_kref (run_add (device_initialize three_devices 3) 3) 3 = 1 /\
   dev_kref (put_device (run_add (device_initialize three_devices 3) 3)
               (Some 3)) 3 = 0 /\
   (forall d, d <> 3 ->
      dev_kref (run_add (device_initialize three_devices 3) 3) d
      = dev_kref three_devices d) /\
   devices_kset (run_add (device_initialize three_devices 3) 3)
   = devices_kset three_devices /\
   dpm_list (run_add (device_initialize three_devices 3) 3)
   = dpm_list three_devices) /\
  (0%Z = 0%Z ->
   exists st2,
     device_unregister (run_add (device_initialize three_devices 3) 3) 3
     = Some st2 /\
     dev_kref st2 3 = 0 /\
     (forall d, d <> 3 -> dev_kref st2 d = dev_kref three_devices d) /\
     devices_kset st2 = devices_kset three_devices /\
     dpm_list st2 = dpm_list three_devices /\
     links st2 = links three_devices /\
     (forall d, children st2 d = children three_devices d)).
Proof.
  assert (H1 : reachable_by_calls three_devices)
    by exact (reachable_by_calls_of_reachable _ three_devices_reachable).
  assert (H2 : ~ In 3 (devices_kset three_devices))
    by (vm_compute; intuition lia).
  assert (H3 : forall l, In l (links three_devices) ->
                         supplier l <> 3 /\ consumer l <> 3)
    by (intros l []).
  assert (H4 : device_register three_devices 3 ok_env no_probe
               = Some (run_add (device_initialize three_devices 3) 3, 0%Z))
    by (vm_compute; reflexivity).
  split; [exact H1|]. split; [exact H2|]. split; [exact H3|].
  split; [exact H4|].
  exact (register_unregister_balance three_devices 3 ok_env _ 0%Z
           H1 H2 H3 H4).
Defined.
